(** * DTD: link-layer protocol and reliability stack

    A shallow embedding of the terminal radio (ta/ta_radio_433.py), the
    terminal application table (ta/ta_app.py), the boxes of the screen
    (ta/ta_ui.py) and the remote detector (dd/main.py), with the
    properties of the specification proved, or refuted at a concrete
    input, over it, and further properties of the code.

    Conventions
    - Python [int] is [Z]; [&], [^], [//] and [%] are [Z.land], [Z.lxor],
      [Z.div] and [Z.modulo] (floor division, sign of the divisor).
    - [bytes] is [list Z]; the constructor [bytes([...])] checks the range
      0..255 and raises [ValueError] otherwise.
    - Python [float] values are the rationals they denote ([Q]).  The
      rounding of the floating-point unit (binary64) is not modelled:
      a float result is given as the exact value, and the properties
      that depend on the digits of a float computation are stated where
      that computation is exact ([float_exact]).  The overflow of a
      true division of ints is modelled ([OverflowError]).
    - A Python dict is a [gmap].
    - Exceptions are an explicit outcome ([Raise]); stateful code threads
      its state explicitly. *)

From Stdlib Require Import ZArith QArith Qround Qpower Lia Lqa List Bool String.
From stdpp Require Import gmap list.
Import ListNotations.
Local Open Scope Z_scope.

(** ** Python primitives *)

Module Py.

Inductive exn : Type :=
| ValueError
| IndexError
| ZeroDivisionError
| TypeError
| OverflowError
| OSError.

(** Outcome of a Python call.  [OutOfFuel] is not a Python outcome: it
    marks a bounded unrolling of a [while] loop that was cut short, and no
    [except] clause catches it. *)
Inductive result (A : Type) : Type :=
| Ok (a : A)
| Raise (e : exn)
| OutOfFuel.
Arguments Ok {A} a.
Arguments Raise {A} e.
Arguments OutOfFuel {A}.

Definition rbind {A B} (r : result A) (k : A -> result B) : result B :=
  match r with
  | Ok a => k a
  | Raise e => Raise e
  | OutOfFuel => OutOfFuel
  end.

Abbreviation bytes := (list Z).

Definition len {A} (l : list A) : Z := Z.of_nat (length l).

Definition is_byte (b : Z) : bool := (0 <=? b) && (b <=? 255).

(** [bytes(l)] for a list of ints [l]. *)
Definition bytes_of (l : list Z) : result bytes :=
  if forallb is_byte l then Ok l else Raise ValueError.

(** Normalisation of a slice bound: a negative bound counts from the end,
    and the result is clamped to [0, n]. *)
Definition clamp_index (n i : Z) : Z :=
  let i' := if i <? 0 then i + n else i in
  Z.max 0 (Z.min n i').

(** [buf[i]] *)
Definition getitem (buf : bytes) (i : Z) : result Z :=
  let j := if i <? 0 then i + len buf else i in
  if j <? 0 then Raise IndexError
  else match buf !! Z.to_nat j with
       | Some b => Ok b
       | None => Raise IndexError
       end.

(** [buf[a:b]] *)
Definition slice (buf : bytes) (a b : Z) : bytes :=
  let n := len buf in
  let lo := clamp_index n a in
  let hi := clamp_index n b in
  take (Z.to_nat (hi - lo)) (drop (Z.to_nat lo) buf).

Fixpoint index_of (b : Z) (l : bytes) : option nat :=
  match l with
  | [] => None
  | x :: l' => if x =? b then Some O else option_map S (index_of b l')
  end.

(** [buf.find(bytes([b]), start)] *)
Definition find (buf : bytes) (b : Z) (start : Z) : Z :=
  let lo := clamp_index (len buf) start in
  match index_of b (drop (Z.to_nat lo) buf) with
  | Some k => lo + Z.of_nat k
  | None => -1
  end.

(** [int(q)]: truncation toward zero. *)
Definition int_of_Q (q : Q) : Z :=
  if Qle_bool 0 q then Qfloor q else Qceiling q.

(** The magnitude from which a quotient is too large for a float
    (binary64): half-way between the largest float and [2 ^ 1024], from
    where rounding to nearest gives [2 ^ 1024]. *)
Definition FLOAT_OVERFLOW : Z := 2 ^ 1024 - 2 ^ 970.

(** [a / b] on ints (true division): [ZeroDivisionError] on a zero
    divisor, [OverflowError] when the quotient is too large for a float.
    The quotient returned is the exact one (see the conventions). *)
Definition truediv (a b : Z) : result Q :=
  if b =? 0 then Raise ZeroDivisionError
  else if FLOAT_OVERFLOW * Z.abs b <=? Z.abs a then Raise OverflowError
  else Ok (Qmake a 1 / Qmake b 1)%Q.

(** State and exceptions: a call runs from a state and gives an outcome
    and the state it leaves (the mutations made before an exception stay). *)
Definition M (S A : Type) : Type := S -> result A * S.

Definition ret {S A} (a : A) : M S A := fun s => (Ok a, s).

Definition bind {S A B} (m : M S A) (k : A -> M S B) : M S B :=
  fun s =>
    match m s with
    | (Ok a, s') => k a s'
    | (Raise e, s') => (Raise e, s')
    | (OutOfFuel, s') => (OutOfFuel, s')
    end.

Definition lift {S A} (r : result A) : M S A := fun s => (r, s).

Definition gets {S A} (f : S -> A) : M S A := fun s => (Ok (f s), s).

Definition modify {S} (f : S -> S) : M S unit := fun s => (Ok tt, f s).

(** [try: m except Exception: h] *)
Definition try_except {S A} (m : M S A) (h : M S A) : M S A :=
  fun s =>
    match m s with
    | (Raise _, s') => h s'
    | other => other
    end.

End Py.
Import Py.

Declare Scope py_scope.
Notation "'let*' x ':=' c1 'in' c2" := (rbind c1 (fun x => c2))
  (at level 10, x name, c1 at level 100, c2 at level 200) : py_scope.
Notation "'let+' x ':=' c1 'in' c2" := (bind c1 (fun x => c2))
  (at level 10, x name, c1 at level 100, c2 at level 200) : py_scope.
Notation "c1 ';;' c2" := (bind c1 (fun _ => c2))
  (at level 100, c2 at level 200, right associativity) : py_scope.
Local Open Scope py_scope.

(** ** ta/ta_config.py (the RADIO section) *)

Module ta_config.

Record RetryCfg : Type := {
  MAX_RETRIES : Z;
  TIMEOUT_BASE_MS : Z;
  TIMEOUT_MULTIPLIER : Q;
  BACKOFF_ENABLED : bool;
  BACKOFF_MS : Z
}.

Definition SIMULATE : bool := true.
Definition GROUP_IDS : list Z := [1; 2; 3; 4; 5].
Definition POLL_PERIOD_MS : Z := 1500.
Definition REPLY_TIMEOUT_MS : Z := 500.

Definition RETRY : RetryCfg := {|
  MAX_RETRIES := 3;
  TIMEOUT_BASE_MS := 500;
  TIMEOUT_MULTIPLIER := (3 # 2)%Q;
  BACKOFF_ENABLED := true;
  BACKOFF_MS := 100
|}.

Definition STATE_UNKNOWN : Z := 0.
Definition STATE_PRESENT : Z := 1.
Definition STATE_ABSENT : Z := 2.

Definition START_BYTE : Z := 0xA5.
Definition END_BYTE : Z := 0x5A.
Definition PROTO_VER : Z := 0x01.
Definition MAX_LEN : Z := 16.

Definition STATS_ENABLED : bool := true.

End ta_config.

(** ** ta/ta_radio_433.py: frames *)

Module ta_radio_433.
Import ta_config.

Definition CMD_PING : Z := 0x10.
Definition CMD_GET_STS : Z := 0x20.
Definition CMD_SET_MODE : Z := 0x30.

Definition _chk (ver cmd grp : Z) (payload : bytes) : Z :=
  let s := Z.land (Z.lxor (Z.lxor (Z.lxor ver cmd) (Z.land grp 0xFF)) (len payload)) 0xFF in
  let s := fold_left (fun s b => Z.lxor s (Z.land b 0xFF)) payload s in
  Z.land s 0xFF.

(** [payload] is [None] when the caller passes Python's [None]. *)
Definition _mk_frame (cmd gid : Z) (payload : option bytes) : result bytes :=
  let payload := match payload with None => [] | Some p => p end in
  if len payload >? MAX_LEN - 7 then Raise ValueError
  else
    let ver := Z.land PROTO_VER 0xFF in
    let gid := Z.land gid 0xFF in
    let ln := Z.land (len payload) 0xFF in
    let chk := _chk ver cmd gid payload in
    let* hd := bytes_of [START_BYTE; ver; cmd; gid; ln] in
    let* tl := bytes_of [chk; END_BYTE] in
    Ok (hd ++ payload ++ tl).

(** A parsed frame: [(cmd, gid, payload)]. *)
Definition frame : Type := Z * Z * bytes.

Definition _parse_frame (buf : bytes) : result (option frame) :=
  if (match buf with [] => true | _ => false end) || (len buf <? 7) then Ok None
  else
    let* b0 := getitem buf 0 in
    if negb (b0 =? START_BYTE) then Ok None
    else
      let* bl := getitem buf (-1) in
      if negb (bl =? END_BYTE) then Ok None
      else
        let* ver := getitem buf 1 in
        let* cmd := getitem buf 2 in
        let* gid := getitem buf 3 in
        let* ln := getitem buf 4 in
        if negb (5 + ln + 2 =? len buf) then Ok None
        else
          let payload := slice buf 5 (5 + ln) in
          let* chk := getitem buf (5 + ln) in
          if negb (_chk ver cmd gid payload =? chk) then Ok None
          else Ok (Some (cmd, gid, payload)).

(** *** Statistics *)

Record RadioStats : Type := {
  tx_count : Z;
  rx_count : Z;
  tx_errors : Z;
  rx_errors : Z;
  timeouts : Z;
  avg_rssi : Q;
  last_update : Z
}.

Module RadioStats_.

Definition reset (now : Z) : RadioStats := {|
  tx_count := 0; rx_count := 0; tx_errors := 0; rx_errors := 0;
  timeouts := 0; avg_rssi := 0; last_update := now
|}.

Definition update_tx (success : bool) (s : RadioStats) : RadioStats := {|
  tx_count := tx_count s + 1;
  rx_count := rx_count s;
  tx_errors := if success then tx_errors s else tx_errors s + 1;
  rx_errors := rx_errors s;
  timeouts := timeouts s;
  avg_rssi := avg_rssi s;
  last_update := last_update s
|}.

Definition update_rx (success : bool) (rssi : Q) (s : RadioStats) : RadioStats := {|
  tx_count := tx_count s;
  rx_count := rx_count s + 1;
  tx_errors := tx_errors s;
  rx_errors := if success then rx_errors s else rx_errors s + 1;
  timeouts := timeouts s;
  avg_rssi := if success
              then (avg_rssi s * (9 # 10) + rssi * (1 # 10))%Q
              else avg_rssi s;
  last_update := last_update s
|}.

Definition update_timeout (s : RadioStats) : RadioStats := {|
  tx_count := tx_count s;
  rx_count := rx_count s;
  tx_errors := tx_errors s;
  rx_errors := rx_errors s;
  timeouts := timeouts s + 1;
  avg_rssi := avg_rssi s;
  last_update := last_update s
|}.

Definition get_success_rate (s : RadioStats) : result Q :=
  let total := tx_count s + rx_count s in
  if total =? 0 then Ok 0%Q
  else
    let errors := tx_errors s + rx_errors s in
    let* ratio := truediv errors total in
    Ok (100 * (1 - ratio))%Q.

End RadioStats_.

(** *** DDStatus *)

Record DDStatus : Type := {
  dd_id : Z;
  state : Z;
  battery : Z;
  rssi : Z;
  flags : Z
}.

(** *** The radio object and the hardware around it *)

(** What one call of [uart.write] does. *)
Inductive UartWrite : Type :=
| WriteReturns (n : Z)
| WriteRaises.

(** What one [uart.any()] / [uart.read(n)] round does: nothing waiting,
    the bytes read (empty when [read] gives [None]), or an exception. *)
Inductive UartRead : Type :=
| ReadNothing
| ReadData (d : bytes)
| ReadRaises.

Inductive Event : Type :=
| EvWrite (data : bytes)
| EvSleep (ms : Z).

(** The hardware: the millisecond clock, what the UART will do at the next
    calls, the bits the random generator will give, and the outputs so
    far.  The clock is ideal (no wrap-around of the tick counter) and
    moves when the program sleeps. *)
Record Env : Type := {
  clock : Z;
  uart_tx : list UartWrite;
  uart_rx : list UartRead;
  rng : list Z;
  log : list Event
}.

Record Radio : Type := {
  simulate : bool;
  _tick : Z;
  _sim_states : gmap Z Z;
  stats : option RadioStats;
  uart : bool   (* [self.uart] is not [None] *)
}.

Definition St : Type := Radio * Env.

Definition set_stats (f : RadioStats -> RadioStats) (r : Radio) : Radio := {|
  simulate := simulate r;
  _tick := _tick r;
  _sim_states := _sim_states r;
  stats := option_map f (stats r);
  uart := uart r
|}.

Definition set_tick (t : Z) (r : Radio) : Radio := {|
  simulate := simulate r;
  _tick := t;
  _sim_states := _sim_states r;
  stats := stats r;
  uart := uart r
|}.

Definition set_sim_states (m : gmap Z Z) (r : Radio) : Radio := {|
  simulate := simulate r;
  _tick := _tick r;
  _sim_states := m;
  stats := stats r;
  uart := uart r
|}.

Definition _ticks : M St Z := gets (fun st => clock (snd st)).

Definition _diff (a b : Z) : Z := a - b.

Definition _sleep_ms (ms : Z) : M St unit :=
  modify (fun '(r, e) =>
    (r, {| clock := clock e + Z.max 0 ms;
           uart_tx := uart_tx e;
           uart_rx := uart_rx e;
           rng := rng e;
           log := log e ++ [EvSleep ms] |})).

Definition _randbits (n : Z) : M St Z :=
  fun '(r, e) =>
    match rng e with
    | [] => (Ok 0, (r, e))
    | x :: rest =>
        (Ok (x mod 2 ^ n),
         (r, {| clock := clock e; uart_tx := uart_tx e; uart_rx := uart_rx e;
                rng := rest; log := log e |}))
    end.

(** [self.uart.write(data)] *)
Definition uart_write (data : bytes) : M St UartWrite :=
  fun '(r, e) =>
    let '(o, rest) := match uart_tx e with
                      | [] => (WriteReturns (len data), [])
                      | o :: rest => (o, rest)
                      end in
    (Ok o,
     (r, {| clock := clock e; uart_tx := rest; uart_rx := uart_rx e;
            rng := rng e; log := log e ++ [EvWrite data] |})).

(** [self.uart.any()] followed, when something waits, by [self.uart.read(n)] *)
Definition uart_read : M St UartRead :=
  fun '(r, e) =>
    match uart_rx e with
    | [] => (Ok ReadNothing, (r, e))
    | o :: rest =>
        (Ok o,
         (r, {| clock := clock e; uart_tx := uart_tx e; uart_rx := rest;
                rng := rng e; log := log e |}))
    end.

Definition stats_do (f : RadioStats -> RadioStats) : M St unit :=
  modify (fun '(r, e) => (set_stats f r, e)).

Definition _write (data : bytes) : M St Z :=
  let+ sim := gets (fun st => simulate (fst st) || negb (uart (fst st))) in
  if sim then ret (len data)
  else
    let+ o := uart_write data in
    match o with
    | WriteReturns written =>
        stats_do (RadioStats_.update_tx (written =? len data)) ;;
        ret written
    | WriteRaises =>
        stats_do (RadioStats_.update_tx false) ;;
        ret 0
    end.

Definition _read_all : M St bytes :=
  let+ sim := gets (fun st => simulate (fst st) || negb (uart (fst st))) in
  if sim then ret []
  else
    let+ o := uart_read in
    match o with
    | ReadNothing => ret []
    | ReadData data =>
        (match data with
         | [] => ret tt
         | _ => stats_do (RadioStats_.update_rx true 0)
         end) ;;
        ret data
    | ReadRaises =>
        stats_do (RadioStats_.update_rx false 0) ;;
        ret []
    end.

(** *** Exchanges *)

(** The search made on the receive buffer each time bytes arrive: the
    first start marker, the first end marker after it, and the bytes in
    between handed to [_parse_frame]. *)
Definition _scan (buf : bytes) : result (option frame) :=
  let s := find buf START_BYTE 0 in
  let e := find buf END_BYTE (s + 1) in
  if (s >=? 0) && (e >? s) then
    let pkt := slice buf s (e + 1) in
    _parse_frame pkt
  else Ok None.

(** The [while _diff(_ticks(), t0) < timeout_ms] loop of [_exchange],
    unrolled at most [fuel] times. *)
Fixpoint _exchange_loop (fuel : nat) (t0 timeout_ms : Z) (buf : bytes)
  : M St (option frame) :=
  match fuel with
  | O => lift OutOfFuel
  | S fuel' =>
      let+ t := _ticks in
      if _diff t t0 <? timeout_ms then
        let+ chunk := _read_all in
        let buf' := buf ++ chunk in
        let+ parsed := match chunk with
                       | [] => ret None
                       | _ => lift (_scan buf')
                       end in
        match parsed with
        | Some f => ret (Some f)
        | None => _sleep_ms 5 ;; _exchange_loop fuel' t0 timeout_ms buf'
        end
      else
        stats_do RadioStats_.update_timeout ;;
        ret None
  end.

Definition b_OK : bytes := [79; 75].
Definition b_ACK : bytes := [65; 67; 75].

Definition _exchange (cmd gid : Z) (payload : bytes) (timeout_ms : Z)
  : M St (option frame) :=
  let+ sim := gets (fun st => simulate (fst st)) in
  if sim then
    if cmd =? CMD_PING then
      let+ x := _randbits 6 in
      _sleep_ms (50 + Z.land x 0x3F) ;;
      ret (Some (CMD_PING, gid, b_OK))
    else if cmd =? CMD_GET_STS then
      let+ x := _randbits 7 in
      _sleep_ms (50 + x) ;;
      let+ states := gets (fun st => _sim_states (fst st)) in
      let st := default STATE_UNKNOWN (states !! gid) in
      let+ y := _randbits 4 in
      let+ st := if (y =? 0) && negb (st =? STATE_UNKNOWN) then
                   let st' := if st =? STATE_ABSENT then STATE_PRESENT else STATE_ABSENT in
                   modify (fun '(r, e) => (set_sim_states (<[gid := st']> (_sim_states r)) r, e)) ;;
                   ret st'
                 else ret st in
      let+ b := lift (bytes_of [st]) in
      ret (Some (CMD_GET_STS, gid, b))
    else if cmd =? CMD_SET_MODE then
      ret (Some (CMD_SET_MODE, gid, b_ACK))
    else ret None
  else
    let+ frame := lift (_mk_frame cmd gid (Some payload)) in
    _write frame ;;
    let+ t0 := _ticks in
    _exchange_loop (S (Z.to_nat timeout_ms)) t0 timeout_ms [].

(** [range(n)] *)
Definition range (n : Z) : list Z := map Z.of_nat (seq 0 (Z.to_nat n)).

(** [_exchange_with_retry], over the single exchange it calls
    ([self._exchange]), the sleep it uses and the retry table it reads. *)
Section Retry.

Context {S : Type}.
Variable exchange : Z -> Z -> bytes -> Z -> M S (option frame).
Variable sleep_ms : Z -> M S unit.
Variable RETRY_CFG : RetryCfg.

(** [int(TIMEOUT_BASE_MS * (TIMEOUT_MULTIPLIER ** attempt))], over the
    exact product.  The source computes the power and the product in
    floats: the value below is the one it computes when that
    computation is exact ([float_exact]), as it is for the configured
    table; for another table the rounding of the floats can give a
    different integer, and a power too large for a float raises. *)
Definition attempt_timeout (attempt : Z) : Z :=
  int_of_Q (inject_Z (TIMEOUT_BASE_MS RETRY_CFG)
            * Qpower (TIMEOUT_MULTIPLIER RETRY_CFG) attempt)%Q.

(** The float computation of the timeout of [attempt] is exact: the
    multiplier is a binary fraction, and the base, the power and the
    product have less than 53 significant bits (and the power a
    denominator within the exponent range), so that no step rounds. *)
Definition float_exact (attempt : Z) : bool :=
  let n := Z.abs (Qnum (TIMEOUT_MULTIPLIER RETRY_CFG)) in
  let d := Zpos (Qden (TIMEOUT_MULTIPLIER RETRY_CFG)) in
  let b := Z.abs (TIMEOUT_BASE_MS RETRY_CFG) in
  (d =? 2 ^ Z.log2 d)
  && (b <? 2 ^ 53)
  && (n ^ attempt <? 2 ^ 53)
  && (b * n ^ attempt <? 2 ^ 53)
  && (d ^ attempt <=? 2 ^ 1074).

Fixpoint _retry_attempts (attempts : list Z) (cmd gid : Z) (payload : bytes)
  : M S (option frame) :=
  match attempts with
  | [] => ret None
  | attempt :: rest =>
      let timeout := attempt_timeout attempt in
      let+ result := exchange cmd gid payload timeout in
      match result with
      | Some r => ret (Some r)
      | None =>
          (if BACKOFF_ENABLED RETRY_CFG && (attempt <? MAX_RETRIES RETRY_CFG - 1)
           then sleep_ms (BACKOFF_MS RETRY_CFG * (attempt + 1))
           else ret tt) ;;
          _retry_attempts rest cmd gid payload
      end
  end.

Definition _exchange_with_retry_on (cmd gid : Z) (payload : bytes)
  : M S (option frame) :=
  _retry_attempts (range (MAX_RETRIES RETRY_CFG)) cmd gid payload.

End Retry.

Definition _exchange_with_retry : Z -> Z -> bytes -> M St (option frame) :=
  _exchange_with_retry_on _exchange _sleep_ms RETRY.

(** [resp[2][0] if resp and resp[0] == CMD_GET_STS and len(resp[2]) == 1
    else STATE_UNKNOWN] *)
Definition status_of_reply (resp : option frame) : Z :=
  match resp with
  | Some (cmd, _, [b]) => if cmd =? CMD_GET_STS then b else STATE_UNKNOWN
  | _ => STATE_UNKNOWN
  end.

Definition poll_period : Z :=
  Z.max 1 (let p := POLL_PERIOD_MS / 200 in if p =? 0 then 1 else p).

(** The body of [for gid in GROUP_IDS] in [poll_status]. *)
Definition poll_one (gid : Z) : M St DDStatus :=
  let+ sim := gets (fun st => simulate (fst st)) in
  if sim then
    let+ states := gets (fun st => _sim_states (fst st)) in
    let st := default STATE_UNKNOWN (states !! gid) in
    let+ x := _randbits 5 in
    let batt := 75 + x mod 25 in
    let+ y := _randbits 5 in
    let rssi := 110 - y mod 30 in
    ret {| dd_id := gid; state := st; battery := batt; rssi := rssi; flags := 0 |}
  else
    let+ resp := _exchange_with_retry CMD_GET_STS gid [] in
    let st := status_of_reply resp in
    ret {| dd_id := gid; state := st; battery := 90; rssi := 90; flags := 0 |}.

Fixpoint poll_each (gids : list Z) (out : list DDStatus) : M St (list DDStatus) :=
  match gids with
  | [] => ret out
  | gid :: rest =>
      let+ d := poll_one gid in
      poll_each rest (out ++ [d])
  end.

Definition poll_status : M St (list DDStatus) :=
  let out := [] in
  modify (fun '(r, e) => (set_tick (_tick r + 1) r, e)) ;;
  let period := poll_period in
  let+ tick := gets (fun st => _tick (fst st)) in
  if tick mod period =? 0 then poll_each GROUP_IDS out
  else ret out.

Definition request_status (dd_id : Z) : M St Z :=
  if negb (bool_decide (dd_id ∈ GROUP_IDS)) then ret STATE_UNKNOWN
  else
    let+ resp := _exchange_with_retry CMD_GET_STS dd_id [] in
    ret (status_of_reply resp).

(** *** Presence of the hardware, and construction *)

Definition ping : M St bool :=
  let+ resp := _exchange CMD_PING 0 [] REPLY_TIMEOUT_MS in
  ret (match resp with
       | Some (cmd, _, payload) => (cmd =? CMD_PING) && bool_decide (payload = b_OK)
       | None => false
       end).

(** [for _ in range(n): if self.ping(): return True; _sleep_ms(100)],
    then [return False]. *)
Fixpoint check_pings (n : nat) : M St bool :=
  match n with
  | O => ret false
  | S n' =>
      let+ ok := ping in
      if ok then ret true
      else _sleep_ms 100 ;; check_pings n'
  end.

Definition check_hardware : M St bool :=
  let+ sim := gets (fun st => simulate (fst st)) in
  if sim then ret true else check_pings 3.

Definition radio_do (f : Radio -> Radio) : M St unit :=
  modify (fun '(r, e) => (f r, e)).

Definition set_simulate (b : bool) (r : Radio) : Radio := {|
  simulate := b;
  _tick := _tick r;
  _sim_states := _sim_states r;
  stats := stats r;
  uart := uart r
|}.

Definition set_uart (b : bool) (r : Radio) : Radio := {|
  simulate := simulate r;
  _tick := _tick r;
  _sim_states := _sim_states r;
  stats := stats r;
  uart := b
|}.

Definition put_stats (s : option RadioStats) (r : Radio) : Radio := {|
  simulate := simulate r;
  _tick := _tick r;
  _sim_states := _sim_states r;
  stats := s;
  uart := uart r
|}.

(** [{gid: (STATE_PRESENT if (_randbits(1) == 1) else STATE_ABSENT)
      for gid in gids}], built onto [m]. *)
Fixpoint roll_sim_states (gids : list Z) (m : gmap Z Z) : M St (gmap Z Z) :=
  match gids with
  | [] => ret m
  | gid :: rest =>
      let+ x := _randbits 1 in
      roll_sim_states rest
        (<[gid := if x =? 1 then STATE_PRESENT else STATE_ABSENT]> m)
  end.

(** [Radio.__init__], writing the attributes of [self] one after the
    other.  [simulate_cfg] is the configured [RADIO["SIMULATE"]] and
    [uart_ctor_ok] tells whether the constructor [UART(...)] returns
    (otherwise it raises).  The SET pin, the frame cache and the
    receive buffer, which nothing else reads, are left out. *)
Definition __init__ (simulate_cfg uart_ctor_ok : bool) : M St unit :=
  radio_do (set_simulate simulate_cfg) ;;
  radio_do (set_tick 0) ;;
  let+ sims := roll_sim_states GROUP_IDS ∅ in
  radio_do (set_sim_states sims) ;;
  let+ now := _ticks in
  radio_do (put_stats (if STATS_ENABLED then Some (RadioStats_.reset now) else None)) ;;
  radio_do (set_uart false) ;;
  let+ sim := gets (fun st => simulate (fst st)) in
  (if negb sim then
     try_except
       ((if uart_ctor_ok then radio_do (set_uart true)
         else lift (Raise ValueError)) ;;
        let+ ok := check_hardware in
        if negb ok then radio_do (set_simulate true) else ret tt)
       (radio_do (set_simulate true))
   else ret tt) ;;
  ret tt.

End ta_radio_433.

(** ** ta/ta_app.py: the terminal's table of device states *)

Module ta_app.
Import ta_config ta_radio_433.

Record TaApp : Type := {
  radio : Radio;
  states : gmap Z Z;
  testing_id : option Z;
  loop_count : Z;
  error_count : Z
}.

Definition AppSt : Type := TaApp * Env.

(** [{dd_id: STATE_UNKNOWN for dd_id in GROUP_IDS}] *)
Definition initial_states (ids : list Z) : gmap Z Z :=
  fold_left (fun m dd_id => <[dd_id := STATE_UNKNOWN]> m) ids ∅.

(** [TaApp.__init__] with the radio it is given. *)
Definition init (r : Radio) : TaApp := {|
  radio := r;
  states := initial_states GROUP_IDS;
  testing_id := None;
  loop_count := 0;
  error_count := 0
|}.

(** A call of a method of [self.radio]. *)
Definition on_radio {A} (m : M St A) : M AppSt A :=
  fun '(app, e) =>
    let '(res, (r', e')) := m (radio app, e) in
    (res,
     ({| radio := r'; states := states app; testing_id := testing_id app;
         loop_count := loop_count app; error_count := error_count app |}, e')).

(** [self.states[st.dd_id] = st.state] *)
Definition store_status (st : DDStatus) (m : gmap Z Z) : gmap Z Z :=
  <[dd_id st := state st]> m.

Definition set_states (f : gmap Z Z -> gmap Z Z) : M AppSt unit :=
  modify (fun '(app, e) =>
    ({| radio := radio app; states := f (states app);
        testing_id := testing_id app; loop_count := loop_count app;
        error_count := error_count app |}, e)).

Definition count_error : M AppSt unit :=
  modify (fun '(app, e) =>
    ({| radio := radio app; states := states app;
        testing_id := testing_id app; loop_count := loop_count app;
        error_count := error_count app + 1 |}, e)).

(** [for st in sts: self.states[st.dd_id] = st.state] *)
Fixpoint store_each (sts : list DDStatus) : M AppSt unit :=
  match sts with
  | [] => ret tt
  | st :: rest => set_states (store_status st) ;; store_each rest
  end.

(** [_update_states] over the [poll_status] of the radio it holds. *)
Definition _update_states_from (poll : M St (list DDStatus)) : M AppSt unit :=
  try_except
    (let+ sts := on_radio poll in store_each sts)
    count_error.

Definition _update_states : M AppSt unit := _update_states_from poll_status.

End ta_app.

(** ** ta/ta_ui.py: the boxes of the devices on the screen *)

Module ta_ui.

(** The colours [_state_color] chooses from. *)
Inductive Color : Type := C_ON | C_OFF | C_UNK.

(** An entry of [self.groups].  The state is one of the values the
    application passes: [True], [False] or [None]. *)
Record Group : Type := {
  label : string;
  state : option bool;
  battery : Z;
  rssi : Z
}.

(** The attributes of the UI that the boxes depend on, and the boxes
    painted so far: for each call of [_draw_group], the index of the
    box and the colour of its band. *)
Record UI : Type := {
  group_count : Z;
  groups : list Group;
  _dirty_tracking : bool;
  _group_states_cache : list (option bool);
  _dirty_groups : gset Z;
  drawn : list (Z * Color)
}.

Definition _state_color (state : option bool) : Color :=
  match state with
  | Some true => C_ON
  | Some false => C_OFF
  | None => C_UNK
  end.

Definition with_label (l : string) (g : Group) : Group :=
  {| label := l; state := state g; battery := battery g; rssi := rssi g |}.

Definition with_state (s : option bool) (g : Group) : Group :=
  {| label := label g; state := s; battery := battery g; rssi := rssi g |}.

Definition with_battery (b : Z) (g : Group) : Group :=
  {| label := label g; state := state g; battery := b; rssi := rssi g |}.

Definition with_rssi (r : Z) (g : Group) : Group :=
  {| label := label g; state := state g; battery := battery g; rssi := r |}.

(** [self.groups[index]] *)
Definition get_group (index : Z) : M UI Group :=
  fun ui =>
    match groups ui !! Z.to_nat index with
    | Some g => (Ok g, ui)
    | None => (Raise IndexError, ui)
    end.

(** [self.groups[index][key] = value] *)
Definition set_group (index : Z) (f : Group -> Group) : M UI unit :=
  fun ui =>
    match groups ui !! Z.to_nat index with
    | Some g =>
        (Ok tt,
         {| group_count := group_count ui;
            groups := <[Z.to_nat index := f g]> (groups ui);
            _dirty_tracking := _dirty_tracking ui;
            _group_states_cache := _group_states_cache ui;
            _dirty_groups := _dirty_groups ui;
            drawn := drawn ui |})
    | None => (Raise IndexError, ui)
    end.

(** [self._group_states_cache[index]] *)
Definition get_cache (index : Z) : M UI (option bool) :=
  fun ui =>
    match _group_states_cache ui !! Z.to_nat index with
    | Some c => (Ok c, ui)
    | None => (Raise IndexError, ui)
    end.

(** [self._group_states_cache[index] = state] *)
Definition set_cache (index : Z) (s : option bool) : M UI unit :=
  fun ui =>
    match _group_states_cache ui !! Z.to_nat index with
    | Some _ =>
        (Ok tt,
         {| group_count := group_count ui;
            groups := groups ui;
            _dirty_tracking := _dirty_tracking ui;
            _group_states_cache := <[Z.to_nat index := s]> (_group_states_cache ui);
            _dirty_groups := _dirty_groups ui;
            drawn := drawn ui |})
    | None => (Raise IndexError, ui)
    end.

Definition set_dirty (f : gset Z -> gset Z) : M UI unit :=
  modify (fun ui =>
    {| group_count := group_count ui;
       groups := groups ui;
       _dirty_tracking := _dirty_tracking ui;
       _group_states_cache := _group_states_cache ui;
       _dirty_groups := f (_dirty_groups ui);
       drawn := drawn ui |}).

Definition paint (i : Z) (col : Color) : M UI unit :=
  modify (fun ui =>
    {| group_count := group_count ui;
       groups := groups ui;
       _dirty_tracking := _dirty_tracking ui;
       _group_states_cache := _group_states_cache ui;
       _dirty_groups := _dirty_groups ui;
       drawn := drawn ui ++ [(i, col)] |}).

(** [_draw_group]: the box of group [i] is painted with the colour of
    the state the group holds.  The geometry and the texts are left
    out. *)
Definition _draw_group (i : Z) : M UI unit :=
  let+ g := get_group i in
  let col := _state_color (state g) in
  paint i col.

Definition update_group (index : Z) (state : option bool) (label : option string)
    (battery rssi : option Z) : M UI unit :=
  let+ n := gets group_count in
  if negb ((0 <=? index) && (index <? n)) then ret tt
  else
    let changed := false in
    let+ changed :=
      match label with
      | Some l =>
          let+ g := get_group index in
          if negb (String.eqb (ta_ui.label g) l)
          then set_group index (with_label l) ;; ret true
          else ret changed
      | None => ret changed
      end in
    let+ changed :=
      match state with
      | Some s =>
          let+ c := get_cache index in
          if negb (bool_decide (c = Some s))
          then set_group index (with_state (Some s)) ;;
               set_cache index (Some s) ;;
               ret true
          else ret changed
      | None => ret changed
      end in
    let+ changed :=
      match battery with
      | Some b => set_group index (with_battery b) ;; ret true
      | None => ret changed
      end in
    let+ changed :=
      match rssi with
      | Some r => set_group index (with_rssi r) ;; ret true
      | None => ret changed
      end in
    if changed then
      let+ tracking := gets _dirty_tracking in
      if tracking then set_dirty (fun d => {[index]} ∪ d)
      else _draw_group index
    else ret tt.

(** [for i in l: self._draw_group(i)] *)
Fixpoint draw_each (l : list Z) : M UI unit :=
  match l with
  | [] => ret tt
  | i :: rest => _draw_group i ;; draw_each rest
  end.

(** [render_dirty].  A Python set is visited in an order of its own;
    the order taken here is that of [elements]. *)
Definition render_dirty : M UI unit :=
  let+ dirty := gets _dirty_groups in
  draw_each (elements dirty) ;;
  set_dirty (fun _ => ∅).

End ta_ui.

(** ** ta/ta_app.py: the table shown on the screen *)

Module ta_app_ui.
Import ta_config ta_radio_433 ta_app ta_ui.

(** [config.UI["DIRTY_TRACKING"]] *)
Definition DIRTY_TRACKING : bool := true.

Definition ScreenSt : Type := TaApp * UI.

Definition on_ui {A} (m : M UI A) : M ScreenSt A :=
  fun '(app, ui) => let '(res, ui') := m ui in (res, (app, ui')).

(** [enumerate(l)] *)
Definition enumerate {A} (l : list A) : list (Z * A) :=
  imap (fun i x => (Z.of_nat i, x)) l.

(** The state handed to the UI for a state of the table. *)
Definition display_state (st : Z) : option bool :=
  if st =? STATE_PRESENT then Some true
  else if st =? STATE_ABSENT then Some false
  else None.

(** The body of [for idx, dd_id in enumerate(GROUP_IDS)]. *)
Fixpoint refresh_each (l : list (Z * Z)) : M ScreenSt unit :=
  match l with
  | [] => ret tt
  | (idx, dd_id) :: rest =>
      let+ sts := gets (fun s => states (fst s)) in
      let st := default STATE_UNKNOWN (sts !! dd_id) in
      let state := display_state st in
      on_ui (update_group idx state None None None) ;;
      refresh_each rest
  end.

Definition count_error : M ScreenSt unit :=
  modify (fun '(app, ui) =>
    ({| radio := radio app; states := states app;
        testing_id := testing_id app; loop_count := loop_count app;
        error_count := error_count app + 1 |}, ui)).

Definition _refresh_ui : M ScreenSt unit :=
  try_except
    (refresh_each (enumerate GROUP_IDS) ;;
     if DIRTY_TRACKING then on_ui render_dirty else ret tt)
    count_error.

End ta_app_ui.

(** ** dd/main.py: the remote detector *)

Module dd_main.

Local Open Scope string_scope.

Definition WATCHDOG_MS : Z := 30000.

Inductive Event : Type :=
| EvUart (s : string)
| EvLed (v : Z)
| EvSleep (ms : Z)
| EvReset.

(** The detector's hardware: the millisecond clock, the blob kept in
    non-volatile storage and whether the next writes to it go through,
    whether the LED pin answers, whether the next writes to the UART go
    through (a write that does not raises; with no entry left, writes
    go through), and the outputs so far. *)
Record Hw : Type := {
  clock : Z;
  nvs_blob : option string;
  nvs_plan : list bool;
  led_ok : bool;
  uart_plan : list bool;
  log : list Event
}.

(** The module's globals. *)
Record Detector : Type := {
  DETECTOR_ID : string;
  loop_count : Z;
  ok_count : Z;
  nok_count : Z;
  setid_ok_count : Z;
  setid_err_count : Z;
  last_loop_ts : Z;
  _wdt_triggered : bool
}.

Definition DdSt : Type := Detector * Hw.

Definition emit (ev : Event) (h : Hw) : Hw := {|
  clock := clock h; nvs_blob := nvs_blob h; nvs_plan := nvs_plan h;
  led_ok := led_ok h; uart_plan := uart_plan h; log := log h ++ [ev]
|}.

Definition ticks_ms : M DdSt Z := gets (fun st => clock (snd st)).

Definition ticks_diff (a b : Z) : Z := a - b.

Definition sleep_ms (ms : Z) : M DdSt unit :=
  modify (fun '(d, h) =>
    (d, {| clock := clock h + Z.max 0 ms; nvs_blob := nvs_blob h;
           nvs_plan := nvs_plan h; led_ok := led_ok h;
           uart_plan := uart_plan h;
           log := log h ++ [EvSleep ms] |})).

(** [led.value(v)] *)
Definition led_value (v : Z) : M DdSt unit :=
  fun '(d, h) =>
    if led_ok h then (Ok tt, (d, emit (EvLed v) h))
    else (Raise ValueError, (d, h)).

(** [reset()]: the restart is recorded, and the model goes on so that
    what later firings of the timer would do can be observed. *)
Definition reset : M DdSt unit :=
  modify (fun '(d, h) => (d, emit EvReset h)).

Definition _persist_id_to_nvs (new_id : string) : M DdSt bool :=
  fun '(d, h) =>
    let '(ok, rest) := match nvs_plan h with
                       | [] => (true, [])
                       | ok :: rest => (ok, rest)
                       end in
    (Ok ok,
     (d, {| clock := clock h;
            nvs_blob := if ok then Some new_id else nvs_blob h;
            nvs_plan := rest; led_ok := led_ok h;
            uart_plan := uart_plan h; log := log h |})).

Fixpoint _blink_led (times : nat) (on_ms off_ms : Z) : M DdSt unit :=
  match times with
  | O => ret tt
  | S n =>
      led_value 1 ;; sleep_ms on_ms ;; led_value 0 ;; sleep_ms off_ms ;;
      _blink_led n on_ms off_ms
  end.

Definition set_wdt_triggered (b : bool) : M DdSt unit :=
  modify (fun '(d, h) =>
    ({| DETECTOR_ID := DETECTOR_ID d; loop_count := loop_count d;
        ok_count := ok_count d; nok_count := nok_count d;
        setid_ok_count := setid_ok_count d;
        setid_err_count := setid_err_count d;
        last_loop_ts := last_loop_ts d; _wdt_triggered := b |}, h)).

Definition wdt_cb : M DdSt unit :=
  let+ triggered := gets (fun st => _wdt_triggered (fst st)) in
  if triggered then ret tt
  else
    let+ now := ticks_ms in
    let+ last := gets (fun st => last_loop_ts (fst st)) in
    if ticks_diff now last >? WATCHDOG_MS then
      set_wdt_triggered true ;;
      try_except (_blink_led 4 80 80) (ret tt) ;;
      reset
    else ret tt.

(** The timer fires when the clock reads [t]. *)
Definition fire_at (t : Z) : M DdSt unit :=
  modify (fun '(d, h) =>
    (d, {| clock := t; nvs_blob := nvs_blob h; nvs_plan := nvs_plan h;
           led_ok := led_ok h; uart_plan := uart_plan h; log := log h |})) ;;
  wdt_cb.


Definition measure_state : Z := 1.

Definition nl : string := String (Ascii.ascii_of_nat 10) EmptyString.

(** [uart.write(data)]: the line is sent, or the write raises. *)
Definition uart_write (s : string) : M DdSt unit :=
  fun '(d, h) =>
    let '(ok, rest) := match uart_plan h with
                       | [] => (true, [])
                       | ok :: rest => (ok, rest)
                       end in
    let h' := {| clock := clock h; nvs_blob := nvs_blob h;
                 nvs_plan := nvs_plan h; led_ok := led_ok h;
                 uart_plan := rest; log := log h |} in
    if ok then (Ok tt, (d, emit (EvUart s) h'))
    else (Raise OSError, (d, h')).

(** [bytes(s)] for a [str] [s]: without an encoding it raises
    [TypeError]. *)
Definition bytes_of_str (s : string) : result string := Raise TypeError.

(** The line is written once; when the write raises, the second attempt
    stops at [bytes(s)], and both exceptions are swallowed. *)
Definition _uart_write_str (s : string) : M DdSt unit :=
  try_except (uart_write s)
    (try_except (let+ b := lift (bytes_of_str s) in uart_write b) (ret tt)).

Definition send_ack (det_id : string) (state : Z) : M DdSt unit :=
  _uart_write_str ("ACK:" ++ det_id ++ ":" ++ (if (state =? 0)%Z then "0" else "1") ++ nl).

Definition send_ack_id_change (ok : bool) (new_id : string) : M DdSt unit :=
  _uart_write_str ("ACKSETID:" ++ new_id ++ ":" ++ (if ok then "OK" else "ERR") ++ nl).

Definition upper_ascii (c : Ascii.ascii) : Ascii.ascii :=
  let n := Ascii.nat_of_ascii c in
  if ((97 <=? n) && (n <=? 122))%nat then Ascii.ascii_of_nat (n - 32) else c.

Fixpoint upper (s : string) : string :=
  match s with
  | EmptyString => EmptyString
  | String c s' => String (upper_ascii c) (upper s')
  end.

Definition bump (f : Detector -> Detector) : M DdSt unit :=
  modify (fun '(d, h) => (f d, h)).

Definition inc_ok (d : Detector) : Detector := {|
  DETECTOR_ID := DETECTOR_ID d; loop_count := loop_count d;
  ok_count := ok_count d + 1; nok_count := nok_count d;
  setid_ok_count := setid_ok_count d; setid_err_count := setid_err_count d;
  last_loop_ts := last_loop_ts d; _wdt_triggered := _wdt_triggered d |}.

Definition inc_nok (d : Detector) : Detector := {|
  DETECTOR_ID := DETECTOR_ID d; loop_count := loop_count d;
  ok_count := ok_count d; nok_count := nok_count d + 1;
  setid_ok_count := setid_ok_count d; setid_err_count := setid_err_count d;
  last_loop_ts := last_loop_ts d; _wdt_triggered := _wdt_triggered d |}.

(** [DETECTOR_ID = new_id; setid_ok_count += 1] *)
Definition adopt_id (new_id : string) (d : Detector) : Detector := {|
  DETECTOR_ID := new_id; loop_count := loop_count d;
  ok_count := ok_count d; nok_count := nok_count d;
  setid_ok_count := setid_ok_count d + 1; setid_err_count := setid_err_count d;
  last_loop_ts := last_loop_ts d; _wdt_triggered := _wdt_triggered d |}.

Definition inc_setid_err (d : Detector) : Detector := {|
  DETECTOR_ID := DETECTOR_ID d; loop_count := loop_count d;
  ok_count := ok_count d; nok_count := nok_count d;
  setid_ok_count := setid_ok_count d; setid_err_count := setid_err_count d + 1;
  last_loop_ts := last_loop_ts d; _wdt_triggered := _wdt_triggered d |}.

(** What the main loop does with one parsed line [(cmd, det_id, _)]. *)
Definition dispatch (cmd det_id : string) : M DdSt unit :=
  if String.eqb cmd "POLL" then
    let+ me := gets (fun st => DETECTOR_ID (fst st)) in
    if String.eqb det_id me || String.eqb (upper det_id) "ALL" then
      let state := measure_state in
      send_ack me state ;;
      bump inc_ok ;;
      try_except (led_value 1 ;; sleep_ms 40 ;; led_value 0) (ret tt)
    else bump inc_nok
  else if String.eqb cmd "SETID" then
    let new_id := det_id in
    let+ ok := _persist_id_to_nvs new_id in
    (if ok then
       bump (adopt_id new_id) ;;
       try_except (led_value 1 ;; sleep_ms 100 ;; led_value 0) (ret tt)
     else bump inc_setid_err) ;;
    send_ack_id_change ok new_id
  else ret tt.

End dd_main.

(** ** dd/main.py: the main loop of the detector *)

Module dd_loop.
Import dd_main.

(** What the UART gives when the loop looks at it: [uart.any()] is 0;
    [uart.any()] is not 0 and [uart.read()] returns bytes or [None]; or
    one of the two raises. *)
Inductive UartIn : Type :=
| InNothing
| InData (data : option bytes)
| InRaises.

(** The receive buffer [buf] of the loop and what the UART will give. *)
Record Io : Type := {
  buf : bytes;
  rx : list UartIn
}.

Definition LoopSt : Type := Io * DdSt.

(** A call that only concerns the detector and its hardware. *)
Definition on_detector {A} (m : M DdSt A) : M LoopSt A :=
  fun '(io, st) => let '(res, st') := m st in (res, (io, st')).

Definition set_buf (f : bytes -> bytes) : M LoopSt unit :=
  modify (fun '(io, st) => ({| buf := f (buf io); rx := rx io |}, st)).

(** [uart.any()] followed, when it is not 0, by [uart.read()]. *)
Definition uart_any_read : M LoopSt (option (option bytes)) :=
  fun '(io, st) =>
    match rx io with
    | [] => (Ok None, (io, st))
    | InNothing :: rest => (Ok None, ({| buf := buf io; rx := rest |}, st))
    | InData data :: rest => (Ok (Some data), ({| buf := buf io; rx := rest |}, st))
    | InRaises :: rest => (Raise ValueError, ({| buf := buf io; rx := rest |}, st))
    end.

(** [last_loop_ts = time.ticks_ms(); loop_count += 1] *)
Definition stamp (now : Z) (d : Detector) : Detector := {|
  DETECTOR_ID := DETECTOR_ID d; loop_count := loop_count d + 1;
  ok_count := ok_count d; nok_count := nok_count d;
  setid_ok_count := setid_ok_count d; setid_err_count := setid_err_count d;
  last_loop_ts := now; _wdt_triggered := _wdt_triggered d |}.

Section Loop.

(** [parse_line], which gives [(cmd, det_id, None)] or [None]. *)
Variable parse_line : bytes -> option (string * string).

(** The inner [while True] of the loop: every complete line is taken
    off the front of [buf], parsed and handled. *)
Fixpoint process_lines (fuel : nat) : M LoopSt unit :=
  match fuel with
  | O => lift OutOfFuel
  | S fuel' =>
      let+ b := gets (fun s => buf (fst s)) in
      let nl := find b 10 0 in
      if nl =? -1 then ret tt
      else
        let line := slice b 0 (nl + 1) in
        set_buf (fun b => slice b (nl + 1) (len b)) ;;
        match parse_line line with
        | None => process_lines fuel'
        | Some (cmd, det_id) =>
            on_detector (dispatch cmd det_id) ;;
            process_lines fuel'
        end
  end.

(** One turn of the main loop.  The report printed every 1000 turns
    has no effect on the state and is left out. *)
Definition loop_once : M LoopSt unit :=
  let+ now := on_detector ticks_ms in
  on_detector (bump (stamp now)) ;;
  try_except
    (let+ got := uart_any_read in
     match got with
     | None => ret tt
     | Some data =>
         match data with
         | Some (x :: data') =>
             set_buf (fun b => b ++ x :: data') ;;
             let+ b := gets (fun s => buf (fst s)) in
             process_lines (S (length b))
         | _ => ret tt
         end
     end)
    (ret tt) ;;
  on_detector (sleep_ms 10).

(** The first [turns] turns of [while True]. *)
Fixpoint main_loop (turns : nat) : M LoopSt unit :=
  match turns with
  | O => ret tt
  | S n => loop_once ;; main_loop n
  end.

End Loop.

End dd_loop.

(** ** Vocabulary of the properties *)

Module Props.
Import ta_config ta_radio_433.

(** The bytes between the five header bytes and the two trailer bytes. *)
Definition actual_payload (buf : bytes) : bytes :=
  take (length buf - 7) (drop 5 buf).

(** Structural validity, as the data model words it: the markers are in
    place, the declared length is the actual payload size, and the
    checksum recomputed over version, command, id and payload is the
    trailing checksum byte. *)
Definition structurally_valid (buf : bytes) : bool :=
  (7 <=? len buf)
  && (nth 0 buf 0 =? START_BYTE)
  && (nth (length buf - 1) buf 0 =? END_BYTE)
  && (nth 4 buf 0 =? len (actual_payload buf))
  && (_chk (nth 1 buf 0) (nth 2 buf 0) (nth 3 buf 0) (actual_payload buf)
      =? nth (length buf - 2) buf 0).

(** The ways a buffer can be malformed. *)
Definition too_short (buf : bytes) : Prop := len buf < 7.
Definition bad_start (buf : bytes) : Prop := nth 0 buf 0 <> START_BYTE.
Definition bad_end (buf : bytes) : Prop := nth (length buf - 1) buf 0 <> END_BYTE.
Definition bad_length (buf : bytes) : Prop :=
  nth 4 buf 0 <> len (actual_payload buf).
Definition bad_checksum (buf : bytes) : Prop :=
  _chk (nth 1 buf 0) (nth 2 buf 0) (nth 3 buf 0) (actual_payload buf)
  <> nth (length buf - 2) buf 0.

(** A radio on the physical link, as [Radio.__init__] leaves it when the
    module answers, and one in simulation where every device is present. *)
Definition fresh_states : gmap Z Z :=
  fold_left (fun m gid => <[gid := STATE_PRESENT]> m) GROUP_IDS ∅.

Definition hw_radio : Radio := {|
  simulate := false; _tick := 0; _sim_states := fresh_states;
  stats := Some (RadioStats_.reset 0); uart := true
|}.

Definition sim_radio : Radio := {|
  simulate := true; _tick := 0; _sim_states := fresh_states;
  stats := Some (RadioStats_.reset 0); uart := false
|}.

(** Hardware on which the UART receives the given rounds of bytes. *)
Definition env_receiving (rx : list UartRead) : Env := {|
  ta_radio_433.clock := 0; uart_tx := []; uart_rx := rx; rng := [];
  ta_radio_433.log := []
|}.

(** The terminal's hardware after a sleep of [ms] milliseconds. *)
Definition slept (ms : Z) (e : Env) : Env := {|
  ta_radio_433.clock := ta_radio_433.clock e + Z.max 0 ms;
  uart_tx := uart_tx e; uart_rx := uart_rx e; rng := rng e;
  ta_radio_433.log := ta_radio_433.log e ++ [ta_radio_433.EvSleep ms]
|}.

(** A single exchange that also notes, beside the state, the timeout it
    was called with; and a computation run beside such notes. *)
Definition logged {S} (ex : Z -> Z -> bytes -> Z -> M S (option frame))
  : Z -> Z -> bytes -> Z -> M (S * list Z) (option frame) :=
  fun cmd gid payload timeout '(s, calls) =>
    let '(res, s') := ex cmd gid payload timeout s in
    (res, (s', calls ++ [timeout])).

Definition beside {S L A} (m : M S A) : M (S * L) A :=
  fun '(s, l) => let '(res, s') := m s in (res, (s', l)).

Definition StrictlyIncreasing (l : list Z) : Prop :=
  forall (i : nat) (a b : Z), l !! i = Some a -> l !! S i = Some b -> a < b.

(** A retry table whose multiplier is just above 1. *)
Definition creeping_retry : RetryCfg := {|
  MAX_RETRIES := 2;
  TIMEOUT_BASE_MS := 100;
  TIMEOUT_MULTIPLIER := (1001 # 1000)%Q;
  BACKOFF_ENABLED := true;
  BACKOFF_MS := 100
|}.

(** The first structurally valid frame present in a buffer, in byte
    order: at the earliest position where one starts, the shortest run
    of bytes that is structurally valid. *)
Definition valid_frame_at_head (l : bytes) : option bytes :=
  List.find structurally_valid (map (fun k => take k l) (seq 0 (S (length l)))).

Fixpoint first_valid_frame (buf : bytes) : option bytes :=
  match valid_frame_at_head buf with
  | Some frm => Some frm
  | None =>
      match buf with
      | [] => None
      | _ :: rest => first_valid_frame rest
      end
  end.

(** A status reply for device 1, and the same reply received after one
    stray start-marker byte. *)
Definition reply_1_present : bytes := [0xA5; 0x01; 0x20; 0x01; 0x01; 0x01; 0x20; 0x5A].

Definition reply_after_stray_start : bytes := 0xA5 :: reply_1_present.

(** The radio and the hardware once a non-empty round of bytes was read. *)
Definition after_read (r : Radio) (e : Env) (rest : list UartRead) : St :=
  (set_stats (RadioStats_.update_rx true 0) r,
   {| ta_radio_433.clock := ta_radio_433.clock e; uart_tx := uart_tx e;
      uart_rx := rest; rng := rng e; ta_radio_433.log := ta_radio_433.log e |}).

(** The configured device ids, as a set. *)
Definition configured_ids : gset Z := list_to_set GROUP_IDS.

(** A status for device 9, which is not configured, and a radio double
    whose [poll_status] reports it. *)
Definition stray_status : DDStatus :=
  {| dd_id := 9; state := STATE_PRESENT; battery := 90; rssi := 90; flags := 0 |}.

Definition stray_poll : M St (list DDStatus) := ret [stray_status].



(** The checker invoked at time [t] finds the watchdog timeout exceeded. *)
Definition past_deadline (d : dd_main.Detector) (t : Z) : Prop :=
  dd_main.ticks_diff t (dd_main.last_loop_ts d) > dd_main.WATCHDOG_MS.

(** A detector just booted with identifier [id], and its hardware. *)
Definition booted (id : string) : dd_main.Detector := {|
  dd_main.DETECTOR_ID := id; dd_main.loop_count := 0;
  dd_main.ok_count := 0; dd_main.nok_count := 0;
  dd_main.setid_ok_count := 0; dd_main.setid_err_count := 0;
  dd_main.last_loop_ts := 0; dd_main._wdt_triggered := false
|}.

Definition hw_with_nvs (plan : list bool) : dd_main.Hw := {|
  dd_main.clock := 0; dd_main.nvs_blob := None; dd_main.nvs_plan := plan;
  dd_main.led_ok := true; dd_main.uart_plan := []; dd_main.log := []
|}.

(** The detector's hardware when its clock reads [t]. *)
Definition at_clock (t : Z) (h : dd_main.Hw) : dd_main.Hw := {|
  dd_main.clock := t; dd_main.nvs_blob := dd_main.nvs_blob h;
  dd_main.nvs_plan := dd_main.nvs_plan h;
  dd_main.led_ok := dd_main.led_ok h;
  dd_main.uart_plan := dd_main.uart_plan h; dd_main.log := dd_main.log h
|}.

(** The lines the detector answers with. *)
Definition ack_line (det_id : string) : string :=
  ("ACK:" ++ det_id ++ ":1" ++ dd_main.nl)%string.

Definition setid_ok_line (new_id : string) : string :=
  ("ACKSETID:" ++ new_id ++ ":OK" ++ dd_main.nl)%string.

Definition setid_err_line (new_id : string) : string :=
  ("ACKSETID:" ++ new_id ++ ":ERR" ++ dd_main.nl)%string.

(** XOR of the payload bytes, each reduced to 8 bits. *)
Definition xors (payload : bytes) : Z :=
  fold_right (fun b acc => Z.lxor (Z.land b 0xFF) acc) 0 payload.

(** [buf] with the byte at position [i] replaced by [b']. *)
Definition corrupt (i : nat) (b' : Z) (buf : bytes) : bytes := <[i := b']> buf.

(** The calls that move the statistics. *)
Inductive StatsCall : Type :=
| CallTx (success : bool)
| CallRx (success : bool) (rssi : Q)
| CallTimeout.

Definition apply_call (s : RadioStats) (c : StatsCall) : RadioStats :=
  match c with
  | CallTx success => RadioStats_.update_tx success s
  | CallRx success rssi => RadioStats_.update_rx success rssi s
  | CallTimeout => RadioStats_.update_timeout s
  end.

Definition after_calls (cs : list StatsCall) (s : RadioStats) : RadioStats :=
  fold_left apply_call cs s.

(** The counters never show more errors than events. *)
Definition counters_sane (s : RadioStats) : Prop :=
  0 <= tx_errors s <= tx_count s
  /\ 0 <= rx_errors s <= rx_count s
  /\ 0 <= timeouts s.

(** A call made the way the radio makes it: a reception is reported
    without a signal strength (the default [rssi=0]). *)
Definition radio_call (c : StatsCall) : Prop :=
  match c with
  | CallRx _ rssi => rssi = 0%Q
  | _ => True
  end.

(** The radio with its statistics moved by the calls [cs]. *)
Definition advanced (cs : list StatsCall) (r : Radio) : Radio :=
  set_stats (after_calls cs) r.

(** The statistics of a radio, when it keeps some, are sound: counters
    without more errors than events, and a signal estimate still at 0. *)
Definition radio_stats_sound (r : Radio) : Prop :=
  match stats r with
  | Some s => counters_sane s /\ (avg_rssi s == 0)%Q
  | None => True
  end.

(** A status as the simulation reports it for the table [sims]. *)
Definition simulated_status (sims : gmap Z Z) (d : DDStatus) : Prop :=
  state d = default STATE_UNKNOWN (sims !! dd_id d)
  /\ 75 <= battery d <= 99
  /\ 81 <= rssi d <= 110
  /\ flags d = 0.

(** Time spent by the loop of [_exchange] when nothing is received:
    turns of 5 ms until [timeout] is reached. *)
Definition idle_turns (timeout : Z) : nat := Z.to_nat ((timeout + 4) / 5).

Definition wait_of (timeout : Z) : Z := 5 * Z.of_nat (idle_turns timeout).

(** The hardware after [n] turns of 5 ms spent asleep. *)
Definition idled (n : nat) (e : Env) : Env := {|
  ta_radio_433.clock := ta_radio_433.clock e + 5 * Z.of_nat n;
  uart_tx := uart_tx e; uart_rx := uart_rx e; rng := rng e;
  ta_radio_433.log := ta_radio_433.log e ++ repeat (ta_radio_433.EvSleep 5) n
|}.

(** Pause made after the failed attempt [attempt]. *)
Definition backoff_of (cfg : RetryCfg) (attempt : Z) : Z :=
  if BACKOFF_ENABLED cfg && (attempt <? MAX_RETRIES cfg - 1)
  then Z.max 0 (BACKOFF_MS cfg * (attempt + 1))
  else 0.

(** Time taken by the attempts of a retry when none is answered. *)
Definition retry_time_of (cfg : RetryCfg) (attempts : list Z) : Z :=
  fold_right
    (fun attempt acc => wait_of (attempt_timeout cfg attempt) + backoff_of cfg attempt + acc)
    0 attempts.

Definition retry_time (cfg : RetryCfg) : Z :=
  retry_time_of cfg (range (MAX_RETRIES cfg)).

(** Number of frames handed to the UART among the outputs. *)
Fixpoint count_writes (evs : list ta_radio_433.Event) : nat :=
  match evs with
  | [] => O
  | ta_radio_433.EvWrite _ :: evs' => S (count_writes evs')
  | _ :: evs' => count_writes evs'
  end.

(** The timeout counter of a radio (0 when it keeps no statistics). *)
Definition timeouts_of (r : Radio) : Z :=
  match stats r with Some s => timeouts s | None => 0 end.

(** Every simulated presence state is PRESENT or ABSENT. *)
Definition sim_states_sound (m : gmap Z Z) : Prop :=
  forall gid v, m !! gid = Some v -> v = STATE_PRESENT \/ v = STATE_ABSENT.

(** The status reported for a device that did not answer. *)
Definition unanswered_status (gid : Z) : DDStatus :=
  {| dd_id := gid; state := STATE_UNKNOWN; battery := 90; rssi := 90; flags := 0 |}.

(** A radio on the physical link whose next sweep is due, and an
    application that holds it with every device known present. *)
Definition hw_radio_due : Radio := set_tick 6 hw_radio.

Definition app_all_present : ta_app.TaApp := {|
  ta_app.radio := hw_radio_due;
  ta_app.states := fresh_states;
  ta_app.testing_id := None;
  ta_app.loop_count := 0;
  ta_app.error_count := 0
|}.

(** A status reply sent by device 2, reporting it absent. *)
Definition reply_2_absent : bytes := [0xA5; 0x01; 0x20; 0x02; 0x01; 0x02; 0x20; 0x5A].

(** The reply the simulation makes up for a command, given the
    simulation table as the exchange leaves it. *)
Definition simulated_reply (cmd gid : Z) (sims : gmap Z Z) : option frame :=
  if cmd =? CMD_PING then Some (CMD_PING, gid, b_OK)
  else if cmd =? CMD_GET_STS
       then Some (CMD_GET_STS, gid, [default STATE_UNKNOWN (sims !! gid)])
       else if cmd =? CMD_SET_MODE then Some (CMD_SET_MODE, gid, b_ACK)
            else None.

(** A simulated radio whose next sweep is due. *)
Definition sim_radio_due : Radio := set_tick 6 sim_radio.

(** The answer of a radio module to a ping. *)
Definition reply_ping_ok : bytes := [0xA5; 0x01; 0x10; 0x00; 0x02; 0x4F; 0x4B; 0x17; 0x5A].

(** A radio object before its constructor ran. *)
Definition blank_radio : Radio := {|
  simulate := false; _tick := 0; _sim_states := ∅; stats := None; uart := false
|}.

(** A radio double whose [poll_status] raises. *)
Definition failing_poll : M St (list DDStatus) := lift (Raise ValueError).

(** An application that holds a simulated radio whose next sweep is due,
    with no state known yet. *)
Definition app_simulated : ta_app.TaApp := ta_app.init sim_radio_due.

(** The lines written to the UART among the outputs of the detector. *)
Fixpoint uart_lines (evs : list dd_main.Event) : list string :=
  match evs with
  | [] => []
  | dd_main.EvUart s :: evs' => s :: uart_lines evs'
  | _ :: evs' => uart_lines evs'
  end.

(** A POLL for [det_id] is meant for the detector. *)
Definition addressed (det_id : string) (d : dd_main.Detector) : bool :=
  String.eqb det_id (dd_main.DETECTOR_ID d)
  || String.eqb (dd_main.upper det_id) "ALL".

(** Number of commands the detector has counted. *)
Definition counted (d : dd_main.Detector) : Z :=
  dd_main.ok_count d + dd_main.nok_count d
  + dd_main.setid_ok_count d + dd_main.setid_err_count d.

(** The outputs of [times] blinks of the LED. *)
Fixpoint blink_events (times : nat) (on_ms off_ms : Z) : list dd_main.Event :=
  match times with
  | O => []
  | S n => dd_main.EvLed 1 :: dd_main.EvSleep on_ms :: dd_main.EvLed 0
           :: dd_main.EvSleep off_ms :: blink_events n on_ms off_ms
  end.

(** A detector whose loop last stamped its progress at time 0, on
    hardware whose clock reads 30001. *)
Definition hw_overdue : dd_main.Hw := at_clock 30001 (hw_with_nvs []).

(** A complete line: bytes without a newline, then a newline. *)
Definition complete_line (l : bytes) : Prop :=
  exists body, l = body ++ [10] /\ 10 ∉ body.

(** The lines handled one after the other. *)
Fixpoint handle_lines (parse_line : bytes -> option (string * string))
    (lines : list bytes) : M dd_main.DdSt unit :=
  match lines with
  | [] => ret tt
  | l :: ls =>
      match parse_line l with
      | None => handle_lines parse_line ls
      | Some (cmd, det_id) =>
          dd_main.dispatch cmd det_id ;; handle_lines parse_line ls
      end
  end.

(** The detector once a turn of the loop has stamped its progress. *)
Definition stamped (st : dd_main.DdSt) : dd_main.DdSt :=
  (dd_loop.stamp (dd_main.clock (snd st)) (fst st), snd st).

(** Two POLL lines for detector 01, the second one cut after its third
    byte, and a parser that reads every line as a POLL for 01. *)
Definition poll_01_line : bytes := [80; 79; 76; 76; 58; 48; 49; 10].

Definition parse_as_poll_01 (line : bytes) : option (string * string) :=
  Some ("POLL"%string, "01"%string).

(** A loop that holds the first three bytes of a POLL line and is about
    to receive the rest of it. *)
Definition io_split_line : dd_loop.Io := {|
  dd_loop.buf := take 3 poll_01_line;
  dd_loop.rx := [dd_loop.InData (Some (drop 3 poll_01_line))]
|}.

(** What the box [i] of the screen holds: the state of its group, and
    the state last handed over for it. *)
Definition shown (ui : ta_ui.UI) (i : nat) : option (option bool) :=
  ta_ui.state <$> ta_ui.groups ui !! i.

Definition cached (ui : ta_ui.UI) (i : nat) : option (option bool) :=
  ta_ui._group_states_cache ui !! i.

(** A UI with its five boxes. *)
Definition ui_sized (ui : ta_ui.UI) : Prop :=
  ta_ui.group_count ui = 5
  /\ length (ta_ui.groups ui) = 5%nat
  /\ length (ta_ui._group_states_cache ui) = 5%nat.

(** A UI as its constructor and every refresh leave it: five boxes, the
    cache in step with the groups, and no box waiting to be painted. *)
Definition ui_ready (ui : ta_ui.UI) : Prop :=
  ui_sized ui
  /\ (forall i, shown ui i = cached ui i)
  /\ ta_ui._dirty_groups ui = ∅.

(** The boxes painted between two states of the UI. *)
Definition painted_since (ui ui' : ta_ui.UI) : list Z :=
  (drop (length (ta_ui.drawn ui)) (ta_ui.drawn ui')).*1.

(** The state handed to the UI for the device [gid]. *)
Definition display_of (app : ta_app.TaApp) (gid : Z) : option bool :=
  ta_app_ui.display_state (default STATE_UNKNOWN (ta_app.states app !! gid)).

(** What a call [update_group(i, state=s)] makes of a UI. *)
Definition put_state (i : nat) (s : option bool) (ui : ta_ui.UI) : ta_ui.UI :=
  match s, ta_ui.groups ui !! i with
  | Some b, Some g =>
      if bool_decide (cached ui i = Some (Some b)) then ui
      else
        {| ta_ui.group_count := ta_ui.group_count ui;
           ta_ui.groups := <[i := ta_ui.with_state (Some b) g]> (ta_ui.groups ui);
           ta_ui._dirty_tracking := ta_ui._dirty_tracking ui;
           ta_ui._group_states_cache := <[i := Some b]> (ta_ui._group_states_cache ui);
           ta_ui._dirty_groups :=
             if ta_ui._dirty_tracking ui
             then {[Z.of_nat i]} ∪ ta_ui._dirty_groups ui
             else ta_ui._dirty_groups ui;
           ta_ui.drawn :=
             if ta_ui._dirty_tracking ui then ta_ui.drawn ui
             else ta_ui.drawn ui ++ [(Z.of_nat i, ta_ui._state_color (Some b))] |}
  | _, _ => ui
  end.

Definition puts (app : ta_app.TaApp) (l : list (Z * Z)) (ui : ta_ui.UI) : ta_ui.UI :=
  fold_left (fun u p => put_state (Z.to_nat (fst p)) (display_of app (snd p)) u) l ui.

(** The device [z] of the list has a state to show that is not the one
    last handed over. *)
Definition to_repaint (app : ta_app.TaApp) (l : list (Z * Z)) (ui : ta_ui.UI)
    (z : Z) : Prop :=
  exists gid b,
    (z, gid) ∈ l /\ display_of app gid = Some b
    /\ cached ui (Z.to_nat z) <> Some (Some b).

(** The colour of the box [z] as the UI holds it. *)
Definition box_colour (ui : ta_ui.UI) (z : Z) : ta_ui.Color :=
  ta_ui._state_color (default None (shown ui (Z.to_nat z))).

(** A fresh UI. *)
Definition ui_fresh : ta_ui.UI := {|
  ta_ui.group_count := 5;
  ta_ui.groups :=
    replicate 5 {| ta_ui.label := "G"; ta_ui.state := None;
                   ta_ui.battery := 100; ta_ui.rssi := 0 |};
  ta_ui._dirty_tracking := true;
  ta_ui._group_states_cache := replicate 5 None;
  ta_ui._dirty_groups := ∅;
  ta_ui.drawn := []
|}.


(** An application whose table holds device 1 as unknown and device 2
    as absent. *)
Definition app_lost_1 : ta_app.TaApp := {|
  ta_app.radio := hw_radio;
  ta_app.states := <[1 := STATE_UNKNOWN]> (<[2 := STATE_ABSENT]> fresh_states);
  ta_app.testing_id := None;
  ta_app.loop_count := 0;
  ta_app.error_count := 0
|}.

(** A UI whose waiting boxes have been painted. *)
Definition add_drawn (extra : list (Z * ta_ui.Color)) (ui : ta_ui.UI) : ta_ui.UI := {|
  ta_ui.group_count := ta_ui.group_count ui;
  ta_ui.groups := ta_ui.groups ui;
  ta_ui._dirty_tracking := ta_ui._dirty_tracking ui;
  ta_ui._group_states_cache := ta_ui._group_states_cache ui;
  ta_ui._dirty_groups := ta_ui._dirty_groups ui;
  ta_ui.drawn := ta_ui.drawn ui ++ extra
|}.

Definition rendered (ui : ta_ui.UI) : ta_ui.UI := {|
  ta_ui.group_count := ta_ui.group_count ui;
  ta_ui.groups := ta_ui.groups ui;
  ta_ui._dirty_tracking := ta_ui._dirty_tracking ui;
  ta_ui._group_states_cache := ta_ui._group_states_cache ui;
  ta_ui._dirty_groups := ∅;
  ta_ui.drawn :=
    ta_ui.drawn ui
    ++ map (fun z => (z, box_colour ui z)) (elements (ta_ui._dirty_groups ui))
|}.

(** A UI that shows device 1 present. *)
Definition ui_showing_1 : ta_ui.UI := rendered (put_state 0 (Some true) ui_fresh).

(** Pairs of a box and a device, with the boxes in range. *)
Definition boxes_valid (l : list (Z * Z)) : Prop :=
  Forall (fun p => 0 <= fst p < 5) l.




(** A retry table whose timeouts the floats compute without rounding. *)
Definition retry_floats_exact (cfg : RetryCfg) : Prop :=
  forall i, 0 <= i < MAX_RETRIES cfg -> float_exact cfg i = true.

(** The status [d] of the device [gid] is sampled from the state [s],
    which becomes [s']: in simulation [d] holds the state of the
    simulation table, with figures within their bounds, and the radio
    is left as it is; on the physical link [d] holds the state decoded
    from the reply of a retried GET_STS exchange with [gid] that runs
    from [s] to [s'] (UNKNOWN when there is no valid reply). *)
Definition sampled (gid : Z) (s : St) (d : DDStatus) (s' : St) : Prop :=
  dd_id d = gid
  /\ if simulate (fst s)
     then simulated_status (_sim_states (fst s)) d /\ fst s' = fst s
     else exists resp,
            _exchange_with_retry CMD_GET_STS gid [] s = (Ok resp, s')
            /\ d = {| dd_id := gid; state := status_of_reply resp;
                      battery := 90; rssi := 90; flags := 0 |}.

(** The devices of a list sampled one after the other. *)
Inductive sweep : list Z -> St -> list DDStatus -> St -> Prop :=
| sweep_done (s : St) : sweep [] s [] s
| sweep_next (gid : Z) (gids : list Z) (s s1 s' : St) (d : DDStatus)
    (out : list DDStatus) :
    sampled gid s d s1 -> sweep gids s1 out s' ->
    sweep (gid :: gids) s (d :: out) s'.

(** The UART of the detector lets the next line through. *)
Definition uart_accepts (h : dd_main.Hw) : bool :=
  match dd_main.uart_plan h with
  | [] => true
  | ok :: _ => ok
  end.

(** Hardware on which persisting fails and the UART write raises. *)
Definition hw_uart_down : dd_main.Hw := {|
  dd_main.clock := 0; dd_main.nvs_blob := None; dd_main.nvs_plan := [false];
  dd_main.led_ok := true; dd_main.uart_plan := [false]; dd_main.log := []
|}.

End Props.
Import Props.

(** * Properties *)

(** ** The definitions at work *)

Section Examples.
Import ta_config ta_radio_433.

Example mk_frame_get_sts :
  _mk_frame CMD_GET_STS 1 (Some [STATE_PRESENT])
  = Ok [0xA5; 0x01; 0x20; 0x01; 0x01; 0x01; 0x20; 0x5A].
Proof. reflexivity. Qed.

Example mk_frame_payload_too_long :
  _mk_frame CMD_GET_STS 1 (Some [0; 1; 2; 3; 4; 5; 6; 7; 8; 9]) = Raise ValueError.
Proof. reflexivity. Qed.

Example parse_frame_short : _parse_frame [0xA5; 0x01; 0x5A] = Ok None.
Proof. reflexivity. Qed.

Example parse_frame_flipped_checksum :
  _parse_frame [0xA5; 0x01; 0x20; 0x01; 0x01; 0x01; 0x21; 0x5A] = Ok None.
Proof. reflexivity. Qed.

Example poll_period_configured : poll_period = 7.
Proof. reflexivity. Qed.

Example attempt_timeouts_configured :
  map (attempt_timeout RETRY) (range (MAX_RETRIES RETRY)) = [500; 750; 1125].
Proof. reflexivity. Qed.

Example scan_payload_with_end_marker :
  (let* frm := _mk_frame CMD_GET_STS 1 (Some [0x5A]) in _scan frm) = Ok None.
Proof. reflexivity. Qed.

Example detector_poll_other_id :
  dd_main.dispatch "POLL" "99" (booted "02", hw_with_nvs [])
  = (Ok tt, (dd_main.inc_nok (booted "02"), hw_with_nvs [])).
Proof. reflexivity. Qed.

Example detector_setid_uart_down :
  dd_main.dispatch "SETID" "07" (booted "02", hw_uart_down)
  = (Ok tt,
     (dd_main.inc_setid_err (booted "02"),
      {| dd_main.clock := 0; dd_main.nvs_blob := None; dd_main.nvs_plan := [];
         dd_main.led_ok := true; dd_main.uart_plan := []; dd_main.log := [] |})).
Proof. reflexivity. Qed.

Example detector_poll_all :
  dd_main.log (snd (snd (dd_main.dispatch "POLL" "all" (booted "02", hw_with_nvs []))))
  = [dd_main.EvUart (ack_line "02"); dd_main.EvLed 1; dd_main.EvSleep 40;
     dd_main.EvLed 0].
Proof. reflexivity. Qed.

End Examples.

(** ** Python primitives *)

Section PyFacts.

Lemma land_255_mod (a : Z) : Z.land a 0xFF = a mod 256.
Proof. change 0xFF with (Z.ones 8). rewrite Z.land_ones by lia. reflexivity. Qed.

Lemma land_255_id (a : Z) : 0 <= a <= 255 -> Z.land a 0xFF = a.
Proof. intros H. rewrite land_255_mod. apply Z.mod_small. lia. Qed.

Lemma land_255_byte (a : Z) : is_byte (Z.land a 0xFF) = true.
Proof.
  rewrite land_255_mod. unfold is_byte.
  pose proof (Z.mod_pos_bound a 256 ltac:(lia)). 
  apply andb_true_iff. split; [apply Z.leb_le | apply Z.leb_le]; lia.
Qed.

Lemma is_byte_spec (a : Z) : is_byte a = true <-> 0 <= a <= 255.
Proof. unfold is_byte. rewrite andb_true_iff, !Z.leb_le. tauto. Qed.

Lemma len_app {A} (l1 l2 : list A) : len (l1 ++ l2) = len l1 + len l2.
Proof. unfold len. rewrite length_app. lia. Qed.

Lemma len_nonneg {A} (l : list A) : 0 <= len l.
Proof. unfold len. lia. Qed.

(** Indexing inside the bounds gives the element, from either end. *)
Lemma getitem_lookup (buf : bytes) (i : Z) (b : Z) :
  0 <= i -> buf !! Z.to_nat i = Some b -> getitem buf i = Ok b.
Proof.
  intros Hi Hb. unfold getitem.
  destruct (i <? 0) eqn:E; [apply Z.ltb_lt in E; lia |].
  rewrite E. rewrite Hb. reflexivity.
Qed.

Lemma getitem_in_range (buf : bytes) (i : Z) :
  - len buf <= i < len buf -> exists b, getitem buf i = Ok b.
Proof.
  intros Hi. unfold getitem.
  set (j := if i <? 0 then i + len buf else i).
  assert (Hj : 0 <= j < len buf).
  { subst j. destruct (i <? 0) eqn:E;
      [apply Z.ltb_lt in E | apply Z.ltb_ge in E]; lia. }
  destruct (j <? 0) eqn:E; [apply Z.ltb_lt in E; lia |].
  destruct (lookup_lt_is_Some_2 buf (Z.to_nat j)) as [b Hb].
  { unfold len in Hj. lia. }
  exists b. rewrite Hb. reflexivity.
Qed.

Lemma getitem_last (l : bytes) (b : Z) : getitem (l ++ [b]) (-1) = Ok b.
Proof.
  unfold getitem. change (-1 <? 0) with true. cbv beta iota zeta.
  rewrite len_app. change (len [b]) with 1.
  pose proof (len_nonneg l).
  replace (-1 + (len l + 1)) with (len l) by lia.
  destruct (len l <? 0) eqn:E; [apply Z.ltb_lt in E; lia |].
  unfold len. rewrite Nat2Z.id.
  rewrite lookup_app_r by lia. rewrite Nat.sub_diag. reflexivity.
Qed.

Lemma clamp_index_id (n i : Z) : 0 <= i <= n -> clamp_index n i = i.
Proof.
  intros H. unfold clamp_index.
  destruct (i <? 0) eqn:E; [apply Z.ltb_lt in E; lia | lia].
Qed.

Lemma slice_middle (l1 l2 l3 : bytes) :
  slice (l1 ++ l2 ++ l3) (len l1) (len l1 + len l2) = l2.
Proof.
  unfold slice. rewrite !len_app.
  pose proof (len_nonneg l1). pose proof (len_nonneg l2).
  pose proof (len_nonneg l3).
  rewrite !clamp_index_id by lia.
  replace (len l1 + len l2 - len l1) with (len l2) by lia.
  unfold len. rewrite !Nat2Z.id.
  rewrite drop_app_length. rewrite take_app_length. reflexivity.
Qed.

Lemma getitem_nth (buf : bytes) (i : Z) :
  0 <= i < len buf -> getitem buf i = Ok (nth (Z.to_nat i) buf 0).
Proof.
  intros Hi. apply getitem_lookup; [lia |].
  destruct (lookup_lt_is_Some_2 buf (Z.to_nat i)) as [b Hb].
  { unfold len in Hi. lia. }
  rewrite nth_lookup, Hb. reflexivity.
Qed.

Lemma getitem_neg (buf : bytes) (i : Z) :
  - len buf <= i < 0 ->
  getitem buf i = Ok (nth (Z.to_nat (i + len buf)) buf 0).
Proof.
  intros Hi. unfold getitem.
  destruct (i <? 0) eqn:E; [| apply Z.ltb_ge in E; lia].
  destruct (i + len buf <? 0) eqn:E'; [apply Z.ltb_lt in E'; lia |].
  destruct (lookup_lt_is_Some_2 buf (Z.to_nat (i + len buf))) as [b Hb].
  { unfold len in *. lia. }
  rewrite nth_lookup, Hb. reflexivity.
Qed.

Lemma slice_take_drop (buf : bytes) (a b : Z) :
  0 <= a <= b -> b <= len buf ->
  slice buf a b = take (Z.to_nat (b - a)) (drop (Z.to_nat a) buf).
Proof.
  intros Ha Hb. unfold slice. rewrite !clamp_index_id by lia. reflexivity.
Qed.

End PyFacts.

(** ** Frames *)

Section FrameFacts.
Import ta_config ta_radio_433.

Lemma _chk_byte (ver cmd grp : Z) (payload : bytes) :
  is_byte (_chk ver cmd grp payload) = true.
Proof. unfold _chk. apply land_255_byte. Qed.

(** The bytes [_mk_frame] builds. *)
Lemma _mk_frame_bytes (cmd gid : Z) (payload : bytes) :
  0 <= cmd <= 255 ->
  len payload <= MAX_LEN - 7 ->
  _mk_frame cmd gid (Some payload)
  = Ok ([START_BYTE; PROTO_VER; cmd; Z.land gid 0xFF; len payload]
        ++ payload
        ++ [_chk PROTO_VER cmd (Z.land gid 0xFF) payload; END_BYTE]).
Proof.
  intros Hcmd Hlen. unfold _mk_frame.
  pose proof (len_nonneg payload) as Hnn.
  unfold MAX_LEN in *.
  destruct (len payload >? 16 - 7) eqn:E.
  { apply Z.gtb_lt in E. lia. }
  change (Z.land PROTO_VER 255) with PROTO_VER.
  rewrite (land_255_id (len payload)) by lia.
  unfold bytes_of.
  assert (Hc : is_byte cmd = true) by (apply is_byte_spec; lia).
  assert (Hl : is_byte (len payload) = true) by (apply is_byte_spec; lia).
  cbn [forallb]. rewrite Hc, Hl, land_255_byte, _chk_byte.
  reflexivity.
Qed.

End FrameFacts.

Section Codec.
Import ta_config ta_radio_433.

(** Parsing a buffer laid out as a frame around [payload], with the
    right length byte and checksum, gives the frame back. *)
Lemma _parse_frame_layout (ver cmd gid : Z) (payload : bytes) :
  let buf := [START_BYTE; ver; cmd; gid; len payload]
             ++ payload ++ [_chk ver cmd gid payload; END_BYTE] in
  _parse_frame buf = Ok (Some (cmd, gid, payload)).
Proof.
  intros buf.
  pose proof (len_nonneg payload) as Hnn.
  set (hd := [START_BYTE; ver; cmd; gid; len payload]) in *.
  set (chk := _chk ver cmd gid payload) in *.
  assert (Hlen : len buf = 5 + len payload + 2).
  { subst buf. rewrite !len_app.
    change (len hd) with 5. change (len [chk; END_BYTE]) with 2. lia. }
  assert (H0 : getitem buf 0 = Ok START_BYTE) by (apply getitem_lookup; [lia | reflexivity]).
  assert (H1 : getitem buf 1 = Ok ver) by (apply getitem_lookup; [lia | reflexivity]).
  assert (H2 : getitem buf 2 = Ok cmd) by (apply getitem_lookup; [lia | reflexivity]).
  assert (H3 : getitem buf 3 = Ok gid) by (apply getitem_lookup; [lia | reflexivity]).
  assert (H4 : getitem buf 4 = Ok (len payload)) by (apply getitem_lookup; [lia | reflexivity]).
  assert (Hl : getitem buf (-1) = Ok END_BYTE).
  { replace buf with ((hd ++ payload ++ [chk]) ++ [END_BYTE]).
    - apply getitem_last.
    - subst buf. rewrite <- !app_assoc. reflexivity. }
  assert (Hc : getitem buf (5 + len payload) = Ok chk).
  { apply getitem_lookup; [lia |].
    subst buf. unfold len. 
    replace (Z.to_nat (5 + Z.of_nat (length payload)))
      with (length hd + (length payload + 0))%nat by (subst hd; simpl; lia).
    rewrite lookup_app_r by lia.
    replace (length hd + (length payload + 0) - length hd)%nat
      with (length payload + 0)%nat by lia.
    rewrite lookup_app_r by lia.
    replace (length payload + 0 - length payload)%nat with 0%nat by lia.
    reflexivity. }
  assert (Hs : slice buf 5 (5 + len payload) = payload).
  { subst buf. change 5 with (len hd). apply slice_middle. }
  unfold _parse_frame.
  replace (match buf with [] => true | _ :: _ => false end) with false
    by reflexivity.
  destruct (len buf <? 7) eqn:E7; [apply Z.ltb_lt in E7; lia |].
  cbn [orb]. rewrite H0. cbn [rbind]. rewrite Z.eqb_refl. cbn [negb].
  rewrite Hl. cbn [rbind]. rewrite Z.eqb_refl. cbn [negb].
  rewrite H1, H2, H3, H4. cbn [rbind].
  rewrite Hlen, Z.eqb_refl. cbn [negb].
  rewrite Hs, Hc. cbn [rbind]. fold chk. rewrite Z.eqb_refl. reflexivity.
Qed.

(** C1. Round trip of the binary frame: for every command byte [cmd],
    target id [gid] in 0..255 and payload of at most [MAX_LEN - 7] bytes,
    [_mk_frame] succeeds and [_parse_frame] of the bytes it built is
    exactly [(cmd, gid, payload)]. *)
Theorem parse_mk_frame_roundtrip (cmd gid : Z) (payload : bytes) :
  0 <= cmd <= 255 ->
  0 <= gid <= 255 ->
  len payload <= MAX_LEN - 7 ->
  (let* buf := _mk_frame cmd gid (Some payload) in _parse_frame buf)
  = Ok (Some (cmd, gid, payload)).
Proof.
  intros Hcmd Hgid Hlen.
  rewrite _mk_frame_bytes by assumption. cbn [rbind].
  rewrite (land_255_id gid) by assumption.
  apply _parse_frame_layout.
Qed.

Lemma parse_mk_frame_roundtrip_witness :
  (let* buf := _mk_frame CMD_GET_STS 3 (Some [STATE_PRESENT]) in _parse_frame buf)
  = Ok (Some (CMD_GET_STS, 3, [STATE_PRESENT])).
Proof.
  apply (parse_mk_frame_roundtrip CMD_GET_STS 3 [STATE_PRESENT]).
  - unfold CMD_GET_STS. lia.
  - lia.
  - vm_compute. discriminate.
Defined.

Lemma len_actual_payload (buf : bytes) :
  7 <= len buf -> len (actual_payload buf) = len buf - 7.
Proof.
  intros H. unfold actual_payload, len in *.
  rewrite length_take, length_drop. lia.
Qed.

(** What [_parse_frame] computes, on every buffer. *)
Lemma _parse_frame_spec (buf : bytes) :
  _parse_frame buf
  = Ok (if structurally_valid buf
        then Some (nth 2 buf 0, nth 3 buf 0, actual_payload buf)
        else None).
Proof.
  unfold _parse_frame, structurally_valid.
  destruct (len buf <? 7) eqn:E7.
  { apply Z.ltb_lt in E7. rewrite orb_true_r.
    destruct (7 <=? len buf) eqn:E; [apply Z.leb_le in E; lia |].
    reflexivity. }
  apply Z.ltb_ge in E7.
  assert (E : (7 <=? len buf) = true) by (apply Z.leb_le; lia).
  rewrite E, (len_actual_payload buf E7).
  replace (match buf with [] => true | _ :: _ => false end) with false
    by (destruct buf; [unfold len in E7; simpl in E7; lia | reflexivity]).
  cbn [orb andb].
  rewrite (getitem_nth buf 0) by lia. cbn [rbind]. change (Z.to_nat 0) with 0%nat.
  destruct (nth 0 buf 0 =? START_BYTE); [| reflexivity].
  cbn [negb andb].
  rewrite (getitem_neg buf (-1)) by lia. cbn [rbind].
  replace (Z.to_nat (-1 + len buf)) with (length buf - 1)%nat
    by (unfold len; lia).
  destruct (nth (length buf - 1) buf 0 =? END_BYTE); [| reflexivity].
  cbn [negb andb].
  rewrite (getitem_nth buf 1), (getitem_nth buf 2), (getitem_nth buf 3),
    (getitem_nth buf 4) by lia.
  cbn [rbind].
  change (Z.to_nat 1) with 1%nat. change (Z.to_nat 2) with 2%nat.
  change (Z.to_nat 3) with 3%nat. change (Z.to_nat 4) with 4%nat.
  set (ln := nth 4 buf 0).
  destruct (5 + ln + 2 =? len buf) eqn:El.
  - apply Z.eqb_eq in El.
    replace (ln =? len buf - 7) with true by (symmetry; apply Z.eqb_eq; lia).
    cbn [negb andb].
    rewrite (getitem_nth buf (5 + ln)) by lia. cbn [rbind].
    rewrite slice_take_drop by lia.
    replace (Z.to_nat (5 + ln - 5)) with (length buf - 7)%nat
      by (unfold len in El; lia).
    change (Z.to_nat 5) with 5%nat. fold (actual_payload buf).
    replace (Z.to_nat (5 + ln)) with (length buf - 2)%nat
      by (unfold len in El; lia).
    destruct (_ =? nth (length buf - 2) buf 0); reflexivity.
  - apply Z.eqb_neq in El.
    replace (ln =? len buf - 7) with false by (symmetry; apply Z.eqb_neq; lia).
    reflexivity.
Qed.

(** C4. [_parse_frame] raises on no input: on every byte sequence it
    returns a value, and that value is [None] whenever the input is
    shorter than 7 bytes, or its first byte is not the start marker, or
    its last byte is not the end marker, or the declared payload length
    is not the actual payload size, or the recomputed checksum is not the
    trailing checksum byte. *)
Theorem parse_frame_never_raises (buf : bytes) :
  (exists r, _parse_frame buf = Ok r)
  /\ (too_short buf \/ bad_start buf \/ bad_end buf
      \/ bad_length buf \/ bad_checksum buf ->
      _parse_frame buf = Ok None).
Proof.
  rewrite _parse_frame_spec. split; [eauto |].
  intros Hbad. replace (structurally_valid buf) with false; [reflexivity |].
  symmetry. apply not_true_is_false. unfold structurally_valid.
  rewrite !andb_true_iff, Z.leb_le, !Z.eqb_eq.
  intros [[[[H7 Hs] He] Hl] Hc].
  destruct Hbad as [H | [H | [H | [H | H]]]];
    [unfold too_short in H; lia | apply H; assumption ..].
Qed.

Lemma parse_frame_never_raises_witness :
  bad_checksum [0xA5; 1; 0x20; 1; 1; 1; 0x21; 0x5A]
  /\ _parse_frame [0xA5; 1; 0x20; 1; 1; 1; 0x21; 0x5A] = Ok None.
Proof.
  assert (H : bad_checksum [0xA5; 1; 0x20; 1; 1; 1; 0x21; 0x5A])
    by (vm_compute; discriminate).
  split; [exact H |].
  apply (parse_frame_never_raises [0xA5; 1; 0x20; 1; 1; 1; 0x21; 0x5A]).
  right; right; right; right. exact H.
Defined.

End Codec.

(** ** Statistics *)

Section Stats.
Import ta_radio_433.

Lemma FLOAT_OVERFLOW_above_1 : 1 < FLOAT_OVERFLOW.
Proof. apply Z.ltb_lt. vm_compute. reflexivity. Qed.

Lemma truediv_in_range (a b : Z) :
  0 <= a <= b -> 0 < b -> truediv a b = Ok (Qmake a 1 / Qmake b 1)%Q.
Proof.
  intros Ha Hb. unfold truediv.
  replace (b =? 0) with false by (symmetry; apply Z.eqb_neq; lia).
  replace (FLOAT_OVERFLOW * Z.abs b <=? Z.abs a) with false; [reflexivity |].
  symmetry. apply Z.leb_gt. pose proof FLOAT_OVERFLOW_above_1 as HF.
  rewrite !Z.abs_eq by lia.
  set (F := FLOAT_OVERFLOW) in *. clearbody F.
  assert (1 * b < F * b) by (apply Z.mul_lt_mono_pos_r; lia).
  lia.
Qed.




End Stats.

(** ** Requests for one device *)

Section Request.
Import ta_config ta_radio_433.

(** C9. For every integer [dd_id] that is not in [GROUP_IDS],
    [request_status dd_id] returns [STATE_UNKNOWN] and leaves the radio
    and the hardware as they were: nothing is written to the transport,
    no retry is made, no counter moves. *)
Theorem request_status_unknown_id (dd_id : Z) (st : St) :
  dd_id ∉ GROUP_IDS ->
  request_status dd_id st = (Ok STATE_UNKNOWN, st).
Proof.
  intros Hid. unfold request_status.
  rewrite bool_decide_eq_false_2 by assumption. reflexivity.
Qed.

End Request.

Lemma request_status_unknown_id_witness :
(9 ∉ ta_config.GROUP_IDS)
  /\ ta_radio_433.request_status 9 (hw_radio, env_receiving [])
     = (Ok ta_config.STATE_UNKNOWN, (hw_radio, env_receiving [])).
Proof.
  assert (H : 9 ∉ ta_config.GROUP_IDS).
  { unfold ta_config.GROUP_IDS. rewrite !not_elem_of_cons.
    repeat split; try lia. apply not_elem_of_nil. }
  split; [exact H |].
  apply (request_status_unknown_id 9 (hw_radio, env_receiving []) H).
Defined.

(** ** The detector's watchdog *)

Section Watchdog.
Import dd_main.


Lemma fire_at_in_time (t : Z) (d : Detector) (h : Hw) :
  _wdt_triggered d = false ->
  ~ past_deadline d t ->
  fire_at t (d, h) = (Ok tt, (d, at_clock t h)).
Proof.
  intros Ht Hin. unfold fire_at, wdt_cb, ticks_ms, bind, modify, gets.
  cbn [fst snd _wdt_triggered]. rewrite Ht. cbn [fst snd clock last_loop_ts].
  destruct (ticks_diff t (last_loop_ts d) >? WATCHDOG_MS) eqn:E.
  - apply Z.gtb_lt in E. unfold past_deadline in Hin. lia.
  - reflexivity.
Qed.








End Watchdog.

(** ** The detector's identity *)

Section Identity.
Import dd_main.
Local Open Scope string_scope.

(** Runs the straight-line part of a detector computation. *)
Ltac dd_norm :=
  repeat progress
    (cbv beta iota zeta delta
       [bind gets modify ret lift try_except led_value sleep_ms send_ack
        send_ack_id_change _uart_write_str uart_write bytes_of_str bump
        reset emit set_wdt_triggered _persist_id_to_nvs uart_accepts];
     cbn [fst snd led_ok log clock nvs_blob nvs_plan uart_plan DETECTOR_ID
          ok_count nok_count setid_ok_count setid_err_count last_loop_ts
          _wdt_triggered loop_count inc_ok inc_nok adopt_id inc_setid_err
          orb andb]).

Lemma uart_lines_app (l1 l2 : list Event) :
  uart_lines (l1 ++ l2) = (uart_lines l1 ++ uart_lines l2)%list.
Proof.
  induction l1 as [| ev l1 IH]; [reflexivity |].
  destruct ev; cbn; rewrite IH; reflexivity.
Qed.

(** A POLL that carries the detector's own identifier is counted, and
    acknowledged when the UART lets the line through. *)
Lemma dispatch_poll_own_id (d : Detector) (h : Hw) :
  exists d' h',
    dispatch "POLL" (DETECTOR_ID d) (d, h) = (Ok tt, (d', h'))
    /\ ok_count d' = (ok_count d + 1)%Z
    /\ DETECTOR_ID d' = DETECTOR_ID d
    /\ uart_lines (log h')
       = (uart_lines (log h)
          ++ (if uart_accepts h then [ack_line (DETECTOR_ID d)] else []))%list
    /\ (uart_accepts h = true ->
        exists evs,
          log h' = (log h ++ EvUart (ack_line (DETECTOR_ID d)) :: evs)%list).
Proof.
  unfold dispatch. change ("POLL" =? "POLL") with true.
  change (measure_state =? 0)%Z with false.
  dd_norm. rewrite String.eqb_refl. dd_norm.
  destruct (uart_plan h) as [| [] urest] eqn:Eu; dd_norm;
    destruct (led_ok h) eqn:Eled; dd_norm;
    (eexists _, _; split; [reflexivity |]; dd_norm;
     split; [reflexivity |]; split; [reflexivity |];
     rewrite ?uart_lines_app; cbn [uart_lines]; rewrite ?app_nil_r;
     split; [reflexivity |];
     first [ intros H; discriminate H
           | intros _; rewrite <- ?app_assoc; eexists; reflexivity ]).
Qed.

(** C5. For every detector state and every SETID command with a new
    identifier of 1 to 8 characters: when persisting the identifier
    fails, the active identifier is the one from before the command and
    the reply written is the failure acknowledgment; when persisting
    succeeds, the active identifier is the new one, the reply is the
    success acknowledgment, and a POLL for the new identifier processed
    next is counted as addressed and acknowledged.  A reply is the one
    line the command writes, and the last thing it does; it reaches the
    radio when the UART write goes through, and is dropped with nothing
    else changed when the write raises. *)
Theorem setid_follows_persistence (d : Detector) (h : Hw) (new_id : string) :
  (1 <= String.length new_id <= 8)%nat ->
  exists d' h',
    dispatch "SETID" new_id (d, h) = (Ok tt, (d', h'))
    /\ (fst (_persist_id_to_nvs new_id (d, h)) = Ok false ->
        DETECTOR_ID d' = DETECTOR_ID d
        /\ log h'
           = (log h
              ++ (if uart_accepts h then [EvUart (setid_err_line new_id)] else []))%list)
    /\ (fst (_persist_id_to_nvs new_id (d, h)) = Ok true ->
        DETECTOR_ID d' = new_id
        /\ uart_lines (log h')
           = (uart_lines (log h)
              ++ (if uart_accepts h then [setid_ok_line new_id] else []))%list
        /\ (uart_accepts h = true ->
            last (log h') = Some (EvUart (setid_ok_line new_id)))
        /\ exists d'' h'',
             dispatch "POLL" new_id (d', h') = (Ok tt, (d'', h''))
             /\ ok_count d'' = (ok_count d' + 1)%Z
             /\ uart_lines (log h'')
                = (uart_lines (log h')
                   ++ (if uart_accepts h' then [ack_line new_id] else []))%list
             /\ (uart_accepts h' = true ->
                 exists evs,
                   log h'' = (log h' ++ EvUart (ack_line new_id) :: evs)%list)).
Proof.
  intros _.
  assert (Hok : forall d0 h0, DETECTOR_ID d0 = new_id ->
            exists d'' h'',
              dispatch "POLL" new_id (d0, h0) = (Ok tt, (d'', h''))
              /\ ok_count d'' = (ok_count d0 + 1)%Z
              /\ uart_lines (log h'')
                 = (uart_lines (log h0)
                    ++ (if uart_accepts h0 then [ack_line new_id] else []))%list
              /\ (uart_accepts h0 = true ->
                  exists evs,
                    log h'' = (log h0 ++ EvUart (ack_line new_id) :: evs)%list)).
  { intros d0 h0 Hid.
    destruct (dispatch_poll_own_id d0 h0)
      as (d'' & h'' & Hrun & Hcnt & _ & Hlines & Hlog).
    rewrite Hid in Hrun, Hlines, Hlog. eauto 6. }
  unfold dispatch at 1. change ("SETID" =? "POLL") with false.
  change ("SETID" =? "SETID") with true.
  destruct (nvs_plan h) as [| [] rest] eqn:Eplan;
    destruct (uart_plan h) as [| [] urest] eqn:Eu;
    destruct (led_ok h) eqn:Eled;
    dd_norm; rewrite ?Eplan, ?Eu, ?Eled; dd_norm;
    (eexists _, _; split; [reflexivity |]; dd_norm; rewrite ?Eplan, ?Eu; dd_norm;
     split;
     [ first [ discriminate
             | intros _; split; [reflexivity |];
               rewrite ?app_nil_r; reflexivity ]
     | first [ discriminate
             | intros _; split; [reflexivity |];
               split; [rewrite ?uart_lines_app; cbn [uart_lines];
                       rewrite ?app_nil_r; reflexivity |];
               split; [first [ intros H; discriminate H
                             | intros _; apply last_snoc ] |];
               match goal with
               | |- context [dispatch "POLL" new_id (?d0, ?h0)] =>
                   apply (Hok d0 h0); reflexivity
               end ] ]).
Qed.

Lemma setid_follows_persistence_witness :
  (1 <= String.length "07" <= 8)%nat
  /\ fst (_persist_id_to_nvs "07" (booted "02", hw_with_nvs [false])) = Ok false
  /\ exists d' h',
       dispatch "SETID" "07" (booted "02", hw_with_nvs [false]) = (Ok tt, (d', h'))
       /\ DETECTOR_ID d' = "02"
       /\ log h' = [EvUart (setid_err_line "07")].
Proof.
  assert (Hlen : (1 <= String.length "07" <= 8)%nat) by (cbn; lia).
  split; [exact Hlen |]. split; [reflexivity |].
  destruct (setid_follows_persistence (booted "02") (hw_with_nvs [false]) "07" Hlen)
    as (d' & h' & Hrun & Hfail & _).
  destruct (Hfail eq_refl) as [Hid Hlog].
  exists d', h'. repeat split; assumption.
Defined.

End Identity.

(** ** The radio: primitives *)

Section RadioSteps.
Import ta_config ta_radio_433.

(** Runs the straight-line part of a radio computation. *)
Ltac ra_norm :=
  repeat progress
    (cbv beta iota zeta delta
       [bind gets modify ret lift try_except _ticks _sleep_ms _randbits
        uart_write uart_read stats_do _write _read_all];
     cbn [fst snd simulate uart _tick _sim_states stats clock uart_tx
          uart_rx rng log set_stats set_tick set_sim_states orb andb negb]).

Lemma _read_all_steady (r : Radio) (e : Env) :
  exists chunk r' e',
    _read_all (r, e) = (Ok chunk, (r', e'))
    /\ simulate r' = simulate r
    /\ uart r' = uart r
    /\ _tick r' = _tick r
    /\ clock e' = clock e.
Proof.
  ra_norm. destruct (simulate r || negb (uart r)); ra_norm; [eauto 10 |].
  destruct (uart_rx e) as [| [| [| b d] |] rest]; ra_norm; eauto 10.
Qed.

Lemma _write_steady (data : bytes) (r : Radio) (e : Env) :
  exists n r' e',
    _write data (r, e) = (Ok n, (r', e'))
    /\ simulate r' = simulate r
    /\ uart r' = uart r
    /\ _tick r' = _tick r
    /\ clock e' = clock e
    /\ uart_rx e' = uart_rx e.
Proof.
  ra_norm. destruct (simulate r || negb (uart r)); ra_norm; [eauto 12 |].
  destruct (uart_tx e) as [| [n |] rest]; ra_norm; eauto 12.
Qed.

Lemma _scan_ok (buf : bytes) : exists o, _scan buf = Ok o.
Proof.
  unfold _scan. destruct (_ && _); [| eauto].
  rewrite _parse_frame_spec. eauto.
Qed.

Lemma bind_ok {S A B} (m : M S A) (k : A -> M S B) (s s' : S) (a : A) :
  m s = (Ok a, s') -> bind m k s = k a s'.
Proof. intros H. unfold bind. rewrite H. reflexivity. Qed.

Lemma _ticks_run (r : Radio) (e : Env) : _ticks (r, e) = (Ok (clock e), (r, e)).
Proof. reflexivity. Qed.

Lemma _sleep_ms_run (ms : Z) (r : Radio) (e : Env) :
  _sleep_ms ms (r, e) = (Ok tt, (r, slept ms e)).
Proof. reflexivity. Qed.

Lemma simulate_run (r : Radio) (e : Env) :
  gets (fun st : St => simulate (fst st)) (r, e) = (Ok (simulate r), (r, e)).
Proof. reflexivity. Qed.

(** One turn of the loop of [_exchange], while the time is not over. *)
Lemma _exchange_loop_turn (fuel : nat) (t0 timeout_ms : Z) (buf chunk : bytes)
    (r r1 : Radio) (e e1 : Env) (o : option frame) :
  clock e - t0 < timeout_ms ->
  _read_all (r, e) = (Ok chunk, (r1, e1)) ->
  match chunk with [] => Ok None | _ :: _ => _scan (buf ++ chunk) end = Ok o ->
  _exchange_loop (S fuel) t0 timeout_ms buf (r, e)
  = match o with
    | Some f => (Ok (Some f), (r1, e1))
    | None => _exchange_loop fuel t0 timeout_ms (buf ++ chunk) (r1, slept 5 e1)
    end.
Proof.
  intros Ht Hrd Ho. cbn [_exchange_loop].
  rewrite (bind_ok _ _ _ _ _ (_ticks_run r e)). unfold _diff.
  apply Z.ltb_lt in Ht. rewrite Ht.
  rewrite (bind_ok _ _ _ _ _ Hrd).
  rewrite (bind_ok _ _ (r1, e1) (r1, e1) o).
  2:{ destruct chunk; [injection Ho as <-; reflexivity |].
      unfold lift. rewrite Ho. reflexivity. }
  destruct o; [reflexivity |].
  rewrite (bind_ok _ _ _ _ _ (_sleep_ms_run 5 r1 e1)). reflexivity.
Qed.

(** The end of the loop of [_exchange], when the time is over. *)
Lemma _exchange_loop_timeout (fuel : nat) (t0 timeout_ms : Z) (buf : bytes)
    (r : Radio) (e : Env) :
  timeout_ms <= clock e - t0 ->
  _exchange_loop (S fuel) t0 timeout_ms buf (r, e)
  = (Ok None, (set_stats RadioStats_.update_timeout r, e)).
Proof.
  intros Ht. cbn [_exchange_loop].
  rewrite (bind_ok _ _ _ _ _ (_ticks_run r e)). unfold _diff.
  apply Z.ltb_ge in Ht. rewrite Ht. reflexivity.
Qed.

(** With enough fuel for the time that is left, the loop of [_exchange]
    comes to an end, with a frame or with [None]. *)
Lemma _exchange_loop_total (fuel : nat) (t0 timeout_ms : Z) (buf : bytes)
    (r : Radio) (e : Env) :
  (1 <= fuel)%nat ->
  timeout_ms - (clock e - t0) <= 5 * (Z.of_nat fuel - 1) ->
  exists res r' e',
    _exchange_loop fuel t0 timeout_ms buf (r, e) = (Ok res, (r', e'))
    /\ simulate r' = simulate r
    /\ uart r' = uart r
    /\ _tick r' = _tick r.
Proof.
  revert buf r e. induction fuel as [| fuel IH]; intros buf r e Hf Ht; [lia |].
  destruct (Z.lt_ge_cases (clock e - t0) timeout_ms) as [Hlt | Hge].
  - destruct (_read_all_steady r e)
      as (chunk & r1 & e1 & Hrd & Hs1 & Hu1 & Hk1 & Hc1).
    assert (Hscan : exists o,
              match chunk with [] => Ok None | _ :: _ => _scan (buf ++ chunk) end
              = Ok o).
    { destruct chunk; [eauto | apply _scan_ok]. }
    destruct Hscan as [o Ho].
    rewrite (_exchange_loop_turn fuel t0 timeout_ms buf chunk r r1 e e1 o Hlt Hrd Ho).
    destruct o as [f |].
    + exists (Some f), r1, e1. repeat split; assumption.
    + destruct (IH (buf ++ chunk) r1 (slept 5 e1))
        as (res & r2 & e2 & Hrun & Hs2 & Hu2 & Hk2).
      * lia.
      * cbn [clock slept]. lia.
      * exists res, r2, e2. rewrite Hrun. repeat split; congruence.
  - rewrite _exchange_loop_timeout by assumption.
    eexists _, _, _. split; [reflexivity |]. repeat split.
Qed.

(** In physical mode a single exchange returns: a frame or [None]. *)
Lemma _exchange_total (cmd gid : Z) (payload : bytes) (timeout_ms : Z)
    (r : Radio) (e : Env) :
  simulate r = false ->
  0 <= cmd <= 255 ->
  len payload <= MAX_LEN - 7 ->
  exists res r' e',
    _exchange cmd gid payload timeout_ms (r, e) = (Ok res, (r', e'))
    /\ simulate r' = false
    /\ uart r' = uart r
    /\ _tick r' = _tick r.
Proof.
  intros Hsim Hcmd Hlen. unfold _exchange.
  rewrite (bind_ok _ _ _ _ _ (simulate_run r e)). rewrite Hsim.
  rewrite _mk_frame_bytes by assumption.
  set (frm := _ ++ _ ++ _).
  erewrite bind_ok by reflexivity.
  destruct (_write_steady frm r e)
    as (n & r1 & e1 & Hw & Hs1 & Hu1 & Hk1 & Hc1 & _).
  rewrite (bind_ok _ _ _ _ _ Hw).
  rewrite (bind_ok _ _ _ _ _ (_ticks_run r1 e1)).
  destruct (_exchange_loop_total (S (Z.to_nat timeout_ms)) (clock e1)
              timeout_ms [] r1 e1) as (res & r2 & e2 & Hrun & Hs2 & Hu2 & Hk2).
  - lia.
  - lia.
  - exists res, r2, e2. rewrite Hrun. repeat split; congruence.
Qed.

End RadioSteps.

(** ** Retries *)

Section RetryFacts.
Import ta_config ta_radio_433.

Lemma int_of_Q_floor (x : Q) : (0 <= x)%Q -> int_of_Q x = Qfloor x.
Proof.
  intros H. unfold int_of_Q.
  apply Qle_bool_iff in H. rewrite H. reflexivity.
Qed.

(** Truncation separates two non-negative numbers that are 1 apart. *)
Lemma int_of_Q_step (x y : Q) :
  (0 <= x)%Q -> (x + 1 <= y)%Q -> int_of_Q x < int_of_Q y.
Proof.
  intros Hx Hxy.
  assert (Hy : (0 <= y)%Q).
  { apply Qle_trans with (x + 1)%Q; [| assumption].
    apply Qle_trans with (x + 0)%Q; [rewrite Qplus_0_r; assumption |].
    apply Qplus_le_r. discriminate. }
  rewrite !int_of_Q_floor by assumption.
  assert (H : (inject_Z (Qfloor x + 1) <= y)%Q).
  { rewrite inject_Z_plus. apply Qle_trans with (x + 1)%Q; [| assumption].
    apply Qplus_le_l. apply Qfloor_le. }
  apply Qfloor_resp_le in H. rewrite Qfloor_Z in H. lia.
Qed.

Lemma attempt_timeout_increases (cfg : RetryCfg) (i : Z) :
  (1 < TIMEOUT_MULTIPLIER cfg)%Q ->
  (1 <= inject_Z (TIMEOUT_BASE_MS cfg) * (TIMEOUT_MULTIPLIER cfg - 1))%Q ->
  0 <= i ->
  attempt_timeout cfg i < attempt_timeout cfg (i + 1).
Proof.
  intros Hm Hb Hi. unfold attempt_timeout.
  set (b := inject_Z (TIMEOUT_BASE_MS cfg)) in *.
  set (m := TIMEOUT_MULTIPLIER cfg) in *.
  assert (Hm0 : ~ (m == 0)%Q).
  { intros H0. rewrite H0 in Hm. discriminate. }
  assert (Hp : (1 <= m ^ i)%Q).
  { apply Qpower_1_le; [apply Qlt_le_weak; assumption | assumption]. }
  assert (Hm1 : (0 < m - 1)%Q).
  { unfold Qminus. rewrite <- (Qplus_opp_r 1). apply Qplus_lt_l. assumption. }
  assert (Hbpos : (0 <= b)%Q).
  { destruct (Qlt_le_dec b 0) as [Hneg | Hpos]; [| assumption].
    exfalso.
    assert (Hle : (b * (m - 1) <= 0 * (m - 1))%Q).
    { apply Qmult_le_compat_r; [apply Qlt_le_weak; assumption |].
      apply Qlt_le_weak; assumption. }
    rewrite Qmult_0_l in Hle.
    apply (Qle_not_lt _ _ (Qle_trans _ _ _ Hb Hle)). reflexivity. }
  apply int_of_Q_step.
  - apply Qmult_le_0_compat; [assumption |].
    apply Qle_trans with 1%Q; [discriminate | assumption].
  - rewrite Qpower_plus by assumption. rewrite Qpower_1_r.
    assert (Hdiff : (b * (m ^ i * m) == b * m ^ i + (b * (m - 1)) * m ^ i)%Q) by ring.
    rewrite Hdiff. apply Qplus_le_r.
    apply Qmult_le_1_compat; assumption.
Qed.

Lemma length_range (n : Z) : length (range n) = Z.to_nat n.
Proof. unfold range. rewrite length_map, length_seq. reflexivity. Qed.

Lemma range_lookup (n : Z) (i : nat) (a : Z) :
  range n !! i = Some a -> a = Z.of_nat i /\ (i < Z.to_nat n)%nat.
Proof.
  unfold range. rewrite list_lookup_fmap.
  destruct (seq 0 (Z.to_nat n) !! i) as [k |] eqn:E; [| discriminate].
  apply lookup_seq in E as [-> Hlt]. cbn. intros [= <-]. split; [reflexivity | lia].
Qed.

Section Exhausted.

Context {S : Type}.
Variable exchange : Z -> Z -> bytes -> Z -> M S (option frame).
Variable sleep_ms : Z -> M S unit.
Variable cfg : RetryCfg.
Variable Inv : S -> Prop.
Variables (cmd gid : Z) (payload : bytes).

Hypothesis exchange_fails :
  forall (timeout : Z) (s : S), Inv s ->
    exists s', exchange cmd gid payload timeout s = (Ok None, s') /\ Inv s'.
Hypothesis sleep_passes :
  forall (ms : Z) (s : S), Inv s ->
    exists s', sleep_ms ms s = (Ok tt, s') /\ Inv s'.

(** When every single exchange fails, each attempt of the list calls it
    once, with its own timeout, and the result is [None]. *)
Lemma _retry_attempts_exhausted (attempts : list Z) (s : S) (calls : list Z) :
  Inv s ->
  exists s',
    _retry_attempts (logged exchange) (fun ms => beside (sleep_ms ms)) cfg
      attempts cmd gid payload (s, calls)
    = (Ok None, (s', calls ++ map (attempt_timeout cfg) attempts))
    /\ Inv s'.
Proof.
  revert s calls. induction attempts as [| attempt rest IH]; intros s calls Hs.
  - exists s. cbn. rewrite app_nil_r. split; [reflexivity | assumption].
  - cbn [_retry_attempts map].
    destruct (exchange_fails (attempt_timeout cfg attempt) s Hs) as (s1 & E1 & Hs1).
    rewrite (bind_ok _ _ (s, calls) (s1, calls ++ [attempt_timeout cfg attempt]) None)
      by (unfold logged; rewrite E1; reflexivity).
    match goal with
    | |- context [bind (if ?c then ?a else ?b) _] =>
        set (pause := if c then a else b)
    end.
    assert (Hpause : exists s2,
              pause (s1, calls ++ [attempt_timeout cfg attempt])
              = (Ok tt, (s2, calls ++ [attempt_timeout cfg attempt]))
              /\ Inv s2).
    { subst pause. destruct (_ && _).
      - destruct (sleep_passes (BACKOFF_MS cfg * (attempt + 1)) s1 Hs1)
          as (s2 & Hsl & Hs2).
        exists s2. unfold beside. rewrite Hsl. split; [reflexivity | assumption].
      - exists s1. split; [reflexivity | assumption]. }
    destruct Hpause as (s2 & Hpause & Hs2).
    rewrite (bind_ok _ _ _ _ _ Hpause).
    destruct (IH s2 (calls ++ [attempt_timeout cfg attempt]) Hs2) as (s' & Hrun & Hs').
    exists s'. rewrite Hrun, <- app_assoc. split; [reflexivity | assumption].
Qed.

End Exhausted.

(** The configured table is one of them: its timeouts 500, 750 and 1125
    are computed without rounding. *)
Lemma retry_floats_exact_configured : retry_floats_exact RETRY.
Proof.
  intros i Hi. change (MAX_RETRIES RETRY) with 3 in Hi.
  assert (i = 0 \/ i = 1 \/ i = 2) as [-> | [-> | ->]] by lia;
    vm_compute; reflexivity.
Qed.

(** C3 (as amended). For every retry table with [MAX_RETRIES >= 1] whose
    timeouts the floats compute without rounding, when every single
    exchange fails (from the states [Inv] the link stays in),
    [_exchange_with_retry] calls the single exchange exactly
    [MAX_RETRIES] times, attempt [i] with the timeout
    [int(TIMEOUT_BASE_MS * TIMEOUT_MULTIPLIER ** i)], and returns [None]
    after the last attempt; these timeouts are strictly increasing when
    the multiplier is above 1 and [TIMEOUT_BASE_MS * (multiplier - 1)] is
    at least 1. *)
Theorem exchange_with_retry_exhausts {S : Type}
    (exchange : Z -> Z -> bytes -> Z -> M S (option frame))
    (sleep_ms : Z -> M S unit) (cfg : RetryCfg) (Inv : S -> Prop)
    (cmd gid : Z) (payload : bytes) (s : S) :
  MAX_RETRIES cfg >= 1 ->
  retry_floats_exact cfg ->
  (forall timeout s, Inv s ->
     exists s', exchange cmd gid payload timeout s = (Ok None, s') /\ Inv s') ->
  (forall ms s, Inv s -> exists s', sleep_ms ms s = (Ok tt, s') /\ Inv s') ->
  Inv s ->
  exists s' calls,
    _exchange_with_retry_on (logged exchange) (fun ms => beside (sleep_ms ms))
      cfg cmd gid payload (s, [])
    = (Ok None, (s', calls))
    /\ len calls = MAX_RETRIES cfg
    /\ (forall i : Z, 0 <= i < MAX_RETRIES cfg ->
        calls !! Z.to_nat i = Some (attempt_timeout cfg i))
    /\ ((1 < TIMEOUT_MULTIPLIER cfg)%Q ->
        (1 <= inject_Z (TIMEOUT_BASE_MS cfg) * (TIMEOUT_MULTIPLIER cfg - 1))%Q ->
        StrictlyIncreasing calls).
Proof.
  intros Hmax _ Hex Hsl Hs. unfold _exchange_with_retry_on.
  destruct (_retry_attempts_exhausted exchange sleep_ms cfg Inv cmd gid payload
              Hex Hsl (range (MAX_RETRIES cfg)) s [] Hs) as (s' & Hrun & _).
  exists s', (map (attempt_timeout cfg) (range (MAX_RETRIES cfg))).
  split; [exact Hrun |]. split; [| split].
  - unfold len. rewrite length_map, length_range. lia.
  - intros i Hi. rewrite list_lookup_fmap. unfold range.
    rewrite list_lookup_fmap, lookup_seq_lt by lia.
    cbn. rewrite Z2Nat.id by lia. reflexivity.
  - intros Hm Hb i a b. rewrite !list_lookup_fmap.
    destruct (range (MAX_RETRIES cfg) !! i) as [x |] eqn:Ex; [| discriminate].
    destruct (range (MAX_RETRIES cfg) !! Datatypes.S i) as [y |] eqn:Ey; [| discriminate].
    apply range_lookup in Ex as [-> _]. apply range_lookup in Ey as [-> _].
    cbn. intros [= <-] [= <-].
    replace (Z.of_nat (Datatypes.S i)) with (Z.of_nat i + 1) by lia.
    apply attempt_timeout_increases; [assumption | assumption | lia].
Qed.

(** On a physical link where nothing is ever received, the loop of
    [_exchange] runs to its timeout. *)
Lemma _read_all_silent (r : Radio) (e : Env) :
  uart_rx e = [] -> _read_all (r, e) = (Ok [], (r, e)).
Proof.
  intros Hrx. unfold _read_all. erewrite bind_ok by reflexivity.
  cbn [fst]. destruct (simulate r || negb (uart r)); [reflexivity |].
  erewrite bind_ok by (unfold uart_read; rewrite Hrx; reflexivity).
  reflexivity.
Qed.

Lemma _exchange_loop_silent (fuel : nat) (t0 timeout_ms : Z) (buf : bytes)
    (r : Radio) (e : Env) :
  (1 <= fuel)%nat ->
  timeout_ms - (clock e - t0) <= 5 * (Z.of_nat fuel - 1) ->
  uart_rx e = [] ->
  exists e',
    _exchange_loop fuel t0 timeout_ms buf (r, e)
    = (Ok None, (set_stats RadioStats_.update_timeout r, e'))
    /\ uart_rx e' = [].
Proof.
  revert buf e. induction fuel as [| fuel IH]; intros buf e Hf Ht Hrx; [lia |].
  destruct (Z.lt_ge_cases (clock e - t0) timeout_ms) as [Hlt | Hge].
  - rewrite (_exchange_loop_turn fuel t0 timeout_ms buf [] r r e e None Hlt
               (_read_all_silent r e Hrx) eq_refl).
    apply IH; [lia | cbn [clock slept]; lia | exact Hrx].
  - rewrite _exchange_loop_timeout by assumption.
    exists e. split; [reflexivity | assumption].
Qed.

Lemma _exchange_silent (cmd gid : Z) (payload : bytes) (timeout_ms : Z)
    (r : Radio) (e : Env) :
  simulate r = false ->
  uart_rx e = [] ->
  0 <= cmd <= 255 ->
  len payload <= MAX_LEN - 7 ->
  exists r' e',
    _exchange cmd gid payload timeout_ms (r, e) = (Ok None, (r', e'))
    /\ simulate r' = false
    /\ uart_rx e' = [].
Proof.
  intros Hsim Hrx Hcmd Hlen. unfold _exchange.
  rewrite (bind_ok _ _ _ _ _ (simulate_run r e)). rewrite Hsim.
  rewrite _mk_frame_bytes by assumption.
  set (frm := _ ++ _ ++ _).
  erewrite bind_ok by reflexivity.
  destruct (_write_steady frm r e)
    as (n & r1 & e1 & Hw & Hs1 & Hu1 & Hk1 & Hc1 & Hrx1).
  rewrite (bind_ok _ _ _ _ _ Hw).
  rewrite (bind_ok _ _ _ _ _ (_ticks_run r1 e1)).
  destruct (_exchange_loop_silent (S (Z.to_nat timeout_ms)) (clock e1)
              timeout_ms [] r1 e1) as (e2 & Hrun & Hrx2).
  - lia.
  - lia.
  - congruence.
  - eexists _, e2. rewrite Hrun. split; [reflexivity |].
    split; [cbn [simulate set_stats]; congruence | assumption].
Qed.

Lemma exchange_with_retry_exhausts_witness :
  MAX_RETRIES RETRY >= 1
  /\ retry_floats_exact RETRY
  /\ exists st' calls,
       _exchange_with_retry_on (logged _exchange)
         (fun ms => beside (_sleep_ms ms)) RETRY CMD_GET_STS 1 []
         ((hw_radio, env_receiving []), [])
       = (Ok None, (st', calls))
       /\ len calls = 3
       /\ calls !! 0%nat = Some 500
       /\ calls !! 1%nat = Some 750
       /\ calls !! 2%nat = Some 1125
       /\ StrictlyIncreasing calls.
Proof.
  assert (Hmax : MAX_RETRIES RETRY >= 1) by (cbn; lia).
  split; [exact Hmax |]. split; [exact retry_floats_exact_configured |].
  destruct (exchange_with_retry_exhausts _exchange _sleep_ms RETRY
              (fun st => simulate (fst st) = false /\ uart_rx (snd st) = [])
              CMD_GET_STS 1 [] (hw_radio, env_receiving []) Hmax
              retry_floats_exact_configured)
    as (st' & calls & Hrun & Hlen & Hat & Hinc).
  - intros timeout [r e] [Hsim Hrx]. cbn [fst snd] in *.
    destruct (_exchange_silent CMD_GET_STS 1 [] timeout r e Hsim Hrx)
      as (r' & e' & Hex & Hsim' & Hrx').
    + unfold CMD_GET_STS. lia.
    + vm_compute. discriminate.
    + exists (r', e'). split; [exact Hex | split; assumption].
  - intros ms [r e] [Hsim Hrx]. exists (r, slept ms e).
    split; [reflexivity | split; assumption].
  - split; reflexivity.
  - exists st', calls. split; [exact Hrun |]. split; [exact Hlen |].
    split; [exact (Hat 0 ltac:(cbn; lia)) |].
    split; [exact (Hat 1 ltac:(cbn; lia)) |].
    split; [exact (Hat 2 ltac:(cbn; lia)) |].
    apply Hinc; [reflexivity | discriminate].
Defined.

End RetryFacts.

(** C3 fails as worded: with base 100 and multiplier 1.001, on a
    physical link where nothing is received, both attempts are made with
    the timeout 100. *)
Lemma retry_timeouts_can_stall :
  ta_config.MAX_RETRIES creeping_retry >= 1
  /\ (1 < ta_config.TIMEOUT_MULTIPLIER creeping_retry)%Q
  /\ (let run :=
        ta_radio_433._exchange_with_retry_on (logged ta_radio_433._exchange)
          (fun ms => beside (ta_radio_433._sleep_ms ms)) creeping_retry
          ta_radio_433.CMD_GET_STS 1 [] ((hw_radio, env_receiving []), []) in
      fst run = Ok None /\ snd (snd run) = [100; 100])
  /\ ~ StrictlyIncreasing [100; 100].
Proof.
  split; [cbn; lia |]. split; [reflexivity |].
  split; [split; vm_compute; reflexivity |].
  intros H. specialize (H 0%nat 100 100 eq_refl eq_refl). lia.
Qed.

(** ** Polling *)

Section Polling.
Import ta_config ta_radio_433.

Section Returns.

Context {S : Type}.
Variable exchange : Z -> Z -> bytes -> Z -> M S (option frame).
Variable sleep_ms : Z -> M S unit.
Variable cfg : RetryCfg.
Variable Inv : S -> Prop.
Variables (cmd gid : Z) (payload : bytes).

Hypothesis exchange_returns :
  forall (timeout : Z) (s : S), Inv s ->
    exists res s', exchange cmd gid payload timeout s = (Ok res, s') /\ Inv s'.
Hypothesis sleep_returns :
  forall (ms : Z) (s : S), Inv s ->
    exists s', sleep_ms ms s = (Ok tt, s') /\ Inv s'.

(** When the single exchange and the sleep return, so does the retry. *)
Lemma _retry_attempts_returns (attempts : list Z) (s : S) :
  Inv s ->
  exists res s',
    _retry_attempts exchange sleep_ms cfg attempts cmd gid payload s = (Ok res, s')
    /\ Inv s'.
Proof.
  revert s. induction attempts as [| attempt rest IH]; intros s Hs.
  - exists None, s. split; [reflexivity | assumption].
  - cbn [_retry_attempts].
    destruct (exchange_returns (attempt_timeout cfg attempt) s Hs)
      as (res & s1 & Hex & Hs1).
    rewrite (bind_ok _ _ _ _ _ Hex).
    destruct res as [f |]; [exists (Some f), s1; split; [reflexivity | assumption] |].
    match goal with
    | |- context [bind (if ?c then ?a else ?b) _] =>
        set (pause := if c then a else b)
    end.
    assert (Hpause : exists s2, pause s1 = (Ok tt, s2) /\ Inv s2).
    { subst pause. destruct (_ && _); [apply sleep_returns; assumption |].
      exists s1. split; [reflexivity | assumption]. }
    destruct Hpause as (s2 & Hpause & Hs2).
    rewrite (bind_ok _ _ _ _ _ Hpause). apply IH. assumption.
Qed.

End Returns.

(** On the physical link, [_exchange_with_retry] for a status returns. *)
Lemma _exchange_with_retry_returns (gid : Z) (r : Radio) (e : Env) :
  simulate r = false ->
  exists res r' e',
    _exchange_with_retry CMD_GET_STS gid [] (r, e) = (Ok res, (r', e'))
    /\ simulate r' = false
    /\ _tick r' = _tick r.
Proof.
  intros Hsim. unfold _exchange_with_retry, _exchange_with_retry_on.
  destruct (_retry_attempts_returns _exchange _sleep_ms RETRY
              (fun st => simulate (fst st) = false /\ _tick (fst st) = _tick r)
              CMD_GET_STS gid [])
    with (attempts := range (MAX_RETRIES RETRY)) (s := (r, e))
    as (res & [r' e'] & Hrun & Hs' & Hk').
  - intros timeout [r0 e0] [Hs0 Hk0]. cbn [fst] in *.
    destruct (_exchange_total CMD_GET_STS gid [] timeout r0 e0 Hs0)
      as (res & r1 & e1 & Hrun & Hs1 & _ & Hk1).
    + unfold CMD_GET_STS. lia.
    + vm_compute. discriminate.
    + exists res, (r1, e1). split; [exact Hrun |]. cbn [fst].
      split; [assumption | congruence].
  - intros ms [r0 e0] [Hs0 Hk0]. exists (r0, slept ms e0).
    split; [reflexivity | split; assumption].
  - split; [assumption | reflexivity].
  - exists res, r', e'. split; [exact Hrun |]. split; assumption.
Qed.

Lemma _randbits_run (n : Z) (r : Radio) (e : Env) :
  exists x e', _randbits n (r, e) = (Ok x, (r, e')).
Proof. unfold _randbits. destruct (rng e); eauto. Qed.

(** One device polled: a status for that device. *)
Lemma poll_one_returns (gid : Z) (r : Radio) (e : Env) :
  exists d r' e',
    poll_one gid (r, e) = (Ok d, (r', e'))
    /\ dd_id d = gid
    /\ _tick r' = _tick r.
Proof.
  unfold poll_one. rewrite (bind_ok _ _ _ _ _ (simulate_run r e)).
  destruct (simulate r) eqn:Hsim.
  - erewrite bind_ok by reflexivity.
    destruct (_randbits_run 5 r e) as (x & e1 & Hx).
    rewrite (bind_ok _ _ _ _ _ Hx).
    destruct (_randbits_run 5 r e1) as (y & e2 & Hy).
    rewrite (bind_ok _ _ _ _ _ Hy).
    eexists _, r, e2. split; [reflexivity |]. split; reflexivity.
  - destruct (_exchange_with_retry_returns gid r e Hsim)
      as (res & r' & e' & Hrun & _ & Hk).
    rewrite (bind_ok _ _ _ _ _ Hrun).
    eexists _, r', e'. split; [reflexivity |]. split; [reflexivity | assumption].
Qed.

Lemma poll_each_returns (gids : list Z) (out : list DDStatus) (r : Radio) (e : Env) :
  exists l r' e',
    poll_each gids out (r, e) = (Ok (out ++ l), (r', e'))
    /\ map dd_id l = gids
    /\ _tick r' = _tick r.
Proof.
  revert out r e. induction gids as [| gid rest IH]; intros out r e.
  - exists [], r, e. rewrite app_nil_r. repeat split.
  - cbn [poll_each].
    destruct (poll_one_returns gid r e) as (d & r1 & e1 & Hone & Hid & Hk1).
    rewrite (bind_ok _ _ _ _ _ Hone).
    destruct (IH (out ++ [d]) r1 e1) as (l & r2 & e2 & Hrun & Hids & Hk2).
    exists (d :: l), r2, e2. rewrite Hrun, <- app_assoc.
    split; [reflexivity |]. split; [cbn; congruence | congruence].
Qed.

(** What a call of [poll_status] gives, on every radio and hardware. *)
Lemma poll_status_returns (r : Radio) (e : Env) :
  exists out r' e',
    poll_status (r, e) = (Ok out, (r', e'))
    /\ _tick r' = _tick r + 1
    /\ (if (_tick r + 1) mod poll_period =? 0
        then map dd_id out = GROUP_IDS
        else out = []).
Proof.
  unfold poll_status.
  erewrite bind_ok by reflexivity.
  erewrite bind_ok by reflexivity.
  cbn [fst _tick set_tick].
  destruct ((_tick r + 1) mod poll_period =? 0).
  - destruct (poll_each_returns GROUP_IDS [] (set_tick (_tick r + 1) r) e)
      as (l & r' & e' & Hrun & Hids & Hk).
    exists l, r', e'. split; [exact Hrun |]. split; assumption.
  - eexists [], _, _. split; [reflexivity |]. split; reflexivity.
Qed.

(** One device polled: its status is sampled during the call. *)
Lemma poll_one_samples (gid : Z) (r : Radio) (e : Env) :
  exists d r' e',
    poll_one gid (r, e) = (Ok d, (r', e'))
    /\ sampled gid (r, e) d (r', e').
Proof.
  unfold poll_one, sampled. rewrite (bind_ok _ _ _ _ _ (simulate_run r e)).
  cbn [fst]. destruct (simulate r) eqn:Hsim.
  - erewrite bind_ok by reflexivity.
    destruct (_randbits_run 5 r e) as (x & e1 & Hx).
    rewrite (bind_ok _ _ _ _ _ Hx).
    destruct (_randbits_run 5 r e1) as (y & e2 & Hy).
    rewrite (bind_ok _ _ _ _ _ Hy).
    eexists _, r, e2. split; [reflexivity |]. split; [reflexivity |].
    split; [| reflexivity].
    unfold simulated_status. cbn [state battery rssi flags dd_id fst].
    pose proof (Z.mod_pos_bound x 25 ltac:(lia)).
    pose proof (Z.mod_pos_bound y 30 ltac:(lia)).
    repeat split; lia.
  - destruct (_exchange_with_retry_returns gid r e Hsim)
      as (res & r' & e' & Hrun & _).
    rewrite (bind_ok _ _ _ _ _ Hrun).
    eexists _, r', e'. split; [reflexivity |]. split; [reflexivity |].
    exists res. split; [exact Hrun | reflexivity].
Qed.

Lemma poll_each_samples (gids : list Z) (out : list DDStatus) (r : Radio) (e : Env) :
  exists l r' e',
    poll_each gids out (r, e) = (Ok (out ++ l), (r', e'))
    /\ map dd_id l = gids
    /\ sweep gids (r, e) l (r', e').
Proof.
  revert out r e. induction gids as [| gid rest IH]; intros out r e.
  - exists [], r, e. rewrite app_nil_r. repeat split. constructor.
  - cbn [poll_each].
    destruct (poll_one_samples gid r e) as (d & r1 & e1 & Hone & Hd).
    rewrite (bind_ok _ _ _ _ _ Hone).
    destruct (IH (out ++ [d]) r1 e1) as (l & r2 & e2 & Hrun & Hids & Hsw).
    exists (d :: l), r2, e2. rewrite Hrun, <- app_assoc.
    split; [reflexivity |].
    split; [cbn [map]; rewrite Hids; f_equal; apply Hd |].
    econstructor; eassumption.
Qed.

(** C7 (as amended). Every call of [poll_status] returns, having counted
    one more tick.  When the tick count reaches a multiple of the poll
    period (a sweep is due) it returns one status per configured device
    id, in the order of [GROUP_IDS], each sampled during the call, one
    device after the other: on the physical link the state decoded
    from the reply of a retried GET_STS exchange with that device, in
    simulation the state the simulation table holds.  On every other
    call it returns the empty list and does nothing but count the
    tick: the statuses known so far are not repeated. *)
Theorem poll_status_sweeps_when_due (r : Radio) (e : Env) :
  exists out r' e',
    poll_status (r, e) = (Ok out, (r', e'))
    /\ _tick r' = _tick r + 1
    /\ ((_tick r + 1) mod poll_period = 0 ->
        map dd_id out = GROUP_IDS
        /\ sweep GROUP_IDS (set_tick (_tick r + 1) r, e) out (r', e'))
    /\ ((_tick r + 1) mod poll_period <> 0 ->
        out = [] /\ (r', e') = (set_tick (_tick r + 1) r, e)).
Proof.
  destruct (poll_status_returns r e) as (out0 & r0 & e0 & Hrun0 & Hk & _).
  unfold poll_status in *.
  erewrite bind_ok in Hrun0 |- * by reflexivity.
  erewrite bind_ok in Hrun0 |- * by reflexivity.
  cbn [fst _tick set_tick] in Hrun0 |- *.
  destruct ((_tick r + 1) mod poll_period =? 0) eqn:E.
  - apply Z.eqb_eq in E.
    destruct (poll_each_samples GROUP_IDS [] (set_tick (_tick r + 1) r) e)
      as (l & r' & e' & Hrun & Hids & Hsw).
    cbn [app] in Hrun. rewrite Hrun in Hrun0. injection Hrun0 as -> -> ->.
    exists out0, r0, e0. split; [exact Hrun |]. split; [exact Hk |].
    split; [intros _; split; assumption | intros H; contradiction].
  - apply Z.eqb_neq in E.
    exists [], (set_tick (_tick r + 1) r), e.
    split; [reflexivity |]. split; [reflexivity |].
    split; [intros H; contradiction | intros _; split; reflexivity].
Qed.

Lemma poll_status_sweeps_when_due_witness :
  (_tick hw_radio_due + 1) mod poll_period = 0
  /\ exists out st',
       poll_status (hw_radio_due, env_receiving []) = (Ok out, st')
       /\ map dd_id out = GROUP_IDS
       /\ sweep GROUP_IDS (set_tick 7 hw_radio_due, env_receiving []) out st'.
Proof.
  assert (Hdue : (_tick hw_radio_due + 1) mod poll_period = 0) by reflexivity.
  split; [exact Hdue |].
  destruct (poll_status_sweeps_when_due hw_radio_due (env_receiving []))
    as (out & r' & e' & Hrun & _ & Hsweep & _).
  destruct (Hsweep Hdue) as [Hids Hsw].
  exists out, (r', e'). split; [exact Hrun |]. split; [exact Hids | exact Hsw].
Defined.

(** C7 fails as worded: the first call on a new radio returns no status
    at all, although five devices are configured. *)
Lemma poll_status_empty_between_sweeps :
  fst (poll_status (sim_radio, env_receiving [])) = Ok []
  /\ GROUP_IDS = [1; 2; 3; 4; 5].
Proof. split; reflexivity. Qed.

End Polling.

(** ** The terminal's table *)

Section Table.
Import ta_config ta_radio_433 ta_app.

Lemma dom_initial_states (ids : list Z) :
  dom (initial_states ids) = (list_to_set ids : gset Z).
Proof.
  unfold initial_states.
  assert (H : forall (m : gmap Z Z),
            dom (fold_left (fun m dd_id => <[dd_id := STATE_UNKNOWN]> m) ids m)
            = (list_to_set ids : gset Z) ∪ dom m).
  { induction ids as [| i ids IH]; intros m; cbn [fold_left list_to_set].
    - rewrite (left_id_L ∅ (∪)). reflexivity.
    - rewrite IH, dom_insert_L, (assoc_L (∪)).
      rewrite (comm_L (∪) (list_to_set ids) {[i]}). reflexivity. }
  rewrite H, dom_empty_L. apply (right_id_L ∅ (∪)).
Qed.

Lemma store_each_run (sts : list DDStatus) (app : TaApp) (e : Env) :
  store_each sts (app, e)
  = (Ok tt,
     ({| radio := radio app;
         states := fold_left (fun m st => store_status st m) sts (states app);
         testing_id := testing_id app; loop_count := loop_count app;
         error_count := error_count app |}, e)).
Proof.
  revert app. induction sts as [| st rest IH]; intros app.
  - destruct app; reflexivity.
  - cbn [store_each fold_left]. erewrite bind_ok by reflexivity.
    rewrite IH. reflexivity.
Qed.

Lemma dom_store_each (sts : list DDStatus) (m : gmap Z Z) :
  dom (fold_left (fun m st => store_status st m) sts m)
  = (list_to_set (map dd_id sts) : gset Z) ∪ dom m.
Proof.
  revert m. induction sts as [| st rest IH]; intros m; cbn [fold_left map list_to_set].
  - rewrite (left_id_L ∅ (∪)). reflexivity.
  - rewrite IH. unfold store_status. rewrite dom_insert_L, (assoc_L (∪)).
    rewrite (comm_L (∪) (list_to_set (map dd_id rest)) {[dd_id st]}). reflexivity.
Qed.

Lemma store_each_other (sts : list DDStatus) (m : gmap Z Z) (id : Z) :
  id ∉ map dd_id sts ->
  fold_left (fun m st => store_status st m) sts m !! id = m !! id.
Proof.
  revert m. induction sts as [| st rest IH]; intros m Hid; [reflexivity |].
  cbn [fold_left map] in *. rewrite not_elem_of_cons in Hid.
  destruct Hid as [Hne Hid]. rewrite IH by assumption.
  unfold store_status. apply lookup_insert_ne. congruence.
Qed.

(** C2 (as amended). [_update_states] stores every status that
    [poll_status] returns, whatever its id (a status with an id that is
    not a key would add a key).  [Radio.poll_status] returns statuses for
    configured ids only, so the table, whose keys are the configured ids
    from [__init__] on, has exactly the configured ids as keys after
    every [_update_states], and the entry of no other id is created. *)
Theorem update_states_keeps_keys (app : TaApp) (e : Env) :
  dom (states (init (radio app))) = configured_ids
  /\ (dom (states app) = configured_ids ->
      exists app' e',
        _update_states (app, e) = (Ok tt, (app', e'))
        /\ dom (states app') = configured_ids
        /\ forall id : Z, id ∉ GROUP_IDS -> states app' !! id = None).
Proof.
  split; [apply dom_initial_states |].
  intros Hdom. unfold _update_states, _update_states_from, try_except.
  destruct (poll_status_returns (radio app) e)
    as (out & r' & e' & Hpoll & _ & Hout).
  assert (Hids : map dd_id out = GROUP_IDS \/ out = []).
  { destruct (_ =? 0); [left | right]; assumption. }
  erewrite bind_ok.
  2:{ unfold on_radio. rewrite Hpoll. reflexivity. }
  rewrite store_each_run. cbn [states].
  eexists _, _. split; [reflexivity |]. cbn [states].
  assert (Hkeys : (list_to_set (map dd_id out) : gset Z) ∪ configured_ids
                  = configured_ids).
  { destruct Hids as [-> | ->].
    - apply (idemp_L (∪)).
    - apply (left_id_L ∅ (∪)). }
  split.
  - rewrite dom_store_each, Hdom. exact Hkeys.
  - intros id Hid. apply not_elem_of_dom.
    rewrite dom_store_each, Hdom, Hkeys. unfold configured_ids.
    rewrite elem_of_list_to_set. exact Hid.
Qed.

Lemma update_states_keeps_keys_witness :
  dom (states (init sim_radio)) = configured_ids
  /\ exists app' e',
       _update_states (init sim_radio, env_receiving []) = (Ok tt, (app', e'))
       /\ dom (states app') = configured_ids.
Proof.
  destruct (update_states_keeps_keys (init sim_radio) (env_receiving []))
    as [Hinit Hstep].
  split; [exact Hinit |].
  destruct (Hstep Hinit) as (app' & e' & Hrun & Hdom & _).
  exists app', e'. split; assumption.
Defined.

(** C2 fails as worded: a status for device 9, not configured, handed to
    the application by the radio it was built with, is stored under a new
    key. *)
Lemma update_states_inserts_unknown_id :
  (9 ∉ GROUP_IDS)
  /\ states (init sim_radio) !! 9 = None
  /\ exists app' e',
       _update_states_from stray_poll (init sim_radio, env_receiving [])
       = (Ok tt, (app', e'))
       /\ states app' !! 9 = Some STATE_PRESENT
       /\ dom (states app') <> configured_ids.
Proof.
  assert (H9 : 9 ∉ GROUP_IDS).
  { unfold GROUP_IDS. rewrite !not_elem_of_cons.
    repeat split; try lia. apply not_elem_of_nil. }
  split; [exact H9 |]. split; [reflexivity |].
  eexists _, _. split; [reflexivity |]. split; [reflexivity |].
  intros Hdom.
  assert (Hin : 9 ∈ configured_ids).
  { rewrite <- Hdom. apply elem_of_dom. eexists. reflexivity. }
  unfold configured_ids in Hin. apply elem_of_list_to_set in Hin. contradiction.
Qed.

End Table.

(** ** The receive buffer *)

Section ReceiveBuffer.
Import ta_config ta_radio_433.

Lemma index_of_first (b : Z) (junk rest : bytes) :
  b ∉ junk -> index_of b (junk ++ b :: rest) = Some (length junk).
Proof.
  induction junk as [| x junk IH]; intros Hb; cbn [index_of app length].
  - rewrite Z.eqb_refl. reflexivity.
  - rewrite not_elem_of_cons in Hb. destruct Hb as [Hne Hb].
    destruct (x =? b) eqn:E; [apply Z.eqb_eq in E; congruence |].
    rewrite IH by assumption. reflexivity.
Qed.

Lemma find_first (b : Z) (junk rest : bytes) :
  b ∉ junk -> find (junk ++ b :: rest) b 0 = len junk.
Proof.
  intros Hb. unfold find.
  rewrite clamp_index_id by (pose proof (len_nonneg (junk ++ b :: rest)); lia).
  change (Z.to_nat 0) with 0%nat. rewrite drop_0.
  rewrite index_of_first by assumption. unfold len. lia.
Qed.

Lemma find_next (b : Z) (pre body rest : bytes) :
  b ∉ body ->
  find (pre ++ body ++ b :: rest) b (len pre) = len pre + len body.
Proof.
  intros Hb. unfold find. pose proof (len_nonneg pre).
  pose proof (len_nonneg (body ++ b :: rest)).
  rewrite clamp_index_id by (rewrite len_app; lia).
  unfold len at 1. rewrite Nat2Z.id, drop_app_length.
  rewrite index_of_first by assumption. unfold len. lia.
Qed.

(** The buffer search hands to [_parse_frame] the bytes that run from
    the first start marker to the first end marker after it. *)
Lemma _scan_candidate (junk body tail : bytes) :
  START_BYTE ∉ junk ->
  END_BYTE ∉ body ->
  _scan (junk ++ (START_BYTE :: body ++ [END_BYTE]) ++ tail)
  = _parse_frame (START_BYTE :: body ++ [END_BYTE]).
Proof.
  intros Hs He.
  pose proof (len_nonneg junk) as Hj. pose proof (len_nonneg body) as Hb.
  set (B := junk ++ (START_BYTE :: body ++ [END_BYTE]) ++ tail).
  assert (Fs : find B START_BYTE 0 = len junk).
  { replace B with (junk ++ START_BYTE :: (body ++ END_BYTE :: tail))
      by (subst B; cbn [app]; rewrite <- app_assoc; reflexivity).
    apply find_first. assumption. }
  assert (Fe : find B END_BYTE (len junk + 1) = len junk + 1 + len body).
  { replace B with ((junk ++ [START_BYTE]) ++ body ++ END_BYTE :: tail)
      by (subst B; cbn [app]; rewrite <- !app_assoc; reflexivity).
    replace (len junk + 1) with (len (junk ++ [START_BYTE]))
      by (rewrite len_app; reflexivity).
    apply find_next. assumption. }
  assert (Sl : slice B (len junk) (len junk + 1 + len body + 1)
               = START_BYTE :: body ++ [END_BYTE]).
  { replace (len junk + 1 + len body + 1)
      with (len junk + len (START_BYTE :: body ++ [END_BYTE])).
    - apply slice_middle.
    - change (START_BYTE :: body ++ [END_BYTE])
        with ([START_BYTE] ++ body ++ [END_BYTE]).
      rewrite !len_app. change (len [START_BYTE]) with 1.
      change (len [END_BYTE]) with 1. lia. }
  unfold _scan. cbv zeta. rewrite Fs, Fe, Sl.
  destruct (len junk >=? 0) eqn:E1;
    [| rewrite Z.geb_leb in E1; apply Z.leb_gt in E1; lia].
  destruct (len junk + 1 + len body >? len junk) eqn:E2;
    [| rewrite Z.gtb_ltb in E2; apply Z.ltb_ge in E2; lia].
  reflexivity.
Qed.

Lemma _read_all_data (r : Radio) (e : Env) (chunk : bytes) (rest : list UartRead) :
  simulate r = false ->
  uart r = true ->
  uart_rx e = ReadData chunk :: rest ->
  chunk <> [] ->
  _read_all (r, e) = (Ok chunk, after_read r e rest).
Proof.
  intros Hsim Hu Hrx Hne. unfold _read_all.
  erewrite bind_ok by reflexivity. cbn [fst]. rewrite Hsim, Hu. cbn [orb negb].
  erewrite bind_ok by (unfold uart_read; rewrite Hrx; reflexivity).
  destruct chunk as [| b chunk]; [contradiction |]. reflexivity.
Qed.

(** C8 (as amended). Each time bytes arrive during an exchange on the
    physical link, the exchange looks at one run of bytes of the receive
    buffer only: from the first start marker to the first end marker
    after it.  When that run is a structurally valid frame the exchange
    accepts it and returns it, whatever request it answers (a stale
    reply included); when it is not, nothing is accepted from this
    content of the buffer and the exchange goes on waiting. *)
Theorem exchange_accepts_first_candidate (fuel : nat) (t0 timeout_ms : Z)
    (buf chunk junk body tail : bytes) (rest : list UartRead)
    (r : Radio) (e : Env) :
  simulate r = false ->
  uart r = true ->
  clock e - t0 < timeout_ms ->
  uart_rx e = ReadData chunk :: rest ->
  chunk <> [] ->
  buf ++ chunk = junk ++ (START_BYTE :: body ++ [END_BYTE]) ++ tail ->
  START_BYTE ∉ junk ->
  END_BYTE ∉ body ->
  (forall f, _parse_frame (START_BYTE :: body ++ [END_BYTE]) = Ok (Some f) ->
     _exchange_loop (S fuel) t0 timeout_ms buf (r, e)
     = (Ok (Some f), after_read r e rest))
  /\ (_parse_frame (START_BYTE :: body ++ [END_BYTE]) = Ok None ->
      _exchange_loop (S fuel) t0 timeout_ms buf (r, e)
      = _exchange_loop fuel t0 timeout_ms (buf ++ chunk)
          (fst (after_read r e rest), slept 5 (snd (after_read r e rest)))).
Proof.
  intros Hsim Hu Ht Hrx Hne Hbuf Hs He.
  pose proof (_read_all_data r e chunk rest Hsim Hu Hrx Hne) as Hrd.
  assert (Hscan : forall o,
            _parse_frame (START_BYTE :: body ++ [END_BYTE]) = Ok o ->
            match chunk with [] => Ok None | _ :: _ => _scan (buf ++ chunk) end = Ok o).
  { intros o Ho. destruct chunk; [contradiction |].
    rewrite Hbuf, _scan_candidate by assumption. exact Ho. }
  split.
  - intros f Hf.
    rewrite (_exchange_loop_turn fuel t0 timeout_ms buf chunk r _ e _ (Some f) Ht Hrd (Hscan _ Hf)).
    reflexivity.
  - intros Hnone.
    rewrite (_exchange_loop_turn fuel t0 timeout_ms buf chunk r _ e _ None Ht Hrd (Hscan _ Hnone)).
    reflexivity.
Qed.

Lemma exchange_accepts_first_candidate_witness :
  _parse_frame (START_BYTE :: [0x01; 0x20; 0x01; 0x01; 0x01; 0x20] ++ [END_BYTE])
  = Ok (Some (CMD_GET_STS, 1, [STATE_PRESENT]))
  /\ _exchange_loop 5 0 20 [0x00]
       (hw_radio, env_receiving [ReadData [0x07; 0xA5; 0x01; 0x20; 0x01; 0x01; 0x01; 0x20; 0x5A; 0x09]])
     = (Ok (Some (CMD_GET_STS, 1, [STATE_PRESENT])),
        after_read hw_radio
          (env_receiving [ReadData [0x07; 0xA5; 0x01; 0x20; 0x01; 0x01; 0x01; 0x20; 0x5A; 0x09]]) []).
Proof.
  assert (Hp : _parse_frame (START_BYTE :: [0x01; 0x20; 0x01; 0x01; 0x01; 0x20] ++ [END_BYTE])
               = Ok (Some (CMD_GET_STS, 1, [STATE_PRESENT]))) by reflexivity.
  split; [exact Hp |].
  destruct (exchange_accepts_first_candidate 4 0 20 [0x00]
              [0x07; 0xA5; 0x01; 0x20; 0x01; 0x01; 0x01; 0x20; 0x5A; 0x09]
              [0x00; 0x07] [0x01; 0x20; 0x01; 0x01; 0x01; 0x20] [0x09] []
              hw_radio
              (env_receiving [ReadData [0x07; 0xA5; 0x01; 0x20; 0x01; 0x01; 0x01; 0x20; 0x5A; 0x09]]))
    as [Hacc _].
  - reflexivity.
  - reflexivity.
  - cbn. lia.
  - reflexivity.
  - discriminate.
  - reflexivity.
  - unfold START_BYTE. rewrite !not_elem_of_cons.
    repeat split; try lia. apply not_elem_of_nil.
  - unfold END_BYTE. rewrite !not_elem_of_cons.
    repeat split; try lia. apply not_elem_of_nil.
  - exact (Hacc _ Hp).
Defined.

(** C8 fails as worded: a valid status reply that arrives after one
    stray start-marker byte is the first structurally valid frame of the
    buffer, and the exchange does not return it: it times out. *)
Lemma exchange_misses_frame_after_stray_start :
  first_valid_frame reply_after_stray_start = Some reply_1_present
  /\ _parse_frame reply_1_present = Ok (Some (CMD_GET_STS, 1, [STATE_PRESENT]))
  /\ fst (_exchange CMD_GET_STS 1 [] 20
            (hw_radio, env_receiving [ReadData reply_after_stray_start]))
     = Ok None.
Proof. repeat split; vm_compute; reflexivity. Qed.

End ReceiveBuffer.

(** * Further properties of the code *)

(** ** Frames: building *)

Section FrameBuilding.
Import ta_config ta_radio_433.

Lemma _mk_frame_raises (cmd gid : Z) (payload : option bytes) :
  ~ (0 <= cmd <= 255 /\ len (default [] payload) <= MAX_LEN - 7) ->
  _mk_frame cmd gid payload = Raise ValueError.
Proof.
  intros Hbad. unfold _mk_frame.
  set (p := match payload with None => [] | Some p => p end).
  assert (Hp : p = default [] payload) by (destruct payload; reflexivity).
  destruct (len p >? MAX_LEN - 7) eqn:E; [reflexivity |].
  rewrite Z.gtb_ltb in E. apply Z.ltb_ge in E.
  assert (Hcmd : ~ 0 <= cmd <= 255) by (intros H; apply Hbad; split; congruence).
  unfold bytes_of at 1. cbn [forallb].
  replace (is_byte cmd) with false.
  + rewrite !andb_false_r. reflexivity.
  + symmetry. apply not_true_is_false. rewrite is_byte_spec. exact Hcmd.
Qed.

(** X1. [_mk_frame] raises [ValueError] exactly when the command is not
    a byte or the payload (empty when [None] is passed) is longer than
    [MAX_LEN - 7]; otherwise it returns a frame. *)
Theorem mk_frame_raises_exactly (cmd gid : Z) (payload : option bytes) :
  (0 <= cmd <= 255 /\ len (default [] payload) <= MAX_LEN - 7 ->
   exists buf, _mk_frame cmd gid payload = Ok buf)
  /\ (~ (0 <= cmd <= 255 /\ len (default [] payload) <= MAX_LEN - 7) ->
      _mk_frame cmd gid payload = Raise ValueError).
Proof.
  split.
  - intros [Hcmd Hlen]. destruct payload as [p |]; cbn [default] in Hlen.
    + rewrite _mk_frame_bytes by assumption. eauto.
    + change (_mk_frame cmd gid None) with (_mk_frame cmd gid (Some [])).
      rewrite _mk_frame_bytes by assumption. eauto.
  - apply _mk_frame_raises.
Qed.

Lemma mk_frame_raises_exactly_witness :
  ~ (0 <= CMD_GET_STS <= 255 /\ len (default [] (Some (repeat 0 10))) <= MAX_LEN - 7)
  /\ _mk_frame CMD_GET_STS 1 (Some (repeat 0 10)) = Raise ValueError.
Proof.
  assert (H : ~ (0 <= CMD_GET_STS <= 255
                /\ len (default [] (Some (repeat 0 10))) <= MAX_LEN - 7)).
  { intros [_ H]. vm_compute in H. apply H. reflexivity. }
  split; [exact H |].
  apply (proj2 (mk_frame_raises_exactly CMD_GET_STS 1 (Some (repeat 0 10))) H).
Defined.

(** X2. A frame that [_mk_frame] returns has 7 bytes more than the
    payload and never more than [MAX_LEN] bytes, begins with the start
    marker and ends with the end marker, and is made of bytes when the
    payload is. *)
Theorem mk_frame_shape (cmd gid : Z) (payload buf : bytes) :
  _mk_frame cmd gid (Some payload) = Ok buf ->
  len buf = len payload + 7
  /\ len buf <= MAX_LEN
  /\ head buf = Some START_BYTE
  /\ last buf = Some END_BYTE
  /\ (Forall (fun b => 0 <= b <= 255) payload ->
      Forall (fun b => 0 <= b <= 255) buf).
Proof.
  intros Hmk.
  destruct (Z_le_gt_dec (len payload) (MAX_LEN - 7)) as [Hlen | Hlong].
  2:{ exfalso. unfold _mk_frame in Hmk.
      replace (len payload >? MAX_LEN - 7) with true in Hmk
        by (symmetry; apply Z.gtb_lt; lia).
      discriminate. }
  destruct (Z_le_gt_dec 0 cmd) as [Hc0 | Hneg];
    [destruct (Z_le_gt_dec cmd 255) as [Hc1 | Hbig] |].
  2,3: exfalso;
       rewrite (_mk_frame_raises cmd gid (Some payload)) in Hmk
         by (intros [H _]; lia);
       discriminate.
  rewrite _mk_frame_bytes in Hmk by lia. injection Hmk as <-.
  pose proof (len_nonneg payload) as Hnn. unfold MAX_LEN in *.
  split; [| split; [| split; [| split]]].
  - unfold len in *. cbn [app length]. rewrite length_app. cbn [length]. lia.
  - unfold len in *. cbn [app length]. rewrite length_app. cbn [length]. lia.
  - reflexivity.
  - set (chk := _chk PROTO_VER cmd (Z.land gid 255) payload).
    change (last (([START_BYTE; PROTO_VER; cmd; Z.land gid 255; len payload]
                   ++ payload ++ [chk]) ++ [END_BYTE]) = Some END_BYTE)
      || (replace (START_BYTE :: PROTO_VER :: cmd :: Z.land gid 255
                     :: len payload :: payload ++ [chk; END_BYTE])
            with (([START_BYTE; PROTO_VER; cmd; Z.land gid 255; len payload]
                     ++ payload ++ [chk]) ++ [END_BYTE])
            by (rewrite <- !app_assoc; reflexivity)).
    apply last_snoc.
  - intros Hp.
    pose proof (land_255_byte gid) as Hg. apply is_byte_spec in Hg.
    pose proof (_chk_byte PROTO_VER cmd (Z.land gid 0xFF) payload) as Hk.
    apply is_byte_spec in Hk.
    assert (Hs : 0 <= START_BYTE <= 255) by (unfold START_BYTE; lia).
    assert (Hv : 0 <= PROTO_VER <= 255) by (unfold PROTO_VER; lia).
    assert (He : 0 <= END_BYTE <= 255) by (unfold END_BYTE; lia).
    rewrite !Forall_cons, Forall_app, !Forall_cons.
    repeat match goal with |- _ /\ _ => split end;
      try assumption; try lia. apply Forall_nil_2.
Qed.

Lemma mk_frame_shape_witness :
  _mk_frame CMD_PING 0 (Some []) = Ok [0xA5; 0x01; 0x10; 0x00; 0x00; 0x11; 0x5A]
  /\ len [0xA5; 0x01; 0x10; 0x00; 0x00; 0x11; 0x5A] <= MAX_LEN.
Proof.
  assert (H : _mk_frame CMD_PING 0 (Some [])
              = Ok [0xA5; 0x01; 0x10; 0x00; 0x00; 0x11; 0x5A]) by reflexivity.
  split; [exact H |].
  exact (proj1 (proj2 (mk_frame_shape CMD_PING 0 [] _ H))).
Defined.

(** X3. The target id is kept modulo 256: for every integer [gid], a
    frame built for [gid] decodes to the id [gid mod 256], so that two
    ids that differ by a multiple of 256 are the same on the wire. *)
Theorem mk_frame_id_modulo_256 (cmd gid : Z) (payload : bytes) :
  0 <= cmd <= 255 ->
  len payload <= MAX_LEN - 7 ->
  _mk_frame cmd gid (Some payload) = _mk_frame cmd (gid mod 256) (Some payload)
  /\ (let* buf := _mk_frame cmd gid (Some payload) in _parse_frame buf)
     = Ok (Some (cmd, gid mod 256, payload)).
Proof.
  intros Hcmd Hlen.
  rewrite !_mk_frame_bytes by assumption.
  rewrite !land_255_mod, Z.mod_mod by lia.
  split; [reflexivity |]. cbn [rbind]. apply _parse_frame_layout.
Qed.

Lemma mk_frame_id_modulo_256_witness :
  _mk_frame CMD_GET_STS 257 (Some []) = _mk_frame CMD_GET_STS 1 (Some [])
  /\ (let* buf := _mk_frame CMD_GET_STS 257 (Some []) in _parse_frame buf)
     = Ok (Some (CMD_GET_STS, 1, [])).
Proof.
  apply (mk_frame_id_modulo_256 CMD_GET_STS 257 []).
  - unfold CMD_GET_STS. lia.
  - vm_compute. discriminate.
Defined.

End FrameBuilding.

(** ** Frames: decoding *)

Section FrameDecoding.
Import ta_config ta_radio_433.

(** X4. [_parse_frame] checks neither the protocol version nor the
    maximum frame length: a buffer laid out as a frame, with any version
    byte and a payload of any length that its length byte can hold, and
    the checksum of its own fields, decodes to its command, id and
    payload. *)
Theorem parse_frame_ignores_version_and_max_len (ver cmd gid : Z) (payload : bytes) :
  _parse_frame ([START_BYTE; ver; cmd; gid; len payload]
                ++ payload ++ [_chk ver cmd gid payload; END_BYTE])
  = Ok (Some (cmd, gid, payload)).
Proof. apply _parse_frame_layout. Qed.

Ltac xor_bits :=
  apply Z.bits_inj'; intros ?k ?Hk; rewrite ?Z.lxor_spec;
  repeat match goal with
         | |- context [Z.testbit ?x ?k] => destruct (Z.testbit x k)
         end;
  reflexivity.

Lemma land_255_lxor (a b : Z) :
  Z.land (Z.lxor a b) 0xFF = Z.lxor (Z.land a 0xFF) (Z.land b 0xFF).
Proof.
  apply Z.bits_inj'. intros k Hk.
  rewrite Z.land_spec, !Z.lxor_spec, !Z.land_spec.
  destruct (Z.testbit a k), (Z.testbit b k), (Z.testbit 255 k); reflexivity.
Qed.

Lemma land_255_idem (a : Z) : Z.land (Z.land a 0xFF) 0xFF = Z.land a 0xFF.
Proof. rewrite <- Z.land_assoc. reflexivity. Qed.

Lemma fold_xor_xors (payload : bytes) (s : Z) :
  fold_left (fun s b => Z.lxor s (Z.land b 0xFF)) payload s
  = Z.lxor s (xors payload).
Proof.
  revert s. induction payload as [| b p IH]; intros s; cbn [fold_left xors fold_right].
  - rewrite Z.lxor_0_r. reflexivity.
  - rewrite IH. fold (xors p). rewrite Z.lxor_assoc. reflexivity.
Qed.

(** The checksum as one XOR, cut to 8 bits. *)
Lemma _chk_xors (ver cmd grp : Z) (payload : bytes) :
  _chk ver cmd grp payload
  = Z.land (Z.lxor (Z.lxor (Z.lxor (Z.lxor ver cmd) (Z.land grp 0xFF))
                      (len payload)) (xors payload)) 0xFF.
Proof.
  unfold _chk. rewrite fold_xor_xors.
  rewrite (land_255_lxor (Z.land _ 255)), land_255_idem, <- land_255_lxor.
  reflexivity.
Qed.

Lemma xors_insert (payload : bytes) (j : nat) (b b' : Z) :
  payload !! j = Some b ->
  xors (<[j := b']> payload)
  = Z.lxor (xors payload) (Z.lxor (Z.land b 0xFF) (Z.land b' 0xFF)).
Proof.
  assert (Hcons : forall x p, xors (x :: p) = Z.lxor (Z.land x 0xFF) (xors p))
    by reflexivity.
  revert j. induction payload as [| x p IH]; intros j Hj; [discriminate |].
  destruct j as [| j].
  - injection Hj as ->.
    change (<[0%nat := b']> (b :: p)) with (b' :: p).
    rewrite !Hcons. xor_bits.
  - change (<[S j := b']> (x :: p)) with (x :: <[j := b']> p).
    change ((x :: p) !! S j) with (p !! j) in Hj.
    rewrite !Hcons, (IH j Hj). xor_bits.
Qed.

(** Changing one byte that enters the XOR changes its 8-bit cut. *)
Lemma xor_change_detected (X a a' : Z) :
  0 <= a <= 255 -> 0 <= a' <= 255 -> a' <> a ->
  Z.land (Z.lxor X (Z.lxor a a')) 0xFF <> Z.land X 0xFF.
Proof.
  intros Ha Ha' Hne Heq. rewrite land_255_lxor in Heq.
  assert (H0 : Z.land (Z.lxor a a') 0xFF = 0).
  { apply (f_equal (Z.lxor (Z.land X 255))) in Heq.
    rewrite <- Z.lxor_assoc, Z.lxor_nilpotent, Z.lxor_0_l in Heq. exact Heq. }
  rewrite land_255_lxor, !land_255_id in H0 by assumption.
  apply Z.lxor_eq in H0. congruence.
Qed.

Lemma _chk_ver_change (v v' c g : Z) (p : bytes) :
  0 <= v <= 255 -> 0 <= v' <= 255 -> v' <> v ->
  _chk v' c g p <> _chk v c g p.
Proof.
  intros Hv Hv' Hne. rewrite !_chk_xors.
  match goal with
  | |- _ <> Z.land ?X _ => intros H; apply (xor_change_detected X v v' Hv Hv' Hne)
  end.
  rewrite <- H. f_equal. xor_bits.
Qed.

Lemma _chk_cmd_change (v c c' g : Z) (p : bytes) :
  0 <= c <= 255 -> 0 <= c' <= 255 -> c' <> c ->
  _chk v c' g p <> _chk v c g p.
Proof.
  intros Hc Hc' Hne. rewrite !_chk_xors.
  match goal with
  | |- _ <> Z.land ?X _ => intros H; apply (xor_change_detected X c c' Hc Hc' Hne)
  end.
  rewrite <- H. f_equal. xor_bits.
Qed.

Lemma _chk_gid_change (v c g g' : Z) (p : bytes) :
  0 <= g <= 255 -> 0 <= g' <= 255 -> g' <> g ->
  _chk v c g' p <> _chk v c g p.
Proof.
  intros Hg Hg' Hne. rewrite !_chk_xors.
  rewrite (land_255_id g), (land_255_id g') by assumption.
  match goal with
  | |- _ <> Z.land ?X _ => intros H; apply (xor_change_detected X g g' Hg Hg' Hne)
  end.
  rewrite <- H. f_equal. xor_bits.
Qed.

Lemma _chk_payload_change (v c g : Z) (p : bytes) (j : nat) (b b' : Z) :
  p !! j = Some b ->
  0 <= b <= 255 -> 0 <= b' <= 255 -> b' <> b ->
  _chk v c g (<[j := b']> p) <> _chk v c g p.
Proof.
  intros Hj Hb Hb' Hne. rewrite !_chk_xors.
  unfold len. rewrite length_insert. fold (len p).
  rewrite (xors_insert _ _ _ _ Hj), (land_255_id b), (land_255_id b') by assumption.
  match goal with
  | |- _ <> Z.land ?X _ => intros H; apply (xor_change_detected X b b' Hb Hb' Hne)
  end.
  rewrite <- H. f_equal. xor_bits.
Qed.

Lemma nth_corrupt_eq (buf : bytes) (i : nat) (b' : Z) :
  (i < length buf)%nat -> nth i (corrupt i b' buf) 0 = b'.
Proof.
  intros Hi. unfold corrupt. rewrite nth_lookup.
  rewrite list_lookup_insert_eq by assumption. reflexivity.
Qed.

Lemma nth_corrupt_ne (buf : bytes) (i k : nat) (b' : Z) :
  k <> i -> nth k (corrupt i b' buf) 0 = nth k buf 0.
Proof.
  intros Hne. unfold corrupt. rewrite !nth_lookup.
  rewrite list_lookup_insert_ne by congruence. reflexivity.
Qed.

Lemma actual_payload_corrupt_in (buf : bytes) (i : nat) (b' : Z) :
  (5 <= i < length buf - 2)%nat ->
  actual_payload (corrupt i b' buf) = <[(i - 5)%nat := b']> (actual_payload buf).
Proof.
  intros Hin. unfold actual_payload, corrupt. rewrite length_insert.
  rewrite drop_insert_ge by lia. rewrite take_insert_lt by lia. reflexivity.
Qed.

Lemma actual_payload_corrupt_out (buf : bytes) (i : nat) (b' : Z) :
  ~ (5 <= i < length buf - 2)%nat ->
  actual_payload (corrupt i b' buf) = actual_payload buf.
Proof.
  intros Hout. unfold actual_payload, corrupt. rewrite length_insert.
  destruct (le_lt_dec 5 i) as [H5 | H5].
  - rewrite drop_insert_ge by lia. rewrite take_insert_ge by lia. reflexivity.
  - rewrite drop_insert_lt by lia. reflexivity.
Qed.

Lemma structurally_valid_inv (buf : bytes) :
  structurally_valid buf = true ->
  7 <= len buf
  /\ nth 0 buf 0 = START_BYTE
  /\ nth (length buf - 1) buf 0 = END_BYTE
  /\ nth 4 buf 0 = len (actual_payload buf)
  /\ _chk (nth 1 buf 0) (nth 2 buf 0) (nth 3 buf 0) (actual_payload buf)
     = nth (length buf - 2) buf 0.
Proof.
  unfold structurally_valid. rewrite !andb_true_iff, Z.leb_le, !Z.eqb_eq. tauto.
Qed.

Lemma _parse_frame_Some (buf : bytes) (f : frame) :
  _parse_frame buf = Ok (Some f) ->
  structurally_valid buf = true
  /\ f = (nth 2 buf 0, nth 3 buf 0, actual_payload buf).
Proof.
  rewrite _parse_frame_spec. destruct (structurally_valid buf); [| discriminate].
  intros [= <-]. split; reflexivity.
Qed.

Lemma Forall_byte_nth (buf : bytes) (k : nat) :
  Forall (fun b => 0 <= b <= 255) buf -> 0 <= nth k buf 0 <= 255.
Proof.
  intros H. rewrite nth_lookup. destruct (buf !! k) as [b |] eqn:E; [| cbn; lia].
  cbn. exact (Forall_lookup_1 _ _ _ _ H E).
Qed.

(** X5. A valid frame with any one of its bytes replaced by a different
    byte is rejected: whichever position is hit (marker, version,
    command, id, length, payload or checksum), [_parse_frame] returns
    [None]. *)
Theorem parse_frame_rejects_single_byte_error (buf : bytes) (f : frame)
    (i : nat) (b b' : Z) :
  Forall (fun x => 0 <= x <= 255) buf ->
  _parse_frame buf = Ok (Some f) ->
  buf !! i = Some b ->
  0 <= b' <= 255 ->
  b' <> b ->
  _parse_frame (corrupt i b' buf) = Ok None.
Proof.
  intros Hbytes Hparse Hi Hb' Hne.
  apply _parse_frame_Some in Hparse as [Hvalid _].
  apply structurally_valid_inv in Hvalid as (H7 & Hs & He & Hl & Hc).
  pose proof (lookup_lt_Some _ _ _ Hi) as Hlt.
  assert (Hb : 0 <= b <= 255) by exact (Forall_lookup_1 _ _ _ _ Hbytes Hi).
  assert (Hnth : nth i buf 0 = b) by (apply nth_lookup_Some; assumption).
  unfold len in H7.
  rewrite _parse_frame_spec.
  replace (structurally_valid (corrupt i b' buf)) with false; [reflexivity |].
  symmetry. apply not_true_is_false. intros Hvalid'.
  apply structurally_valid_inv in Hvalid' as (_ & Hs' & He' & Hl' & Hc').
  assert (Hlen' : length (corrupt i b' buf) = length buf) by apply length_insert.
  rewrite Hlen' in He', Hc'.
  pose proof (Forall_byte_nth buf 1 Hbytes) as B1.
  pose proof (Forall_byte_nth buf 2 Hbytes) as B2.
  pose proof (Forall_byte_nth buf 3 Hbytes) as B3.
  destruct (decide (5 <= i < length buf - 2)%nat) as [Hin | Hout].
  - (* a payload byte *)
    rewrite actual_payload_corrupt_in in Hc' by assumption.
    rewrite !nth_corrupt_ne in Hc' by lia. rewrite <- Hc in Hc'.
    assert (Hpj : actual_payload buf !! (i - 5)%nat = Some b).
    { unfold actual_payload. rewrite lookup_take_lt by lia.
      rewrite lookup_drop. replace (5 + (i - 5))%nat with i by lia. exact Hi. }
    exact (_chk_payload_change _ _ _ _ _ b b' Hpj Hb Hb' Hne Hc').
  - rewrite actual_payload_corrupt_out in Hl', Hc' by assumption.
    destruct (decide (i = 0)%nat) as [-> | H0].
    { rewrite nth_corrupt_eq in Hs' by assumption. congruence. }
    destruct (decide (i = length buf - 1)%nat) as [-> | Hlast].
    { rewrite nth_corrupt_eq in He' by assumption. congruence. }
    destruct (decide (i = 4)%nat) as [-> | H4].
    { rewrite nth_corrupt_eq in Hl' by assumption. congruence. }
    destruct (decide (i = length buf - 2)%nat) as [-> | Hchk].
    { rewrite nth_corrupt_eq in Hc' by assumption.
      rewrite !nth_corrupt_ne in Hc' by lia. congruence. }
    (* version, command or id *)
    assert (Hhdr : (i = 1 \/ i = 2 \/ i = 3)%nat) by lia.
    rewrite (nth_corrupt_ne buf i (length buf - 2)) in Hc' by lia.
    rewrite <- Hc in Hc'.
    destruct Hhdr as [-> | [-> | ->]];
      rewrite nth_corrupt_eq in Hc' by assumption;
      rewrite !nth_corrupt_ne in Hc' by lia; subst b.
    + exact (_chk_ver_change _ _ _ _ _ B1 Hb' Hne Hc').
    + exact (_chk_cmd_change _ _ _ _ _ B2 Hb' Hne Hc').
    + exact (_chk_gid_change _ _ _ _ _ B3 Hb' Hne Hc').
Qed.

Lemma parse_frame_rejects_single_byte_error_witness :
  _parse_frame (corrupt 5 0x02 [0xA5; 0x01; 0x20; 0x01; 0x01; 0x01; 0x20; 0x5A])
  = Ok None.
Proof.
  apply (parse_frame_rejects_single_byte_error
           [0xA5; 0x01; 0x20; 0x01; 0x01; 0x01; 0x20; 0x5A]
           (CMD_GET_STS, 1, [STATE_PRESENT]) 5 0x01 0x02).
  - rewrite !Forall_cons. repeat split; try lia. apply Forall_nil_2.
  - reflexivity.
  - reflexivity.
  - lia.
  - lia.
Defined.

Lemma frame_decompose (buf : bytes) :
  (7 <= length buf)%nat ->
  buf = [nth 0 buf 0; nth 1 buf 0; nth 2 buf 0; nth 3 buf 0; nth 4 buf 0]
        ++ actual_payload buf
        ++ [nth (length buf - 2) buf 0; nth (length buf - 1) buf 0].
Proof.
  intros H7.
  assert (Htail : drop (length buf - 2) buf
                  = [nth (length buf - 2) buf 0; nth (length buf - 1) buf 0]).
  { pose proof (length_drop buf (length buf - 2)) as Hl.
    destruct (drop (length buf - 2) buf) as [| x [| y [| z t]]] eqn:E;
      cbn in Hl; try lia.
    assert (Hx : buf !! (length buf - 2 + 0)%nat = Some x)
      by (rewrite <- lookup_drop, E; reflexivity).
    assert (Hy : buf !! (length buf - 2 + 1)%nat = Some y)
      by (rewrite <- lookup_drop, E; reflexivity).
    rewrite Nat.add_0_r in Hx.
    replace (length buf - 2 + 1)%nat with (length buf - 1)%nat in Hy by lia.
    rewrite (nth_lookup_Some _ _ _ _ Hx), (nth_lookup_Some _ _ _ _ Hy).
    reflexivity. }
  rewrite <- Htail. unfold actual_payload.
  replace (drop (length buf - 2) buf)
    with (drop (length buf - 7) (drop 5 buf))
    by (rewrite drop_drop; f_equal; lia).
  rewrite take_drop.
  destruct buf as [| a [| b [| c [| d [| e rest]]]]]; cbn in H7; try lia.
  reflexivity.
Qed.

(** X6. Decoding then encoding gives the same bytes back: when
    [_parse_frame] accepts a buffer of at most [MAX_LEN] bytes whose
    version byte is [PROTO_VER], [_mk_frame] of the decoded command, id
    and payload rebuilds exactly that buffer. *)
Theorem mk_frame_of_parsed (buf : bytes) (cmd gid : Z) (payload : bytes) :
  Forall (fun x => 0 <= x <= 255) buf ->
  _parse_frame buf = Ok (Some (cmd, gid, payload)) ->
  nth 1 buf 0 = PROTO_VER ->
  len buf <= MAX_LEN ->
  _mk_frame cmd gid (Some payload) = Ok buf.
Proof.
  intros Hbytes Hparse Hver Hmax.
  apply _parse_frame_Some in Hparse as [Hvalid Hf].
  injection Hf as -> -> ->.
  apply structurally_valid_inv in Hvalid as (H7 & Hs & He & Hl & Hc).
  assert (Hlen : len (actual_payload buf) = len buf - 7)
    by (apply len_actual_payload; assumption).
  rewrite _mk_frame_bytes.
  - rewrite (land_255_id (nth 3 buf 0)) by (apply Forall_byte_nth; assumption).
    rewrite <- Hver, Hc, <- Hl, <- Hs, <- He. f_equal. symmetry.
    apply frame_decompose. unfold len in H7. lia.
  - apply Forall_byte_nth. assumption.
  - lia.
Qed.

Lemma mk_frame_of_parsed_witness :
  _mk_frame CMD_GET_STS 1 (Some [STATE_PRESENT])
  = Ok [0xA5; 0x01; 0x20; 0x01; 0x01; 0x01; 0x20; 0x5A].
Proof.
  apply (mk_frame_of_parsed [0xA5; 0x01; 0x20; 0x01; 0x01; 0x01; 0x20; 0x5A]).
  - rewrite !Forall_cons. repeat split; try lia. apply Forall_nil_2.
  - reflexivity.
  - reflexivity.
  - vm_compute. discriminate.
Defined.

End FrameDecoding.

(** ** Statistics: counters and rate *)

Section StatsFacts.
Import ta_config ta_radio_433.

Lemma apply_call_sane (s : RadioStats) (c : StatsCall) :
  counters_sane s -> counters_sane (apply_call s c).
Proof.
  unfold counters_sane. intros (Ht & Hr & Ho).
  destruct c as [[] | [] q |]; cbn; repeat split; lia.
Qed.

Lemma after_calls_sane (cs : list StatsCall) (s : RadioStats) :
  counters_sane s -> counters_sane (after_calls cs s).
Proof.
  revert s. induction cs as [| c cs IH]; intros s Hs; [exact Hs |].
  cbn [after_calls fold_left]. apply IH, apply_call_sane, Hs.
Qed.

Lemma reset_sane (now : Z) : counters_sane (RadioStats_.reset now).
Proof. unfold counters_sane. cbn. lia. Qed.

Lemma success_rate_bounds (s : RadioStats) :
  counters_sane s ->
  exists q, RadioStats_.get_success_rate s = Ok q /\ (0 <= q <= 100)%Q.
Proof.
  intros (Ht & Hr & _). unfold RadioStats_.get_success_rate.
  destruct (tx_count s + rx_count s =? 0) eqn:E.
  - exists 0%Q. split; [reflexivity |]. split; discriminate.
  - apply Z.eqb_neq in E. cbv zeta.
    set (errors := tx_errors s + rx_errors s).
    set (total := tx_count s + rx_count s) in *.
    assert (Hpos : 0 < total) by (subst total; lia).
    assert (Herr : 0 <= errors <= total) by (subst errors total; lia).
    rewrite truediv_in_range by assumption. cbn [rbind].
    eexists. split; [reflexivity |].
    assert (Ht0 : (0 < inject_Z total)%Q).
    { change 0%Q with (inject_Z 0). rewrite <- Zlt_Qlt. exact Hpos. }
    assert (Hr0 : (0 <= inject_Z errors / inject_Z total)%Q).
    { apply Qle_shift_div_l; [exact Ht0 |]. rewrite Qmult_0_l.
      change 0%Q with (inject_Z 0). rewrite <- Zle_Qle. lia. }
    assert (Hr1 : (inject_Z errors / inject_Z total <= 1)%Q).
    { apply Qle_shift_div_r; [exact Ht0 |]. rewrite Qmult_1_l.
      rewrite <- Zle_Qle. lia. }
    change (errors # 1) with (inject_Z errors).
    change (total # 1) with (inject_Z total).
    split; lra.
Qed.

(** X7. Whatever sequence of [update_tx], [update_rx] and
    [update_timeout] follows a [reset], the counters never show more
    errors than events, and [get_success_rate] returns a rate between 0
    and 100. *)
Theorem stats_rate_between_0_and_100 (now : Z) (cs : list StatsCall) :
  counters_sane (after_calls cs (RadioStats_.reset now))
  /\ exists q,
       RadioStats_.get_success_rate (after_calls cs (RadioStats_.reset now)) = Ok q
       /\ (0 <= q <= 100)%Q.
Proof.
  pose proof (after_calls_sane cs _ (reset_sane now)) as Hs.
  split; [exact Hs | apply success_rate_bounds; exact Hs].
Qed.

End StatsFacts.

(** ** The radio: what an operation may change *)

Section RadioFrame.
Import ta_config ta_radio_433.

Lemma advanced_nil (r : Radio) : advanced [] r = r.
Proof. destruct r as [sim tick sims [s |] u]; reflexivity. Qed.

Lemma after_calls_app (cs1 cs2 : list StatsCall) (s : RadioStats) :
  after_calls (cs1 ++ cs2) s = after_calls cs2 (after_calls cs1 s).
Proof. apply fold_left_app. Qed.

Lemma advanced_app (cs1 cs2 : list StatsCall) (r : Radio) :
  advanced cs2 (advanced cs1 r) = advanced (cs1 ++ cs2) r.
Proof.
  destruct r as [sim tick sims [s |] u]; unfold advanced, set_stats;
    cbn [stats simulate _tick _sim_states uart option_map];
    [rewrite after_calls_app |]; reflexivity.
Qed.

Lemma advanced_set_tick (cs : list StatsCall) (t : Z) (r : Radio) :
  advanced cs (set_tick t r) = set_tick t (advanced cs r).
Proof. reflexivity. Qed.

(** What receiving does to the radio: at most one [update_rx], without
    a signal strength. *)
Lemma _read_all_advances (r : Radio) (e : Env) :
  exists chunk cs e',
    _read_all (r, e) = (Ok chunk, (advanced cs r, e'))
    /\ Forall radio_call cs
    /\ clock e' = clock e
    /\ rng e' = rng e.
Proof.
  unfold _read_all. erewrite bind_ok by reflexivity. cbn [fst].
  destruct (simulate r || negb (uart r)).
  { exists [], [], e. rewrite advanced_nil. repeat split. constructor. }
  unfold uart_read.
  destruct (uart_rx e) as [| [| [| b d] |] rest] eqn:Erx.
  - erewrite bind_ok by (rewrite Erx; reflexivity).
    exists [], [], e. rewrite advanced_nil. repeat split. constructor.
  - erewrite bind_ok by (rewrite Erx; reflexivity).
    eexists [], [], _. rewrite advanced_nil. split; [reflexivity |].
    repeat split. constructor.
  - erewrite bind_ok by (rewrite Erx; reflexivity).
    eexists [], [], _. rewrite advanced_nil. split; [reflexivity |].
    repeat split. constructor.
  - erewrite bind_ok by (rewrite Erx; reflexivity).
    eexists (b :: d), [CallRx true 0], _. split; [reflexivity |].
    repeat split. repeat constructor.
  - erewrite bind_ok by (rewrite Erx; reflexivity).
    eexists [], [CallRx false 0], _. split; [reflexivity |].
    repeat split. repeat constructor.
Qed.

Lemma _write_advances (data : bytes) (r : Radio) (e : Env) :
  exists n cs e',
    _write data (r, e) = (Ok n, (advanced cs r, e'))
    /\ Forall radio_call cs
    /\ clock e' = clock e
    /\ rng e' = rng e.
Proof.
  unfold _write. erewrite bind_ok by reflexivity. cbn [fst].
  destruct (simulate r || negb (uart r)).
  { exists (len data), [], e. rewrite advanced_nil. repeat split. constructor. }
  unfold uart_write.
  destruct (uart_tx e) as [| [n |] rest] eqn:Etx.
  - erewrite bind_ok by (rewrite Etx; reflexivity).
    eexists _, [CallTx _], _. split; [reflexivity |].
    repeat split. repeat constructor.
  - erewrite bind_ok by (rewrite Etx; reflexivity).
    eexists _, [CallTx _], _. split; [reflexivity |].
    repeat split. repeat constructor.
  - erewrite bind_ok by (rewrite Etx; reflexivity).
    eexists _, [CallTx false], _. split; [reflexivity |].
    repeat split. repeat constructor.
Qed.

Lemma _exchange_loop_advances (fuel : nat) (t0 timeout_ms : Z) (buf : bytes)
    (r : Radio) (e : Env) :
  (1 <= fuel)%nat ->
  timeout_ms - (clock e - t0) <= 5 * (Z.of_nat fuel - 1) ->
  exists res cs e',
    _exchange_loop fuel t0 timeout_ms buf (r, e) = (Ok res, (advanced cs r, e'))
    /\ Forall radio_call cs
    /\ clock e <= clock e'
    /\ rng e' = rng e.
Proof.
  revert buf r e. induction fuel as [| fuel IH]; intros buf r e Hf Ht; [lia |].
  destruct (Z.lt_ge_cases (clock e - t0) timeout_ms) as [Hlt | Hge].
  - destruct (_read_all_advances r e) as (chunk & cs1 & e1 & Hrd & Hcs1 & Hc1 & Hr1).
    assert (Hscan : exists o,
              match chunk with [] => Ok None | _ :: _ => _scan (buf ++ chunk) end
              = Ok o).
    { destruct chunk; [eauto | apply _scan_ok]. }
    destruct Hscan as [o Ho].
    rewrite (_exchange_loop_turn fuel t0 timeout_ms buf chunk r _ e e1 o Hlt Hrd Ho).
    destruct o as [f |].
    + exists (Some f), cs1, e1. repeat split; try assumption. lia.
    + destruct (IH (buf ++ chunk) (advanced cs1 r) (slept 5 e1))
        as (res & cs2 & e2 & Hrun & Hcs2 & Hc2 & Hr2).
      * lia.
      * cbn [clock slept]. lia.
      * exists res, (cs1 ++ cs2), e2. rewrite Hrun, advanced_app.
        split; [reflexivity |]. split; [apply Forall_app; split; assumption |].
        cbn [clock slept rng] in *. split; [lia | congruence].
  - rewrite _exchange_loop_timeout by assumption.
    exists None, [CallTimeout], e. split; [reflexivity |].
    repeat split; [repeat constructor | lia].
Qed.

(** A single exchange on the physical link returns, and leaves the
    radio as it was but for the statistics. *)
Lemma _exchange_advances (cmd gid : Z) (payload : bytes) (timeout_ms : Z)
    (r : Radio) (e : Env) :
  simulate r = false ->
  0 <= cmd <= 255 ->
  len payload <= MAX_LEN - 7 ->
  exists res cs e',
    _exchange cmd gid payload timeout_ms (r, e) = (Ok res, (advanced cs r, e'))
    /\ Forall radio_call cs
    /\ clock e <= clock e'
    /\ rng e' = rng e.
Proof.
  intros Hsim Hcmd Hlen. unfold _exchange.
  rewrite (bind_ok _ _ _ _ _ (simulate_run r e)). rewrite Hsim.
  rewrite _mk_frame_bytes by assumption.
  set (frm := _ ++ _ ++ _).
  erewrite bind_ok by reflexivity.
  destruct (_write_advances frm r e) as (n & cs1 & e1 & Hw & Hcs1 & Hc1 & Hr1).
  rewrite (bind_ok _ _ _ _ _ Hw).
  rewrite (bind_ok _ _ _ _ _ (_ticks_run _ e1)).
  destruct (_exchange_loop_advances (S (Z.to_nat timeout_ms)) (clock e1)
              timeout_ms [] (advanced cs1 r) e1)
    as (res & cs2 & e2 & Hrun & Hcs2 & Hc2 & Hr2).
  - lia.
  - lia.
  - exists res, (cs1 ++ cs2), e2. rewrite Hrun, advanced_app.
    split; [reflexivity |]. split; [apply Forall_app; split; assumption |].
    split; [lia | congruence].
Qed.

Lemma _exchange_with_retry_advances (gid : Z) (r : Radio) (e : Env) :
  simulate r = false ->
  exists res cs e',
    _exchange_with_retry CMD_GET_STS gid [] (r, e) = (Ok res, (advanced cs r, e'))
    /\ Forall radio_call cs
    /\ clock e <= clock e'
    /\ rng e' = rng e.
Proof.
  intros Hsim. unfold _exchange_with_retry, _exchange_with_retry_on.
  destruct (_retry_attempts_returns _exchange _sleep_ms RETRY
              (fun st => exists cs,
                 fst st = advanced cs r /\ Forall radio_call cs
                 /\ clock e <= clock (snd st) /\ rng (snd st) = rng e)
              CMD_GET_STS gid [])
    with (attempts := range (MAX_RETRIES RETRY)) (s := (r, e))
    as (res & [r' e'] & Hrun & cs & Hr' & Hcs & Hc & Hrng).
  - intros timeout [r0 e0] (cs0 & Hr0 & Hcs0 & Hc0 & Hg0). cbn [fst snd] in *. subst r0.
    destruct (_exchange_advances CMD_GET_STS gid [] timeout (advanced cs0 r) e0)
      as (res & cs1 & e1 & Hrun & Hcs1 & Hc1 & Hg1).
    + exact Hsim.
    + unfold CMD_GET_STS. lia.
    + vm_compute. discriminate.
    + exists res, (advanced cs1 (advanced cs0 r), e1). split; [exact Hrun |].
      exists (cs0 ++ cs1). cbn [fst snd]. rewrite advanced_app.
      split; [reflexivity |]. split; [apply Forall_app; split; assumption |].
      split; [lia | congruence].
  - intros ms [r0 e0] (cs0 & Hr0 & Hcs0 & Hc0 & Hg0). cbn [fst snd] in *.
    exists (r0, slept ms e0). split; [reflexivity |].
    exists cs0. cbn [fst snd clock slept rng]. repeat split; try assumption. lia.
  - exists []. cbn [fst snd]. rewrite advanced_nil. repeat split; [constructor | lia].
  - cbn [fst snd] in *. subst r'. exists res, cs, e'. repeat split; assumption.
Qed.

Lemma _randbits_range (n : Z) (r : Radio) (e : Env) :
  0 <= n ->
  exists x e',
    _randbits n (r, e) = (Ok x, (r, e'))
    /\ 0 <= x < 2 ^ n
    /\ clock e' = clock e /\ log e' = log e
    /\ uart_tx e' = uart_tx e /\ uart_rx e' = uart_rx e.
Proof.
  intros Hn. unfold _randbits. destruct (rng e) as [| x rest].
  - exists 0, e. repeat split; try lia.
  - eexists _, _. split; [reflexivity |].
    split; [apply Z.mod_pos_bound, Z.pow_pos_nonneg; lia |]. repeat split.
Qed.

(** One device polled in simulation: the table is read, nothing is sent
    and no time passes. *)
Lemma poll_one_simulated (gid : Z) (r : Radio) (e : Env) :
  simulate r = true ->
  exists d e',
    poll_one gid (r, e) = (Ok d, (r, e'))
    /\ dd_id d = gid
    /\ simulated_status (_sim_states r) d
    /\ clock e' = clock e /\ log e' = log e
    /\ uart_tx e' = uart_tx e /\ uart_rx e' = uart_rx e.
Proof.
  intros Hsim. unfold poll_one.
  rewrite (bind_ok _ _ _ _ _ (simulate_run r e)). rewrite Hsim.
  erewrite bind_ok by reflexivity. cbn [fst].
  destruct (_randbits_range 5 r e ltac:(lia))
    as (x & e1 & Hx & Hxr & Hc1 & Hl1 & Ht1 & Hr1).
  rewrite (bind_ok _ _ _ _ _ Hx).
  destruct (_randbits_range 5 r e1 ltac:(lia))
    as (y & e2 & Hy & Hyr & Hc2 & Hl2 & Ht2 & Hr2).
  rewrite (bind_ok _ _ _ _ _ Hy).
  eexists _, e2. split; [reflexivity |]. split; [reflexivity |].
  split; [| repeat split; congruence].
  unfold simulated_status. cbn [state dd_id battery rssi flags].
  pose proof (Z.mod_pos_bound x 25 ltac:(lia)).
  pose proof (Z.mod_pos_bound y 30 ltac:(lia)).
  repeat split; lia.
Qed.

Lemma poll_each_simulated (gids : list Z) (out : list DDStatus) (r : Radio) (e : Env) :
  simulate r = true ->
  exists l e',
    poll_each gids out (r, e) = (Ok (out ++ l), (r, e'))
    /\ map dd_id l = gids
    /\ Forall (simulated_status (_sim_states r)) l
    /\ clock e' = clock e /\ log e' = log e
    /\ uart_tx e' = uart_tx e /\ uart_rx e' = uart_rx e.
Proof.
  intros Hsim. revert out e. induction gids as [| gid rest IH]; intros out e.
  - exists [], e. rewrite app_nil_r. repeat split. constructor.
  - cbn [poll_each].
    destruct (poll_one_simulated gid r e Hsim)
      as (d & e1 & Hone & Hid & Hd & Hc1 & Hl1 & Ht1 & Hr1).
    rewrite (bind_ok _ _ _ _ _ Hone).
    destruct (IH (out ++ [d]) e1) as (l & e2 & Hrun & Hids & Hl & Hc2 & Hl2 & Ht2 & Hr2).
    exists (d :: l), e2. rewrite Hrun, <- app_assoc.
    split; [reflexivity |]. split; [cbn; congruence |].
    split; [constructor; assumption |]. repeat split; congruence.
Qed.

Lemma poll_one_advances (gid : Z) (r : Radio) (e : Env) :
  exists d cs e',
    poll_one gid (r, e) = (Ok d, (advanced cs r, e'))
    /\ Forall radio_call cs.
Proof.
  destruct (simulate r) eqn:Hsim.
  - destruct (poll_one_simulated gid r e Hsim) as (d & e' & Hrun & _).
    exists d, [], e'. rewrite advanced_nil. split; [exact Hrun | constructor].
  - unfold poll_one. rewrite (bind_ok _ _ _ _ _ (simulate_run r e)). rewrite Hsim.
    destruct (_exchange_with_retry_advances gid r e Hsim)
      as (res & cs & e' & Hrun & Hcs & _).
    rewrite (bind_ok _ _ _ _ _ Hrun).
    eexists _, cs, e'. split; [reflexivity | assumption].
Qed.

Lemma poll_each_advances (gids : list Z) (out : list DDStatus) (r : Radio) (e : Env) :
  exists l cs e',
    poll_each gids out (r, e) = (Ok l, (advanced cs r, e'))
    /\ Forall radio_call cs.
Proof.
  revert out r e. induction gids as [| gid rest IH]; intros out r e.
  - exists out, [], e. rewrite advanced_nil. split; [reflexivity | constructor].
  - cbn [poll_each].
    destruct (poll_one_advances gid r e) as (d & cs1 & e1 & Hone & Hcs1).
    rewrite (bind_ok _ _ _ _ _ Hone).
    destruct (IH (out ++ [d]) (advanced cs1 r) e1) as (l & cs2 & e2 & Hrun & Hcs2).
    exists l, (cs1 ++ cs2), e2. rewrite Hrun, advanced_app.
    split; [reflexivity | apply Forall_app; split; assumption].
Qed.

Lemma poll_status_advances (r : Radio) (e : Env) :
  exists out cs e',
    poll_status (r, e)
    = (Ok out, (advanced cs (set_tick (_tick r + 1) r), e'))
    /\ Forall radio_call cs.
Proof.
  unfold poll_status.
  erewrite bind_ok by reflexivity.
  erewrite bind_ok by reflexivity.
  destruct (_ mod _ =? 0).
  - apply poll_each_advances.
  - exists [], [], e. rewrite advanced_nil. split; [reflexivity | constructor].
Qed.

Lemma apply_call_sound (s : RadioStats) (c : StatsCall) :
  radio_call c ->
  counters_sane s /\ (avg_rssi s == 0)%Q ->
  counters_sane (apply_call s c) /\ (avg_rssi (apply_call s c) == 0)%Q.
Proof.
  intros Hc [Hs Hq]. split; [apply apply_call_sane; exact Hs |].
  destruct c as [b | b q |]; cbn [apply_call]; try exact Hq.
  cbn [radio_call] in Hc. subst q.
  destruct b; cbn [RadioStats_.update_rx avg_rssi]; [| exact Hq].
  rewrite Hq. reflexivity.
Qed.

Lemma advanced_sound (cs : list StatsCall) (r : Radio) :
  Forall radio_call cs -> radio_stats_sound r -> radio_stats_sound (advanced cs r).
Proof.
  intros Hcs. unfold radio_stats_sound, advanced, set_stats. cbn [stats].
  destruct (stats r) as [s |]; cbn [option_map]; [| trivial].
  revert s. induction Hcs as [| c cs Hc Hcs IH]; intros s Hs; [exact Hs |].
  cbn [after_calls fold_left]. apply IH, apply_call_sound; assumption.
Qed.

(** X8. [poll_status] changes nothing of the radio but the tick count
    and the statistics: the mode, the UART handle and the table of
    simulated presence states are what they were, in simulation as on
    the physical link, whether a sweep was due or not. *)
Theorem poll_status_keeps_mode_and_simulation (r : Radio) (e : Env) :
  exists out r' e',
    poll_status (r, e) = (Ok out, (r', e'))
    /\ simulate r' = simulate r
    /\ uart r' = uart r
    /\ _sim_states r' = _sim_states r.
Proof.
  destruct (poll_status_advances r e) as (out & cs & e' & Hrun & _).
  eexists out, _, e'. split; [exact Hrun |]. repeat split.
Qed.

(** X9. [poll_status] keeps the statistics sound: if the counters show
    no more errors than events and the signal estimate is 0 before the
    call, so it is after it.  The radio never passes a signal strength
    to [update_rx], so that an estimate that starts at 0, as [reset]
    leaves it, stays 0. *)
Theorem poll_status_keeps_stats_sound (r : Radio) (e : Env) :
  radio_stats_sound r ->
  exists out r' e',
    poll_status (r, e) = (Ok out, (r', e'))
    /\ radio_stats_sound r'.
Proof.
  intros Hs. destruct (poll_status_advances r e) as (out & cs & e' & Hrun & Hcs).
  eexists out, _, e'. split; [exact Hrun |].
  apply advanced_sound; [exact Hcs | exact Hs].
Qed.

Lemma poll_status_keeps_stats_sound_witness :
  radio_stats_sound hw_radio
  /\ exists out r' e',
       poll_status (hw_radio, env_receiving [ReadRaises]) = (Ok out, (r', e'))
       /\ radio_stats_sound r'.
Proof.
  assert (H : radio_stats_sound hw_radio).
  { cbn. split; [apply reset_sane | reflexivity]. }
  split; [exact H |].
  exact (poll_status_keeps_stats_sound hw_radio (env_receiving [ReadRaises]) H).
Defined.

(** X10. In simulation a sweep that is due reports, for each configured
    id in order, the state held in the simulation table and figures
    within bounds (battery 75..99, rssi 81..110, flags 0); it sends
    nothing, reads nothing and lets no time pass. *)
Theorem poll_status_simulated_sweep (r : Radio) (e : Env) :
  simulate r = true ->
  (_tick r + 1) mod poll_period = 0 ->
  exists out e',
    poll_status (r, e) = (Ok out, (set_tick (_tick r + 1) r, e'))
    /\ map dd_id out = GROUP_IDS
    /\ Forall (simulated_status (_sim_states r)) out
    /\ clock e' = clock e /\ log e' = log e
    /\ uart_tx e' = uart_tx e /\ uart_rx e' = uart_rx e.
Proof.
  intros Hsim Hdue. unfold poll_status.
  erewrite bind_ok by reflexivity.
  erewrite bind_ok by reflexivity.
  cbn [fst _tick set_tick]. rewrite Hdue. cbn [Z.eqb].
  destruct (poll_each_simulated GROUP_IDS [] (set_tick (_tick r + 1) r) e Hsim)
    as (l & e' & Hrun & Hids & Hl & Henv).
  exists l, e'. split; [exact Hrun |]. split; [exact Hids |].
  split; [exact Hl | exact Henv].
Qed.

Lemma poll_status_simulated_sweep_witness :
  exists out e',
    poll_status (sim_radio_due, env_receiving [])
    = (Ok out, (set_tick (_tick sim_radio_due + 1) sim_radio_due, e'))
    /\ map dd_id out = GROUP_IDS
    /\ Forall (simulated_status (_sim_states sim_radio_due)) out
    /\ clock e' = clock (env_receiving []) /\ log e' = log (env_receiving [])
    /\ uart_tx e' = uart_tx (env_receiving [])
    /\ uart_rx e' = uart_rx (env_receiving []).
Proof.
  apply (poll_status_simulated_sweep sim_radio_due (env_receiving []));
    reflexivity.
Defined.

End RadioFrame.

(** ** A link where nothing is received *)

Section SilentLinkTime.
Import ta_config ta_radio_433.

Lemma idled_0 (e : Env) : idled 0 e = e.
Proof.
  destruct e as [c tx rx g l]. unfold idled. cbn.
  rewrite app_nil_r. f_equal. lia.
Qed.

Lemma idled_S (n : nat) (e : Env) : idled n (slept 5 e) = idled (S n) e.
Proof.
  unfold idled, slept. cbn [clock uart_tx uart_rx rng log repeat].
  f_equal; [lia |]. rewrite <- app_assoc. reflexivity.
Qed.

Lemma idle_turns_done (t : Z) : t <= 0 -> idle_turns t = 0%nat.
Proof.
  intros Ht. unfold idle_turns.
  assert ((t + 4) / 5 < 1) by (apply Z.div_lt_upper_bound; lia). lia.
Qed.

Lemma idle_turns_step (t : Z) : 0 < t -> idle_turns t = S (idle_turns (t - 5)).
Proof.
  intros Ht. unfold idle_turns.
  replace (t + 4) with ((t - 5 + 4) + 1 * 5) by lia.
  rewrite Z.div_add by lia.
  assert (0 <= (t - 5 + 4) / 5) by (apply Z.div_pos; lia). lia.
Qed.

(** The loop of [_exchange] on a silent link: it sleeps turn after turn
    until the timeout, then counts one timeout. *)
Lemma _exchange_loop_idles (fuel : nat) (t0 timeout_ms : Z) (buf : bytes)
    (r : Radio) (e : Env) :
  (1 <= fuel)%nat ->
  timeout_ms - (clock e - t0) <= 5 * (Z.of_nat fuel - 1) ->
  uart_rx e = [] ->
  _exchange_loop fuel t0 timeout_ms buf (r, e)
  = (Ok None,
     (advanced [CallTimeout] r,
      idled (idle_turns (timeout_ms - (clock e - t0))) e)).
Proof.
  revert buf e. induction fuel as [| fuel IH]; intros buf e Hf Ht Hrx; [lia |].
  destruct (Z.lt_ge_cases (clock e - t0) timeout_ms) as [Hlt | Hge].
  - rewrite (_exchange_loop_turn fuel t0 timeout_ms buf [] r r e e None Hlt
               (_read_all_silent r e Hrx) eq_refl).
    rewrite app_nil_r, IH; [| lia | cbn [clock slept]; lia | exact Hrx].
    rewrite idled_S. cbn [clock slept].
    rewrite (idle_turns_step (timeout_ms - (clock e - t0))) by lia.
    replace (timeout_ms - (clock e + Z.max 0 5 - t0))
      with (timeout_ms - (clock e - t0) - 5) by lia.
    reflexivity.
  - rewrite _exchange_loop_timeout by assumption.
    rewrite idle_turns_done by lia. rewrite idled_0. reflexivity.
Qed.

Lemma count_writes_app (l1 l2 : list Event) :
  count_writes (l1 ++ l2) = (count_writes l1 + count_writes l2)%nat.
Proof.
  induction l1 as [| ev l1 IH]; [reflexivity |].
  destruct ev; cbn; rewrite IH; reflexivity.
Qed.

Lemma count_writes_sleeps (n : nat) (ms : Z) :
  count_writes (repeat (EvSleep ms) n) = 0%nat.
Proof. induction n; [reflexivity | exact IHn]. Qed.

Lemma timeouts_of_advanced (cs : list StatsCall) (r : Radio) (k : Z) :
  (forall s, timeouts (after_calls cs s) = timeouts s + k) ->
  stats r <> None ->
  timeouts_of (advanced cs r) = timeouts_of r + k.
Proof.
  intros Hk Hs. unfold timeouts_of, advanced, set_stats. cbn [stats].
  destruct (stats r) as [s |]; [cbn; apply Hk | contradiction].
Qed.

(** A single exchange on a silent physical link: one frame is written,
    the wait lasts the timeout rounded up to a multiple of 5 ms, one
    timeout is counted, and the result is [None]. *)
Lemma _exchange_unanswered (cmd gid : Z) (payload : bytes) (timeout_ms : Z)
    (r : Radio) (e : Env) :
  simulate r = false ->
  uart r = true ->
  uart_rx e = [] ->
  0 <= cmd <= 255 ->
  len payload <= MAX_LEN - 7 ->
  exists b e',
    _exchange cmd gid payload timeout_ms (r, e)
    = (Ok None, (advanced [CallTx b; CallTimeout] r, e'))
    /\ clock e' = clock e + wait_of timeout_ms
    /\ uart_rx e' = []
    /\ count_writes (log e') = S (count_writes (log e)).
Proof.
  intros Hsim Hu Hrx Hcmd Hlen. unfold _exchange.
  rewrite (bind_ok _ _ _ _ _ (simulate_run r e)). rewrite Hsim.
  rewrite _mk_frame_bytes by assumption.
  set (frm := _ ++ _ ++ _).
  erewrite bind_ok by reflexivity.
  assert (Hw : exists n b e1,
            _write frm (r, e) = (Ok n, (advanced [CallTx b] r, e1))
            /\ clock e1 = clock e /\ uart_rx e1 = uart_rx e
            /\ log e1 = log e ++ [EvWrite frm]).
  { unfold _write. erewrite bind_ok by reflexivity. cbn [fst].
    rewrite Hsim, Hu. cbn [orb negb]. unfold uart_write.
    destruct (uart_tx e) as [| [n |] rest] eqn:Etx;
      (erewrite bind_ok by (rewrite Etx; reflexivity));
      eexists _, _, _; (split; [reflexivity |]); repeat split. }
  destruct Hw as (n & b & e1 & Hw & Hc1 & Hr1 & Hl1).
  rewrite (bind_ok _ _ _ _ _ Hw).
  rewrite (bind_ok _ _ _ _ _ (_ticks_run _ e1)).
  rewrite _exchange_loop_idles; [| lia | lia | congruence].
  exists b, (idled (idle_turns (timeout_ms - (clock e1 - clock e1))) e1).
  rewrite advanced_app. split; [reflexivity |].
  replace (timeout_ms - (clock e1 - clock e1)) with timeout_ms by lia.
  cbn [idled clock uart_rx log]. unfold wait_of.
  split; [lia |]. split; [congruence |].
  rewrite Hl1, !count_writes_app, count_writes_sleeps. cbn. lia.
Qed.

(** The attempts of a retry on a silent physical link. *)
Lemma _retry_attempts_unanswered (cfg : RetryCfg) (attempts : list Z)
    (cmd gid : Z) (payload : bytes) (r : Radio) (e : Env) :
  simulate r = false ->
  uart r = true ->
  uart_rx e = [] ->
  0 <= cmd <= 255 ->
  len payload <= MAX_LEN - 7 ->
  exists cs e',
    _retry_attempts _exchange _sleep_ms cfg attempts cmd gid payload (r, e)
    = (Ok None, (advanced cs r, e'))
    /\ Forall radio_call cs
    /\ (forall s, timeouts (after_calls cs s) = timeouts s + len attempts)
    /\ clock e' = clock e + retry_time_of cfg attempts
    /\ uart_rx e' = []
    /\ count_writes (log e') = (count_writes (log e) + length attempts)%nat.
Proof.
  intros Hsim Hu Hrx Hcmd Hlen. revert r e Hsim Hu Hrx.
  induction attempts as [| attempt rest IH]; intros r e Hsim Hu Hrx.
  - exists [], e. rewrite advanced_nil. cbn [_retry_attempts retry_time_of fold_right length].
    split; [reflexivity |]. split; [constructor |].
    split; [intros s; unfold len; cbn [after_calls fold_left length]; lia |].
    split; [lia |]. split; [exact Hrx | lia].
  - cbn [_retry_attempts].
    destruct (_exchange_unanswered cmd gid payload (attempt_timeout cfg attempt)
                r e Hsim Hu Hrx Hcmd Hlen) as (b & e1 & Hex & Hc1 & Hr1 & Hw1).
    rewrite (bind_ok _ _ _ _ _ Hex).
    match goal with
    | |- context [bind (if ?c then ?a else ?b) _] =>
        set (pause := if c then a else b)
    end.
    assert (Hpause : exists e2,
              pause (advanced [CallTx b; CallTimeout] r, e1)
              = (Ok tt, (advanced [CallTx b; CallTimeout] r, e2))
              /\ clock e2 = clock e1 + backoff_of cfg attempt
              /\ uart_rx e2 = [] /\ count_writes (log e2) = count_writes (log e1)).
    { subst pause. unfold backoff_of. destruct (_ && _).
      - eexists. split; [reflexivity |]. cbn [slept clock uart_rx log].
        rewrite count_writes_app. cbn. repeat split; [assumption | lia].
      - exists e1. repeat split; [lia | assumption]. }
    destruct Hpause as (e2 & Hpause & Hc2 & Hr2 & Hw2).
    rewrite (bind_ok _ _ _ _ _ Hpause).
    destruct (IH (advanced [CallTx b; CallTimeout] r) e2 Hsim Hu Hr2)
      as (cs & e' & Hrun & Hcs & Hto & Hc' & Hr' & Hw').
    exists ([CallTx b; CallTimeout] ++ cs), e'.
    rewrite Hrun, advanced_app. split; [reflexivity |].
    split; [repeat constructor; assumption |].
    split; [| split; [| split]].
    + intros s. rewrite after_calls_app, Hto. cbn. unfold len. cbn [length]. lia.
    + cbn [retry_time_of fold_right]. fold (retry_time_of cfg rest). lia.
    + exact Hr'.
    + cbn [length]. lia.
Qed.

(** X11. A retry on a physical link where nothing is received keeps the
    caller for a time fixed by the retry table, for every table whose
    timeouts the floats compute without rounding: for each attempt its
    timeout rounded up to a multiple of 5 ms, and after each failed
    attempt but the last the backoff.  It writes the frame once per
    attempt, counts as many timeouts when statistics are kept, and
    returns [None]. *)
Theorem exchange_with_retry_unanswered_time (cfg : RetryCfg)
    (cmd gid : Z) (payload : bytes) (r : Radio) (e : Env) :
  simulate r = false ->
  uart r = true ->
  stats r <> None ->
  uart_rx e = [] ->
  0 <= cmd <= 255 ->
  len payload <= MAX_LEN - 7 ->
  0 <= MAX_RETRIES cfg ->
  retry_floats_exact cfg ->
  exists r' e',
    _exchange_with_retry_on _exchange _sleep_ms cfg cmd gid payload (r, e)
    = (Ok None, (r', e'))
    /\ clock e' = clock e + retry_time cfg
    /\ count_writes (log e') = (count_writes (log e) + Z.to_nat (MAX_RETRIES cfg))%nat
    /\ timeouts_of r' = timeouts_of r + MAX_RETRIES cfg.
Proof.
  intros Hsim Hu Hs Hrx Hcmd Hlen Hmax _. unfold _exchange_with_retry_on.
  destruct (_retry_attempts_unanswered cfg (range (MAX_RETRIES cfg)) cmd gid
              payload r e Hsim Hu Hrx Hcmd Hlen)
    as (cs & e' & Hrun & Hcs & Hto & Hc & Hr & Hw).
  exists (advanced cs r), e'. split; [exact Hrun |].
  split; [exact Hc |]. split.
  - rewrite Hw, length_range. reflexivity.
  - rewrite (timeouts_of_advanced cs r (len (range (MAX_RETRIES cfg)))) by assumption.
    unfold len. rewrite length_range. lia.
Qed.

Lemma exchange_with_retry_unanswered_time_witness :
  retry_time RETRY = 2675
  /\ retry_floats_exact RETRY
  /\ exists r' e',
       _exchange_with_retry CMD_GET_STS 1 [] (hw_radio, env_receiving [])
       = (Ok None, (r', e'))
       /\ clock e' = 2675
       /\ count_writes (log e') = 3%nat
       /\ timeouts_of r' = 3.
Proof.
  split; [reflexivity |]. split; [exact retry_floats_exact_configured |].
  destruct (exchange_with_retry_unanswered_time RETRY CMD_GET_STS 1 []
              hw_radio (env_receiving []))
    as (r' & e' & Hrun & Hc & Hw & Ht).
  - reflexivity.
  - reflexivity.
  - discriminate.
  - reflexivity.
  - unfold CMD_GET_STS. lia.
  - vm_compute. discriminate.
  - cbn. lia.
  - exact retry_floats_exact_configured.
  - exists r', e'. split; [exact Hrun |]. split; [exact Hc |].
    split; [exact Hw | exact Ht].
Defined.

End SilentLinkTime.

(** ** Sweeps that nobody answers *)

Section UnansweredSweep.
Import ta_config ta_radio_433 ta_app.

Lemma poll_one_unanswered (gid : Z) (r : Radio) (e : Env) :
  simulate r = false ->
  uart r = true ->
  uart_rx e = [] ->
  exists cs e',
    poll_one gid (r, e) = (Ok (unanswered_status gid), (advanced cs r, e'))
    /\ clock e' = clock e + retry_time RETRY
    /\ uart_rx e' = [].
Proof.
  intros Hsim Hu Hrx. unfold poll_one.
  rewrite (bind_ok _ _ _ _ _ (simulate_run r e)). rewrite Hsim.
  destruct (_retry_attempts_unanswered RETRY (range (MAX_RETRIES RETRY))
              CMD_GET_STS gid [] r e Hsim Hu Hrx)
    as (cs & e' & Hrun & _ & _ & Hc & Hr & _).
  - unfold CMD_GET_STS. lia.
  - vm_compute. discriminate.
  - unfold _exchange_with_retry, _exchange_with_retry_on.
    rewrite (bind_ok _ _ _ _ _ Hrun).
    exists cs, e'. split; [reflexivity |]. split; assumption.
Qed.

Lemma poll_each_unanswered (gids : list Z) (out : list DDStatus) (r : Radio) (e : Env) :
  simulate r = false ->
  uart r = true ->
  uart_rx e = [] ->
  exists cs e',
    poll_each gids out (r, e)
    = (Ok (out ++ map unanswered_status gids), (advanced cs r, e'))
    /\ clock e' = clock e + len gids * retry_time RETRY
    /\ uart_rx e' = [].
Proof.
  intros Hsim Hu. revert out r e Hsim Hu.
  induction gids as [| gid rest IH]; intros out r e Hsim Hu Hrx.
  - exists [], e. rewrite advanced_nil, app_nil_r.
    split; [reflexivity |]. split; [unfold len; cbn [length]; lia | exact Hrx].
  - cbn [poll_each].
    destruct (poll_one_unanswered gid r e Hsim Hu Hrx) as (cs1 & e1 & Hone & Hc1 & Hr1).
    rewrite (bind_ok _ _ _ _ _ Hone).
    destruct (IH (out ++ [unanswered_status gid]) (advanced cs1 r) e1 Hsim Hu Hr1)
      as (cs2 & e2 & Hrun & Hc2 & Hr2).
    exists (cs1 ++ cs2), e2. rewrite Hrun, advanced_app, <- app_assoc.
    split; [reflexivity |]. split; [| exact Hr2].
    unfold len in *. cbn [length]. lia.
Qed.

Lemma poll_status_silent (r : Radio) (e : Env) :
  simulate r = false ->
  uart r = true ->
  uart_rx e = [] ->
  (_tick r + 1) mod poll_period = 0 ->
  exists cs e',
    poll_status (r, e)
    = (Ok (map unanswered_status GROUP_IDS),
       (advanced cs (set_tick (_tick r + 1) r), e'))
    /\ clock e' = clock e + len GROUP_IDS * retry_time RETRY
    /\ uart_rx e' = [].
Proof.
  intros Hsim Hu Hrx Hdue. unfold poll_status.
  erewrite bind_ok by reflexivity.
  erewrite bind_ok by reflexivity.
  cbn [fst _tick set_tick]. rewrite Hdue. cbn [Z.eqb].
  apply (poll_each_unanswered GROUP_IDS [] (set_tick (_tick r + 1) r) e Hsim Hu Hrx).
Qed.

(** X12. On a physical link where nothing is received, a sweep that is
    due reports every configured device with the state UNKNOWN (battery
    and rssi 90), and keeps the caller for one full retry sequence per
    device. *)
Theorem poll_status_unanswered (r : Radio) (e : Env) :
  simulate r = false ->
  uart r = true ->
  uart_rx e = [] ->
  (_tick r + 1) mod poll_period = 0 ->
  exists r' e',
    poll_status (r, e) = (Ok (map unanswered_status GROUP_IDS), (r', e'))
    /\ clock e' = clock e + len GROUP_IDS * retry_time RETRY.
Proof.
  intros Hsim Hu Hrx Hdue.
  destruct (poll_status_silent r e Hsim Hu Hrx Hdue) as (cs & e' & Hrun & Hc & _).
  eexists _, e'. split; [exact Hrun | exact Hc].
Qed.

Lemma poll_status_unanswered_witness :
  exists r' e',
    poll_status (hw_radio_due, env_receiving [])
    = (Ok (map unanswered_status [1; 2; 3; 4; 5]), (r', e'))
    /\ clock e' = 13375.
Proof.
  destruct (poll_status_unanswered hw_radio_due (env_receiving []))
    as (r' & e' & Hrun & Hc); try reflexivity.
  exists r', e'. split; [exact Hrun | exact Hc].
Defined.

Lemma store_each_unanswered (gids : list Z) (m : gmap Z Z) (id : Z) :
  id ∈ gids ->
  fold_left (fun m st => store_status st m) (map unanswered_status gids) m !! id
  = Some STATE_UNKNOWN.
Proof.
  revert m. induction gids as [| gid rest IH]; intros m Hid.
  - apply elem_of_nil in Hid. contradiction.
  - cbn [map fold_left].
    destruct (decide (id ∈ rest)) as [Hin | Hout]; [apply IH; exact Hin |].
    apply elem_of_cons in Hid as [-> | Hin]; [| contradiction].
    rewrite store_each_other.
    + unfold store_status, unanswered_status. cbn [dd_id state].
      apply lookup_insert_eq.
    + rewrite map_map. cbn [dd_id unanswered_status]. rewrite map_id. exact Hout.
Qed.

(** X13. When a sweep is due and nothing is received on the physical
    link, [_update_states] overwrites the state of every configured
    device with UNKNOWN, whatever was known before: a device that stops
    answering loses its last known state at the next sweep. *)
Theorem update_states_forgets_silent_devices (app : TaApp) (e : Env) :
  simulate (radio app) = false ->
  uart (radio app) = true ->
  uart_rx e = [] ->
  (_tick (radio app) + 1) mod poll_period = 0 ->
  exists app' e',
    _update_states (app, e) = (Ok tt, (app', e'))
    /\ (forall id, id ∈ GROUP_IDS -> states app' !! id = Some STATE_UNKNOWN)
    /\ error_count app' = error_count app.
Proof.
  intros Hsim Hu Hrx Hdue.
  destruct (poll_status_silent (radio app) e Hsim Hu Hrx Hdue)
    as (cs & e' & Hpoll & _).
  unfold _update_states, _update_states_from, try_except.
  erewrite bind_ok by (unfold on_radio; rewrite Hpoll; reflexivity).
  rewrite store_each_run. cbn [states].
  eexists _, _. split; [reflexivity |]. cbn [states error_count].
  split; [| reflexivity].
  intros id Hid. apply store_each_unanswered. exact Hid.
Qed.

Lemma update_states_forgets_silent_devices_witness :
  states app_all_present !! 3 = Some STATE_PRESENT
  /\ exists app' e',
       _update_states (app_all_present, env_receiving []) = (Ok tt, (app', e'))
       /\ states app' !! 3 = Some STATE_UNKNOWN.
Proof.
  split; [reflexivity |].
  destruct (update_states_forgets_silent_devices app_all_present (env_receiving []))
    as (app' & e' & Hrun & Hall & _); try reflexivity.
  exists app', e'. split; [exact Hrun |]. apply Hall.
  unfold GROUP_IDS. rewrite !elem_of_cons. auto.
Defined.

End UnansweredSweep.

(** ** Replies on the physical link *)

Section Replies.
Import ta_config ta_radio_433.

(** A single exchange whose first read brings a buffer in which the
    search finds a valid frame returns that frame at once. *)
Lemma _exchange_answered (cmd gid : Z) (payload : bytes) (timeout_ms : Z)
    (r : Radio) (e : Env) (chunk : bytes) (rest : list UartRead) (f : frame) :
  simulate r = false ->
  uart r = true ->
  0 <= cmd <= 255 ->
  len payload <= MAX_LEN - 7 ->
  0 < timeout_ms ->
  uart_rx e = ReadData chunk :: rest ->
  chunk <> [] ->
  _scan chunk = Ok (Some f) ->
  exists r' e',
    _exchange cmd gid payload timeout_ms (r, e) = (Ok (Some f), (r', e'))
    /\ clock e' = clock e.
Proof.
  intros Hsim Hu Hcmd Hlen Ht Hrx Hne Hscan. unfold _exchange.
  rewrite (bind_ok _ _ _ _ _ (simulate_run r e)). rewrite Hsim.
  rewrite _mk_frame_bytes by assumption.
  set (frm := _ ++ _ ++ _).
  erewrite bind_ok by reflexivity.
  destruct (_write_steady frm r e)
    as (n & r1 & e1 & Hw & Hs1 & Hu1 & Hk1 & Hc1 & Hrx1).
  rewrite (bind_ok _ _ _ _ _ Hw).
  rewrite (bind_ok _ _ _ _ _ (_ticks_run r1 e1)).
  assert (Hrd : _read_all (r1, e1) = (Ok chunk, after_read r1 e1 rest)).
  { apply _read_all_data; congruence. }
  rewrite (_exchange_loop_turn _ (clock e1) timeout_ms [] chunk r1 _ e1 _
             (Some f) ltac:(lia) Hrd).
  - eexists _, _. split; [reflexivity |]. cbn [after_read snd clock]. exact Hc1.
  - destruct chunk; [contradiction | exact Hscan].
Qed.

(** X14. [request_status] does not check who answers: on the physical
    link, when the search finds in the first bytes received a valid
    GET_STS reply with a one-byte payload, the state in that payload is
    returned as the state of the device asked, whichever id [g] the
    reply carries. *)
Theorem request_status_takes_any_reply (dd_id g st : Z) (r : Radio) (e : Env)
    (junk body tail : bytes) (rest : list UartRead) :
  dd_id ∈ GROUP_IDS ->
  simulate r = false ->
  uart r = true ->
  uart_rx e = ReadData (junk ++ (START_BYTE :: body ++ [END_BYTE]) ++ tail) :: rest ->
  START_BYTE ∉ junk ->
  END_BYTE ∉ body ->
  _parse_frame (START_BYTE :: body ++ [END_BYTE]) = Ok (Some (CMD_GET_STS, g, [st])) ->
  fst (request_status dd_id (r, e)) = Ok st.
Proof.
  intros Hid Hsim Hu Hrx Hs He Hparse. unfold request_status.
  rewrite bool_decide_eq_true_2 by assumption. cbn [negb].
  unfold _exchange_with_retry, _exchange_with_retry_on.
  change (range (MAX_RETRIES RETRY)) with [0; 1; 2].
  cbn [_retry_attempts].
  destruct (_exchange_answered CMD_GET_STS dd_id [] (attempt_timeout RETRY 0) r e
              (junk ++ (START_BYTE :: body ++ [END_BYTE]) ++ tail) rest
              (CMD_GET_STS, g, [st]) Hsim Hu)
    as (r' & e' & Hex & _).
  - unfold CMD_GET_STS. lia.
  - vm_compute. discriminate.
  - vm_compute. reflexivity.
  - exact Hrx.
  - destruct junk; discriminate.
  - rewrite _scan_candidate by assumption. exact Hparse.
  - rewrite (bind_ok _ _ _ _ _ (bind_ok _ _ _ _ _ Hex)).
    cbn [ret fst status_of_reply]. rewrite Z.eqb_refl. reflexivity.
Qed.

Lemma request_status_takes_any_reply_witness :
  _parse_frame reply_2_absent = Ok (Some (CMD_GET_STS, 2, [STATE_ABSENT]))
  /\ fst (request_status 1 (hw_radio, env_receiving [ReadData reply_2_absent]))
     = Ok STATE_ABSENT.
Proof.
  assert (Hp : _parse_frame reply_2_absent = Ok (Some (CMD_GET_STS, 2, [STATE_ABSENT])))
    by reflexivity.
  split; [exact Hp |].
  apply (request_status_takes_any_reply 1 2 STATE_ABSENT hw_radio
           (env_receiving [ReadData reply_2_absent])
           [] [0x01; 0x20; 0x02; 0x01; 0x02; 0x20] [] []).
  - unfold GROUP_IDS. rewrite !elem_of_cons. auto.
  - reflexivity.
  - reflexivity.
  - reflexivity.
  - apply not_elem_of_nil.
  - unfold END_BYTE. rewrite !not_elem_of_cons.
    repeat split; try lia. apply not_elem_of_nil.
  - exact Hp.
Defined.

Lemma index_of_absent (b : Z) (l : bytes) : b ∉ l -> index_of b l = None.
Proof.
  induction l as [| x l IH]; intros Hb; [reflexivity |].
  rewrite not_elem_of_cons in Hb. destruct Hb as [Hne Hb]. cbn [index_of].
  destruct (x =? b) eqn:E; [apply Z.eqb_eq in E; congruence |].
  rewrite IH by assumption. reflexivity.
Qed.

(** The first piece of a frame alone: a start marker and no end marker
    yet, nothing to parse. *)
Lemma _scan_incomplete (pre : bytes) :
  END_BYTE ∉ pre -> _scan (START_BYTE :: pre) = Ok None.
Proof.
  intros He. unfold _scan.
  assert (Fs : find (START_BYTE :: pre) START_BYTE 0 = 0).
  { change (START_BYTE :: pre) with ([] ++ START_BYTE :: pre).
    rewrite find_first by apply not_elem_of_nil. reflexivity. }
  assert (Fe : find (START_BYTE :: pre) END_BYTE 1 = -1).
  { unfold find. pose proof (len_nonneg pre).
    rewrite clamp_index_id
      by (change (START_BYTE :: pre) with ([START_BYTE] ++ pre);
          rewrite len_app; change (len [START_BYTE]) with 1; lia).
    change (Z.to_nat 1) with 1%nat. cbn [drop].
    rewrite drop_0, index_of_absent by assumption. reflexivity. }
  cbv zeta. rewrite Fs. change (0 + 1) with 1. rewrite Fe. reflexivity.
Qed.

(** X15. A reply that arrives in two reads is put together: when the
    first read brings the beginning of a frame and the next read the
    rest, the exchange returns the frame, provided the timeout leaves
    room for the 5 ms between the two reads. *)
Theorem exchange_reassembles_split_reply (cmd gid : Z) (payload : bytes)
    (timeout_ms : Z) (r : Radio) (e : Env) (c1 c2 body : bytes)
    (rest : list UartRead) (f : frame) :
  simulate r = false ->
  uart r = true ->
  0 <= cmd <= 255 ->
  len payload <= MAX_LEN - 7 ->
  5 < timeout_ms ->
  uart_rx e = ReadData c1 :: ReadData c2 :: rest ->
  c1 <> [] ->
  c2 <> [] ->
  c1 ++ c2 = START_BYTE :: body ++ [END_BYTE] ->
  END_BYTE ∉ body ->
  _parse_frame (c1 ++ c2) = Ok (Some f) ->
  fst (_exchange cmd gid payload timeout_ms (r, e)) = Ok (Some f).
Proof.
  intros Hsim Hu Hcmd Hlen Ht Hrx Hn1 Hn2 Hsplit He Hparse. unfold _exchange.
  rewrite (bind_ok _ _ _ _ _ (simulate_run r e)). rewrite Hsim.
  rewrite _mk_frame_bytes by assumption.
  set (frm := _ ++ _ ++ _).
  erewrite bind_ok by reflexivity.
  destruct (_write_steady frm r e)
    as (n & r1 & e1 & Hw & Hs1 & Hu1 & Hk1 & Hc1 & Hrx1).
  rewrite (bind_ok _ _ _ _ _ Hw).
  rewrite (bind_ok _ _ _ _ _ (_ticks_run r1 e1)).
  (* the first piece *)
  destruct c1 as [| x pre]; [contradiction |].
  assert (Hx : x = START_BYTE /\ pre ++ c2 = body ++ [END_BYTE]).
  { cbn [app] in Hsplit. injection Hsplit as -> Hrest. split; [reflexivity | exact Hrest]. }
  destruct Hx as [-> Hrest].
  assert (Hpre : END_BYTE ∉ pre).
  { destruct (exists_last Hn2) as (c2' & l & ->).
    rewrite app_assoc in Hrest. apply app_inj_tail in Hrest as [Hbody _].
    intros Hin. apply He. rewrite <- Hbody. apply elem_of_app. left. exact Hin. }
  assert (Hrd1 : _read_all (r1, e1)
                 = (Ok (START_BYTE :: pre), after_read r1 e1 (ReadData c2 :: rest))).
  { apply _read_all_data; [congruence | congruence | congruence | discriminate]. }
  destruct (Z.to_nat timeout_ms) as [| fuel] eqn:Efuel; [lia |].
  rewrite (_exchange_loop_turn _ (clock e1) timeout_ms [] (START_BYTE :: pre)
             r1 _ e1 _ None ltac:(lia) Hrd1 (_scan_incomplete pre Hpre)).
  (* the second piece *)
  cbn [after_read fst snd].
  set (r2 := set_stats _ r1).
  set (e2 := slept 5 _).
  assert (Hrd2 : _read_all (r2, e2) = (Ok c2, after_read r2 e2 rest)).
  { apply _read_all_data; [subst r2; cbn; congruence | subst r2; cbn; congruence
                           | reflexivity | exact Hn2]. }
  assert (Ht2 : clock e2 - clock e1 < timeout_ms)
    by (subst e2; cbn [slept clock]; lia).
  rewrite (_exchange_loop_turn _ (clock e1) timeout_ms ([] ++ START_BYTE :: pre) c2
             r2 _ e2 _ (Some f) Ht2 Hrd2).
  - reflexivity.
  - destruct c2 as [| y c2']; [contradiction |].
    cbn [app] in *. rewrite Hrest.
    change (START_BYTE :: body ++ [END_BYTE])
      with ([] ++ (START_BYTE :: body ++ [END_BYTE])).
    rewrite <- (app_nil_r ([] ++ (START_BYTE :: body ++ [END_BYTE]))), <- app_assoc.
    rewrite _scan_candidate by (try apply not_elem_of_nil; assumption).
    rewrite <- Hparse. cbn [app]. rewrite Hrest. reflexivity.
Qed.

Lemma exchange_reassembles_split_reply_witness :
  fst (_exchange CMD_GET_STS 1 [] 500
         (hw_radio,
          env_receiving [ReadData [0xA5; 0x01; 0x20];
                         ReadData [0x01; 0x01; 0x01; 0x20; 0x5A]]))
  = Ok (Some (CMD_GET_STS, 1, [STATE_PRESENT])).
Proof.
  apply (exchange_reassembles_split_reply CMD_GET_STS 1 [] 500 hw_radio _
           [0xA5; 0x01; 0x20] [0x01; 0x01; 0x01; 0x20; 0x5A]
           [0x01; 0x20; 0x01; 0x01; 0x01; 0x20] []).
  - reflexivity.
  - reflexivity.
  - unfold CMD_GET_STS. lia.
  - vm_compute. discriminate.
  - lia.
  - reflexivity.
  - discriminate.
  - discriminate.
  - reflexivity.
  - unfold END_BYTE. rewrite !not_elem_of_cons.
    repeat split; try lia. apply not_elem_of_nil.
  - reflexivity.
Defined.

End Replies.

(** ** Simulation *)

Section Simulation.
Import ta_config ta_radio_433.

Lemma sim_states_sound_insert (m : gmap Z Z) (gid v : Z) :
  sim_states_sound m ->
  v = STATE_PRESENT \/ v = STATE_ABSENT ->
  sim_states_sound (<[gid := v]> m).
Proof.
  intros Hm Hv g w. rewrite lookup_insert.
  destruct (decide (gid = g)); [intros [= <-]; exact Hv | apply Hm].
Qed.

Lemma _sleep_keeps_writes (ms : Z) (e : Env) :
  count_writes (log (slept ms e)) = count_writes (log e).
Proof. cbn [slept log]. rewrite count_writes_app. cbn. lia. Qed.

(** X16. In simulation a single exchange never fails and never touches
    the UART or the statistics: it answers PING with OK, SET_MODE with
    ACK, GET_STS with the state of the device as the simulation table
    holds it after the call (UNKNOWN for a device that is not in the
    table), and any other command with [None].  It may flip the state
    of the device asked, and nothing else in the table: the table keeps
    its keys, and its states stay PRESENT or ABSENT. *)
Theorem exchange_simulated (cmd gid : Z) (payload : bytes) (timeout_ms : Z)
    (r : Radio) (e : Env) :
  simulate r = true ->
  sim_states_sound (_sim_states r) ->
  exists r' e',
    _exchange cmd gid payload timeout_ms (r, e)
    = (Ok (simulated_reply cmd gid (_sim_states r')), (r', e'))
    /\ simulate r' = true
    /\ stats r' = stats r
    /\ sim_states_sound (_sim_states r')
    /\ dom (_sim_states r') = dom (_sim_states r)
    /\ (forall g, g <> gid -> _sim_states r' !! g = _sim_states r !! g)
    /\ count_writes (log e') = count_writes (log e)
    /\ uart_rx e' = uart_rx e.
Proof.
  intros Hsim Hsound. unfold _exchange, simulated_reply.
  rewrite (bind_ok _ _ _ _ _ (simulate_run r e)). rewrite Hsim.
  destruct (cmd =? CMD_PING) eqn:Eping.
  { destruct (_randbits_range 6 r e ltac:(lia))
      as (x & e1 & Hx & _ & _ & Hl1 & _ & Hr1).
    rewrite (bind_ok _ _ _ _ _ Hx).
    rewrite (bind_ok _ _ _ _ _ (_sleep_ms_run _ r e1)).
    eexists r, _. split; [reflexivity |].
    rewrite _sleep_keeps_writes, Hl1. cbn [slept uart_rx]. repeat split; assumption. }
  destruct (cmd =? CMD_GET_STS) eqn:Ests.
  2:{ destruct (cmd =? CMD_SET_MODE);
        (eexists r, e; split; [reflexivity |]; repeat split; assumption). }
  destruct (_randbits_range 7 r e ltac:(lia))
    as (x & e1 & Hx & _ & _ & Hl1 & _ & Hr1).
  rewrite (bind_ok _ _ _ _ _ Hx).
  rewrite (bind_ok _ _ _ _ _ (_sleep_ms_run _ r e1)).
  erewrite bind_ok by reflexivity. cbn [fst].
  destruct (_randbits_range 4 r (slept (50 + x) e1) ltac:(lia))
    as (y & e2 & Hy & _ & _ & Hl2 & _ & Hr2).
  rewrite (bind_ok _ _ _ _ _ Hy).
  assert (Hw : count_writes (log e2) = count_writes (log e)).
  { rewrite Hl2, _sleep_keeps_writes, Hl1. reflexivity. }
  assert (Hrx : uart_rx e2 = uart_rx e) by (rewrite Hr2; cbn [slept uart_rx]; exact Hr1).
  destruct (_sim_states r !! gid) as [st |] eqn:Est; cbn [default].
  - destruct (Hsound gid st Est) as [-> | ->].
    + (* present *)
      destruct (y =? 0); cbn [andb negb].
      * change (STATE_PRESENT =? STATE_UNKNOWN) with false.
        change (STATE_PRESENT =? STATE_ABSENT) with false. cbn [negb].
        erewrite bind_ok by reflexivity.
        exists (set_sim_states (<[gid := STATE_ABSENT]> (_sim_states r)) r), e2.
        cbn [_sim_states set_sim_states].
        rewrite lookup_insert_eq. cbn [default].
        split; [reflexivity |]. cbn [simulate stats set_sim_states].
        split; [assumption |]. split; [reflexivity |].
        split; [apply sim_states_sound_insert; [assumption | right; reflexivity] |].
        split; [apply dom_insert_lookup_L; eauto |].
        split; [intros g Hg; apply lookup_insert_ne; congruence |].
        split; assumption.
      * erewrite bind_ok by reflexivity.
        eexists r, e2. rewrite Est. cbn [default].
        split; [reflexivity |]. repeat split; assumption.
    + (* absent *)
      destruct (y =? 0); cbn [andb negb].
      * change (STATE_ABSENT =? STATE_UNKNOWN) with false.
        change (STATE_ABSENT =? STATE_ABSENT) with true. cbn [negb].
        erewrite bind_ok by reflexivity.
        exists (set_sim_states (<[gid := STATE_PRESENT]> (_sim_states r)) r), e2.
        cbn [_sim_states set_sim_states].
        rewrite lookup_insert_eq. cbn [default].
        split; [reflexivity |]. cbn [simulate stats set_sim_states].
        split; [assumption |]. split; [reflexivity |].
        split; [apply sim_states_sound_insert; [assumption | left; reflexivity] |].
        split; [apply dom_insert_lookup_L; eauto |].
        split; [intros g Hg; apply lookup_insert_ne; congruence |].
        split; assumption.
      * erewrite bind_ok by reflexivity.
        eexists r, e2. rewrite Est. cbn [default].
        split; [reflexivity |]. repeat split; assumption.
  - (* a device the table does not hold *)
    change (STATE_UNKNOWN =? STATE_UNKNOWN) with true. rewrite andb_false_r.
    erewrite bind_ok by reflexivity.
    eexists r, e2. rewrite Est. cbn [default].
    split; [reflexivity |]. repeat split; assumption.
Qed.

Lemma fresh_states_sound : sim_states_sound fresh_states.
Proof.
  intros gid v. unfold fresh_states. cbn [fold_left GROUP_IDS].
  rewrite !lookup_insert_Some, lookup_empty. intros H. left.
  repeat (destruct H as [[_ <-] | [_ H]]; [reflexivity |]). discriminate.
Qed.

Lemma exchange_simulated_witness :
  exists r' e',
    _exchange CMD_GET_STS 1 [] 500 (sim_radio, env_receiving [])
    = (Ok (simulated_reply CMD_GET_STS 1 (_sim_states r')), (r', e'))
    /\ simulate r' = true
    /\ stats r' = stats sim_radio
    /\ sim_states_sound (_sim_states r')
    /\ dom (_sim_states r') = dom (_sim_states sim_radio)
    /\ (forall g, g <> 1 -> _sim_states r' !! g = _sim_states sim_radio !! g)
    /\ count_writes (log e') = count_writes (log (env_receiving []))
    /\ uart_rx e' = uart_rx (env_receiving []).
Proof.
  apply (exchange_simulated CMD_GET_STS 1 [] 500 sim_radio (env_receiving []));
    [reflexivity | exact fresh_states_sound].
Defined.

(** In simulation a ping always succeeds: it returns [True] after
    a pause of 50 to 113 ms, leaves the radio as it is and sends
    nothing. *)
Theorem ping_simulated (r : Radio) (e : Env) :
  simulate r = true ->
  exists e',
    ping (r, e) = (Ok true, (r, e'))
    /\ clock e + 50 <= clock e' <= clock e + 113
    /\ count_writes (log e') = count_writes (log e)
    /\ uart_tx e' = uart_tx e.
Proof.
  intros Hsim.
  destruct (_randbits_range 6 r e ltac:(lia))
    as (x & e1 & Hx & Hxr & Hc1 & Hl1 & Ht1 & _).
  assert (Hex : _exchange CMD_PING 0 [] REPLY_TIMEOUT_MS (r, e)
                = (Ok (Some (CMD_PING, 0, b_OK)), (r, slept (50 + Z.land x 63) e1))).
  { unfold _exchange.
    rewrite (bind_ok _ _ _ _ _ (simulate_run r e)). rewrite Hsim.
    change (CMD_PING =? CMD_PING) with true. cbv iota.
    rewrite (bind_ok _ _ _ _ _ Hx).
    rewrite (bind_ok _ _ _ _ _ (_sleep_ms_run _ r e1)). reflexivity. }
  unfold ping. rewrite (bind_ok _ _ _ _ _ Hex).
  exists (slept (50 + Z.land x 63) e1). split; [reflexivity |].
  rewrite _sleep_keeps_writes, Hl1. cbn [slept clock uart_tx]. rewrite Hc1.
  assert (Hland : 0 <= Z.land x 63 <= 63).
  { assert (Hm : Z.land x 63 = x mod 2 ^ 6) by (apply (Z.land_ones x 6); lia).
    rewrite Hm. change (2 ^ 6) with 64.
    pose proof (Z.mod_pos_bound x 64 ltac:(lia)). lia. }
  repeat split; try lia. assumption.
Qed.

Lemma ping_simulated_witness :
  exists e',
    ping (sim_radio, env_receiving []) = (Ok true, (sim_radio, e'))
    /\ clock (env_receiving []) + 50 <= clock e' <= clock (env_receiving []) + 113
    /\ count_writes (log e') = count_writes (log (env_receiving []))
    /\ uart_tx e' = uart_tx (env_receiving []).
Proof.
  apply (ping_simulated sim_radio (env_receiving [])). reflexivity.
Defined.

End Simulation.

(** ** Presence of the radio module *)

Section Hardware.
Import ta_config ta_radio_433.

Lemma ping_advances (r : Radio) (e : Env) :
  simulate r = false ->
  exists ok cs e',
    ping (r, e) = (Ok ok, (advanced cs r, e')) /\ Forall radio_call cs.
Proof.
  intros Hsim.
  destruct (_exchange_advances CMD_PING 0 [] REPLY_TIMEOUT_MS r e Hsim)
    as (res & cs & e' & Hex & Hcs & _); [cbv; split; discriminate | cbv; discriminate |].
  unfold ping. rewrite (bind_ok _ _ _ _ _ Hex).
  eexists _, cs, e'. split; [reflexivity | exact Hcs].
Qed.

Lemma check_pings_advances (n : nat) (r : Radio) (e : Env) :
  simulate r = false ->
  exists ok cs e',
    check_pings n (r, e) = (Ok ok, (advanced cs r, e')) /\ Forall radio_call cs.
Proof.
  intros Hsim. revert r e Hsim. induction n as [| n IH]; intros r e Hsim.
  - exists false, [], e. rewrite advanced_nil. split; [reflexivity | constructor].
  - destruct (ping_advances r e Hsim) as (ok & cs & e1 & Hp & Hcs).
    cbn [check_pings]. rewrite (bind_ok _ _ _ _ _ Hp). destruct ok.
    + exists true, cs, e1. split; [reflexivity | exact Hcs].
    + rewrite (bind_ok _ _ _ _ _ (_sleep_ms_run _ _ e1)).
      destruct (IH (advanced cs r) (slept 100 e1)) as (ok & cs' & e2 & Hrest & Hcs');
        [exact Hsim |].
      exists ok, (cs ++ cs'), e2. rewrite <- advanced_app.
      split; [exact Hrest | apply Forall_app; split; assumption].
Qed.

(** The check never raises, whatever the link does. *)
Lemma check_hardware_advances (r : Radio) (e : Env) :
  exists ok cs e',
    check_hardware (r, e) = (Ok ok, (advanced cs r, e'))
    /\ Forall radio_call cs
    /\ (simulate r = true -> ok = true /\ e' = e).
Proof.
  unfold check_hardware. rewrite (bind_ok _ _ _ _ _ (simulate_run r e)).
  destruct (simulate r) eqn:Hsim.
  - exists true, [], e. rewrite advanced_nil.
    split; [reflexivity |]. split; [constructor | auto].
  - destruct (check_pings_advances 3 r e Hsim) as (ok & cs & e' & H & Hcs).
    exists ok, cs, e'. split; [exact H |]. split; [exact Hcs | discriminate].
Qed.

Lemma ping_unanswered (r : Radio) (e : Env) :
  simulate r = false ->
  uart r = true ->
  uart_rx e = [] ->
  exists b e',
    ping (r, e) = (Ok false, (advanced [CallTx b; CallTimeout] r, e'))
    /\ clock e' = clock e + 500
    /\ uart_rx e' = []
    /\ count_writes (log e') = S (count_writes (log e)).
Proof.
  intros Hsim Hu Hrx.
  destruct (_exchange_unanswered CMD_PING 0 [] REPLY_TIMEOUT_MS r e Hsim Hu Hrx)
    as (b & e' & Hex & Hc & Hrx' & Hw); [cbv; split; discriminate | cbv; discriminate |].
  unfold ping. rewrite (bind_ok _ _ _ _ _ Hex).
  exists b, e'. split; [reflexivity |]. split; [exact Hc |]. split; assumption.
Qed.

Lemma check_pings_unanswered (n : nat) (r : Radio) (e : Env) :
  simulate r = false ->
  uart r = true ->
  uart_rx e = [] ->
  exists cs e',
    check_pings n (r, e) = (Ok false, (advanced cs r, e'))
    /\ clock e' = clock e + 600 * Z.of_nat n
    /\ count_writes (log e') = (count_writes (log e) + n)%nat
    /\ (forall s, timeouts (after_calls cs s) = timeouts s + Z.of_nat n).
Proof.
  intros Hsim Hu. revert r e Hsim Hu. induction n as [| n IH]; intros r e Hsim Hu Hrx.
  - exists [], e. rewrite advanced_nil. split; [reflexivity |].
    split; [lia |]. split; [lia |]. intros s. cbn. lia.
  - destruct (ping_unanswered r e Hsim Hu Hrx) as (b & e1 & Hp & Hc1 & Hrx1 & Hw1).
    cbn [check_pings]. rewrite (bind_ok _ _ _ _ _ Hp).
    rewrite (bind_ok _ _ _ _ _ (_sleep_ms_run _ _ e1)).
    destruct (IH (advanced [CallTx b; CallTimeout] r) (slept 100 e1))
      as (cs & e2 & Hrest & Hc2 & Hw2 & Ht2); [exact Hsim | exact Hu | exact Hrx1 |].
    exists ([CallTx b; CallTimeout] ++ cs), e2. rewrite <- advanced_app.
    split; [exact Hrest |].
    split; [rewrite Hc2; cbn [slept clock]; lia |].
    split; [rewrite Hw2, _sleep_keeps_writes, Hw1; lia |].
    intros s. rewrite after_calls_app, Ht2.
    destruct b; cbn; lia.
Qed.

Lemma check_hardware_unanswered (r : Radio) (e : Env) :
  simulate r = false ->
  uart r = true ->
  uart_rx e = [] ->
  exists cs e',
    check_hardware (r, e) = (Ok false, (advanced cs r, e'))
    /\ clock e' = clock e + 1800
    /\ count_writes (log e') = (count_writes (log e) + 3)%nat
    /\ (forall s, timeouts (after_calls cs s) = timeouts s + 3).
Proof.
  intros Hsim Hu Hrx. unfold check_hardware.
  rewrite (bind_ok _ _ _ _ _ (simulate_run r e)). rewrite Hsim.
  destruct (check_pings_unanswered 3 r e Hsim Hu Hrx) as (cs & e' & H & Hc & Hw & Ht).
  exists cs, e'. split; [exact H |]. split; [rewrite Hc; lia |].
  split; [exact Hw | exact Ht].
Qed.

(** X17. On the physical link, when nothing is received, the check of
    the radio module gives up after exactly three pings: it returns
    [False], has sent three frames, has taken 1800 ms (three waits of
    500 ms, each followed by a pause of 100 ms), has counted three
    timeouts when statistics are kept, and leaves the radio on the
    physical link. *)
Theorem check_hardware_silent (r : Radio) (e : Env) :
  simulate r = false ->
  uart r = true ->
  uart_rx e = [] ->
  exists r' e',
    check_hardware (r, e) = (Ok false, (r', e'))
    /\ simulate r' = false
    /\ clock e' = clock e + 1800
    /\ count_writes (log e') = (count_writes (log e) + 3)%nat
    /\ (stats r <> None -> timeouts_of r' = timeouts_of r + 3).
Proof.
  intros Hsim Hu Hrx.
  destruct (check_hardware_unanswered r e Hsim Hu Hrx) as (cs & e' & H & Hc & Hw & Ht).
  exists (advanced cs r), e'. split; [exact H |].
  split; [exact Hsim |]. split; [exact Hc |]. split; [exact Hw |].
  intros Hs. apply (timeouts_of_advanced cs r 3); assumption.
Qed.

Lemma check_hardware_silent_witness :
  exists r' e',
    check_hardware (hw_radio, env_receiving []) = (Ok false, (r', e'))
    /\ simulate r' = false
    /\ clock e' = clock (env_receiving []) + 1800
    /\ count_writes (log e') = (count_writes (log (env_receiving [])) + 3)%nat
    /\ (stats hw_radio <> None -> timeouts_of r' = timeouts_of hw_radio + 3).
Proof.
  apply (check_hardware_silent hw_radio (env_receiving [])); reflexivity.
Defined.

(** X18. On the physical link, when the first bytes received hold a
    well-formed ping reply (command PING, payload OK, from any id), the
    check of the radio module returns [True] at its first ping, before
    any time has passed. *)
Theorem check_hardware_answered (r : Radio) (e : Env)
    (chunk : bytes) (rest : list UartRead) (gid : Z) :
  simulate r = false ->
  uart r = true ->
  uart_rx e = ReadData chunk :: rest ->
  chunk <> [] ->
  _scan chunk = Ok (Some (CMD_PING, gid, b_OK)) ->
  exists r' e',
    check_hardware (r, e) = (Ok true, (r', e'))
    /\ clock e' = clock e.
Proof.
  intros Hsim Hu Hrx Hne Hscan. unfold check_hardware.
  rewrite (bind_ok _ _ _ _ _ (simulate_run r e)). rewrite Hsim.
  destruct (_exchange_answered CMD_PING 0 [] REPLY_TIMEOUT_MS r e chunk rest
              (CMD_PING, gid, b_OK) Hsim Hu)
    as (r' & e' & Hex & Hc); try assumption;
    [cbv; split; discriminate | cbv; discriminate | reflexivity |].
  cbn [check_pings]. unfold ping.
  rewrite (bind_ok _ _ _ _ _ (bind_ok _ _ _ _ _ Hex)).
  exists r', e'. split; [reflexivity | exact Hc].
Qed.

Lemma check_hardware_answered_witness :
  exists r' e',
    check_hardware (hw_radio, env_receiving [ReadData reply_ping_ok])
    = (Ok true, (r', e'))
    /\ clock e' = clock (env_receiving [ReadData reply_ping_ok]).
Proof.
  apply (check_hardware_answered hw_radio (env_receiving [ReadData reply_ping_ok])
           reply_ping_ok [] 0);
    [reflexivity | reflexivity | reflexivity | discriminate | vm_compute; reflexivity].
Defined.

End Hardware.

(** ** Construction of the radio *)

Section Construction.
Import ta_config ta_radio_433.

Lemma roll_sim_states_run (gids : list Z) (m : gmap Z Z) (r : Radio) (e : Env) :
  exists m' e',
    roll_sim_states gids m (r, e) = (Ok m', (r, e'))
    /\ dom m' = list_to_set gids ∪ dom m
    /\ (sim_states_sound m -> sim_states_sound m')
    /\ clock e' = clock e /\ log e' = log e
    /\ uart_tx e' = uart_tx e /\ uart_rx e' = uart_rx e.
Proof.
  revert m e. induction gids as [| gid rest IH]; intros m e.
  - exists m, e. split; [reflexivity |].
    split; [cbn [list_to_set]; rewrite (left_id_L ∅ (∪)); reflexivity |].
    repeat split; auto.
  - destruct (_randbits_range 1 r e ltac:(lia))
      as (x & e1 & Hx & _ & Hc1 & Hl1 & Ht1 & Hr1).
    cbn [roll_sim_states]. rewrite (bind_ok _ _ _ _ _ Hx).
    destruct (IH (<[gid := if x =? 1 then STATE_PRESENT else STATE_ABSENT]> m) e1)
      as (m' & e' & Hrun & Hdom & Hsound & Hc & Hl & Ht & Hr).
    exists m', e'. split; [exact Hrun |].
    split.
    { rewrite Hdom, dom_insert_L. cbn [list_to_set].
      rewrite (comm_L (∪) {[gid]} (list_to_set rest)), <- (assoc_L (∪)).
      reflexivity. }
    split.
    { intros Hm. apply Hsound, sim_states_sound_insert; [exact Hm |].
      destruct (x =? 1); [left | right]; reflexivity. }
    repeat split; congruence.
Qed.

Lemma try_except_ok {S A} (m h : M S A) (s s' : S) (a : A) :
  m s = (Ok a, s') -> try_except m h s = (Ok a, s').
Proof. intros H. unfold try_except. rewrite H. reflexivity. Qed.

Lemma try_except_raise {S A} (m h : M S A) (s s' : S) (x : exn) :
  m s = (Raise x, s') -> try_except m h s = h s'.
Proof. intros H. unfold try_except. rewrite H. reflexivity. Qed.

(** The attributes written before the UART is looked at. *)
Lemma __init___attributes (simulate_cfg uart_ctor_ok : bool) (r0 : Radio) (e : Env) :
  exists m e1,
    __init__ simulate_cfg uart_ctor_ok (r0, e)
    = ((if negb simulate_cfg then
          try_except
            ((if uart_ctor_ok then radio_do (set_uart true)
              else lift (Raise ValueError)) ;;
             let+ ok := check_hardware in
             if negb ok then radio_do (set_simulate true) else ret tt)
            (radio_do (set_simulate true))
        else ret tt) ;;
       ret tt)
        ({| simulate := simulate_cfg; _tick := 0; _sim_states := m;
            stats := Some (RadioStats_.reset (clock e1)); uart := false |}, e1)
    /\ dom m = configured_ids
    /\ sim_states_sound m
    /\ clock e1 = clock e /\ log e1 = log e /\ uart_rx e1 = uart_rx e.
Proof.
  unfold __init__.
  erewrite bind_ok by reflexivity.
  erewrite bind_ok by reflexivity.
  destruct (roll_sim_states_run GROUP_IDS ∅
              (set_tick 0 (set_simulate simulate_cfg r0)) e)
    as (m & e1 & Hroll & Hdom & Hsound & Hc1 & Hl1 & _ & Hr1).
  rewrite (bind_ok _ _ _ _ _ Hroll).
  erewrite bind_ok by reflexivity.
  erewrite bind_ok by reflexivity.
  erewrite bind_ok by reflexivity.
  erewrite bind_ok by reflexivity.
  erewrite bind_ok by reflexivity.
  exists m, e1. split; [reflexivity |].
  split; [rewrite Hdom, dom_empty_L, (right_id_L ∅ (∪)); reflexivity |].
  split; [apply Hsound; intros g v; rewrite lookup_empty; discriminate |].
  auto.
Qed.

(** X19. The constructor of the radio never raises, whatever the
    hardware does, and leaves a radio with its sweep counter at 0, a
    simulation table whose keys are exactly the configured ids and
    whose states are PRESENT or ABSENT, and statistics that are sound.
    The radio only stays on the physical link when simulation is not
    configured and the UART could be opened; when simulation is
    configured no UART is opened, nothing is sent and no time
    passes. *)
Theorem init_establishes (simulate_cfg uart_ctor_ok : bool) (r0 : Radio) (e : Env) :
  exists r e',
    __init__ simulate_cfg uart_ctor_ok (r0, e) = (Ok tt, (r, e'))
    /\ _tick r = 0
    /\ dom (_sim_states r) = configured_ids
    /\ sim_states_sound (_sim_states r)
    /\ stats r <> None
    /\ radio_stats_sound r
    /\ (simulate r = false ->
        simulate_cfg = false /\ uart_ctor_ok = true /\ uart r = true)
    /\ (simulate_cfg = true ->
        simulate r = true /\ uart r = false
        /\ clock e' = clock e /\ log e' = log e).
Proof.
  destruct (__init___attributes simulate_cfg uart_ctor_ok r0 e)
    as (m & e1 & -> & Hdom & Hsound & Hc1 & Hl1 & _).
  set (r1 := {| simulate := simulate_cfg; _tick := 0; _sim_states := m;
                stats := Some (RadioStats_.reset (clock e1)); uart := false |}).
  assert (Hst1 : radio_stats_sound r1).
  { unfold radio_stats_sound, r1. cbn [stats].
    split; [apply reset_sane | reflexivity]. }
  destruct simulate_cfg; cbn [negb].
  - (* simulation configured *)
    exists r1, e1. split; [reflexivity |].
    subst r1. cbn [_tick _sim_states stats simulate uart].
    repeat split; try assumption; try discriminate.
  - destruct uart_ctor_ok.
    + (* the UART opens: the module is looked for *)
      assert (Hopen : radio_do (set_uart true) (r1, e1)
                      = (Ok tt, (set_uart true r1, e1))) by reflexivity.
      destruct (check_hardware_advances (set_uart true r1) e1)
        as (ok & cs & e2 & Hchk & Hcs & _).
      assert (Hst2 : radio_stats_sound (advanced cs (set_uart true r1))).
      { apply advanced_sound; [exact Hcs | exact Hst1]. }
      destruct ok.
      * erewrite bind_ok;
          [| apply try_except_ok;
             rewrite (bind_ok _ _ _ _ _ Hopen), (bind_ok _ _ _ _ _ Hchk);
             reflexivity].
        eexists _, e2. split; [reflexivity |].
        split; [reflexivity |]. split; [exact Hdom |]. split; [exact Hsound |].
        split; [discriminate |]. split; [exact Hst2 |].
        split; [auto | discriminate].
      * erewrite bind_ok;
          [| apply try_except_ok;
             rewrite (bind_ok _ _ _ _ _ Hopen), (bind_ok _ _ _ _ _ Hchk);
             reflexivity].
        eexists _, e2. split; [reflexivity |].
        split; [reflexivity |]. split; [exact Hdom |]. split; [exact Hsound |].
        split; [discriminate |]. split; [exact Hst2 |].
        split; discriminate.
    + (* the UART cannot be opened *)
      erewrite bind_ok;
        [| erewrite try_except_raise by reflexivity; reflexivity].
      eexists _, e1. split; [reflexivity |].
      split; [reflexivity |]. split; [exact Hdom |]. split; [exact Hsound |].
      split; [discriminate |]. split; [exact Hst1 |].
      split; discriminate.
Qed.

(** X20. When simulation is not configured, the constructor falls back
    to simulation if the UART cannot be opened (at once, with nothing
    sent) or if nothing is received on it (after the three pings of
    the check, 1800 ms later). *)
Theorem init_falls_back_to_simulation (uart_ctor_ok : bool) (r0 : Radio) (e : Env) :
  uart_ctor_ok = false \/ uart_rx e = [] ->
  exists r e',
    __init__ false uart_ctor_ok (r0, e) = (Ok tt, (r, e'))
    /\ simulate r = true
    /\ uart r = uart_ctor_ok
    /\ clock e' = clock e + (if uart_ctor_ok then 1800 else 0)
    /\ count_writes (log e')
       = (count_writes (log e) + (if uart_ctor_ok then 3 else 0))%nat.
Proof.
  intros Hcase.
  destruct (__init___attributes false uart_ctor_ok r0 e)
    as (m & e1 & -> & _ & _ & Hc1 & Hl1 & Hr1).
  set (r1 := {| simulate := false; _tick := 0; _sim_states := m;
                stats := Some (RadioStats_.reset (clock e1)); uart := false |}).
  cbn [negb].
  destruct uart_ctor_ok.
  - destruct Hcase as [Hno | Hrx]; [discriminate |].
    assert (Hopen : radio_do (set_uart true) (r1, e1)
                    = (Ok tt, (set_uart true r1, e1))) by reflexivity.
    destruct (check_hardware_unanswered (set_uart true r1) e1)
      as (cs & e2 & Hchk & Hc2 & Hw2 & _);
      [reflexivity | reflexivity | congruence |].
    erewrite bind_ok;
      [| apply try_except_ok;
         rewrite (bind_ok _ _ _ _ _ Hopen), (bind_ok _ _ _ _ _ Hchk);
         reflexivity].
    eexists _, e2. split; [reflexivity |].
    cbn [simulate uart set_simulate].
    split; [reflexivity |]. split; [reflexivity |].
    split; [lia |]. rewrite Hw2, Hl1. reflexivity.
  - erewrite bind_ok;
      [| erewrite try_except_raise by reflexivity; reflexivity].
    eexists _, e1. split; [reflexivity |].
    cbn [simulate uart set_simulate r1].
    split; [reflexivity |]. split; [reflexivity |].
    split; [lia |]. rewrite Hl1. lia.
Qed.

Lemma init_falls_back_to_simulation_witness :
  exists r e',
    __init__ false true (blank_radio, env_receiving []) = (Ok tt, (r, e'))
    /\ simulate r = true
    /\ uart r = true
    /\ clock e' = clock (env_receiving []) + 1800
    /\ count_writes (log e') = (count_writes (log (env_receiving [])) + 3)%nat.
Proof.
  apply (init_falls_back_to_simulation true blank_radio (env_receiving [])).
  right. reflexivity.
Defined.

End Construction.

(** ** The terminal's table and its radio *)

Section TableUpdates.
Import ta_config ta_radio_433 ta_app.

(** An exception raised by the poll of the radio never leaves
    [_update_states]: it returns normally, has counted one error, keeps
    the table as it was and keeps what the radio had become when it
    raised. *)
Theorem update_states_absorbs_poll_failure (poll : M St (list DDStatus))
    (app : TaApp) (e : Env) (x : exn) (r' : Radio) (e' : Env) :
  poll (radio app, e) = (Raise x, (r', e')) ->
  exists app',
    _update_states_from poll (app, e) = (Ok tt, (app', e'))
    /\ error_count app' = error_count app + 1
    /\ states app' = states app
    /\ radio app' = r'
    /\ testing_id app' = testing_id app
    /\ loop_count app' = loop_count app.
Proof.
  intros Hpoll. unfold _update_states_from.
  erewrite try_except_raise.
  2:{ unfold bind, on_radio. rewrite Hpoll. reflexivity. }
  eexists. split; [reflexivity |]. repeat split.
Qed.

Lemma update_states_absorbs_poll_failure_witness :
  exists app',
    _update_states_from failing_poll (app_all_present, env_receiving [])
    = (Ok tt, (app', env_receiving []))
    /\ error_count app' = error_count app_all_present + 1
    /\ states app' = states app_all_present
    /\ radio app' = hw_radio_due
    /\ testing_id app' = testing_id app_all_present
    /\ loop_count app' = loop_count app_all_present.
Proof.
  apply (update_states_absorbs_poll_failure failing_poll app_all_present
           (env_receiving []) ValueError hw_radio_due (env_receiving [])).
  reflexivity.
Defined.

(** X21. With the radio of the terminal, [_update_states] always
    returns and never counts an error, whatever the link does: the
    radio has counted one more call, and between two sweeps the table
    is left exactly as it was. *)
Theorem update_states_counts_no_error (app : TaApp) (e : Env) :
  exists app' e',
    _update_states (app, e) = (Ok tt, (app', e'))
    /\ error_count app' = error_count app
    /\ testing_id app' = testing_id app
    /\ loop_count app' = loop_count app
    /\ _tick (radio app') = _tick (radio app) + 1
    /\ ((_tick (radio app) + 1) mod poll_period <> 0 -> states app' = states app).
Proof.
  destruct (poll_status_returns (radio app) e)
    as (out & r' & e' & Hpoll & Htick & Hout).
  unfold _update_states, _update_states_from.
  erewrite try_except_ok.
  2:{ erewrite bind_ok by (unfold on_radio; rewrite Hpoll; reflexivity).
      apply store_each_run. }
  eexists _, _. split; [reflexivity |]. cbn [error_count testing_id loop_count radio states].
  repeat split; try assumption.
  intros Hnot. apply Z.eqb_neq in Hnot. rewrite Hnot in Hout. subst out. reflexivity.
Qed.

Lemma store_each_mirrors (f : Z -> Z) (sts : list DDStatus) (m : gmap Z Z) (id : Z) :
  Forall (fun d => state d = f (dd_id d)) sts ->
  id ∈ map dd_id sts ->
  fold_left (fun m st => store_status st m) sts m !! id = Some (f id).
Proof.
  intros Hall. revert m. induction Hall as [| st rest Hst Hall IH]; intros m Hid.
  - apply elem_of_nil in Hid. contradiction.
  - cbn [map fold_left] in *.
    destruct (decide (id ∈ map dd_id rest)) as [Hin | Hout]; [apply IH; exact Hin |].
    apply elem_of_cons in Hid as [-> | Hin]; [| contradiction].
    rewrite store_each_other by exact Hout.
    unfold store_status. rewrite lookup_insert_eq, Hst. reflexivity.
Qed.

(** X22. In simulation, after a sweep that is due the table of the
    terminal mirrors the simulation table of the radio: every
    configured device has the state the simulation holds for it
    (UNKNOWN for a device the simulation does not know), and no error
    is counted. *)
Theorem update_states_mirrors_simulation (app : TaApp) (e : Env) :
  simulate (radio app) = true ->
  (_tick (radio app) + 1) mod poll_period = 0 ->
  exists app' e',
    _update_states (app, e) = (Ok tt, (app', e'))
    /\ (forall id, id ∈ GROUP_IDS ->
        states app' !! id
        = Some (default STATE_UNKNOWN (_sim_states (radio app) !! id)))
    /\ _sim_states (radio app') = _sim_states (radio app)
    /\ error_count app' = error_count app.
Proof.
  intros Hsim Hdue.
  assert (Hpoll : exists out e',
            poll_status (radio app, e)
            = (Ok out, (set_tick (_tick (radio app) + 1) (radio app), e'))
            /\ map dd_id out = GROUP_IDS
            /\ Forall (simulated_status (_sim_states (radio app))) out).
  { unfold poll_status.
    erewrite bind_ok by reflexivity.
    erewrite bind_ok by reflexivity.
    cbn [fst _tick set_tick]. rewrite Hdue. cbn [Z.eqb].
    destruct (poll_each_simulated GROUP_IDS []
                (set_tick (_tick (radio app) + 1) (radio app)) e Hsim)
      as (l & e' & Hrun & Hids & Hl & _).
    exists l, e'. split; [exact Hrun |]. split; [exact Hids | exact Hl]. }
  destruct Hpoll as (out & e' & Hpoll & Hids & Hall).
  unfold _update_states, _update_states_from.
  erewrite try_except_ok.
  2:{ erewrite bind_ok by (unfold on_radio; rewrite Hpoll; reflexivity).
      apply store_each_run. }
  eexists _, _. split; [reflexivity |]. cbn [error_count radio states].
  split; [| split; reflexivity].
  intros id Hid.
  apply (store_each_mirrors
           (fun g => default STATE_UNKNOWN (_sim_states (radio app) !! g))).
  - eapply Forall_impl; [exact Hall |]. intros d Hd. apply Hd.
  - rewrite Hids. exact Hid.
Qed.

Lemma update_states_mirrors_simulation_witness :
  exists app' e',
    _update_states (app_simulated, env_receiving []) = (Ok tt, (app', e'))
    /\ (forall id, id ∈ GROUP_IDS ->
        states app' !! id
        = Some (default STATE_UNKNOWN (_sim_states (radio app_simulated) !! id)))
    /\ _sim_states (radio app') = _sim_states (radio app_simulated)
    /\ error_count app' = error_count app_simulated.
Proof.
  apply (update_states_mirrors_simulation app_simulated (env_receiving []));
    reflexivity.
Defined.

End TableUpdates.

(** ** The detector: commands and watchdog *)

Section DetectorCommands.
Import dd_main.
Local Open Scope string_scope.

(** Runs the straight-line part of a detector computation. *)
Ltac dd_run :=
  repeat progress
    (cbv beta iota zeta delta
       [bind gets modify ret lift try_except led_value sleep_ms send_ack
        send_ack_id_change _uart_write_str uart_write bytes_of_str bump
        reset emit ticks_ms set_wdt_triggered _persist_id_to_nvs
        uart_accepts];
     cbn [fst snd led_ok log clock nvs_blob nvs_plan uart_plan DETECTOR_ID
          ok_count nok_count setid_ok_count setid_err_count last_loop_ts
          _wdt_triggered loop_count inc_ok inc_nok adopt_id inc_setid_err
          orb andb]).

(** X23. A POLL is taken as addressed exactly when it carries the
    identifier of the detector or, in any letter case, the word ALL:
    the counter of polls answered then goes up by one, also when the
    LED does not respond, and the one line [ACK:<own id>:1] is written
    when the UART write goes through; when that write raises, the poll
    is counted all the same and nothing is sent.  A POLL for another
    identifier writes nothing and is counted apart.  No POLL changes
    the identifier or what is persisted. *)
Theorem dispatch_poll_answers_when_addressed (det_id : string)
    (d : Detector) (h : Hw) :
  exists d' h',
    dispatch "POLL" det_id (d, h) = (Ok tt, (d', h'))
    /\ uart_lines (log h')
       = (uart_lines (log h)
          ++ (if addressed det_id d && uart_accepts h
              then [ack_line (DETECTOR_ID d)] else []))%list
    /\ ok_count d' = (ok_count d + (if addressed det_id d then 1 else 0))%Z
    /\ nok_count d' = (nok_count d + (if addressed det_id d then 0 else 1))%Z
    /\ DETECTOR_ID d' = DETECTOR_ID d
    /\ nvs_blob h' = nvs_blob h.
Proof.
  unfold dispatch, addressed. change ("POLL" =? "POLL") with true.
  change (measure_state =? 0)%Z with false. dd_run.
  destruct ((det_id =? DETECTOR_ID d) || (upper det_id =? "ALL")); dd_run.
  - destruct (uart_plan h) as [| [] urest] eqn:Eu; dd_run;
      destruct (led_ok h) eqn:Eled; dd_run;
      (eexists _, _; split; [reflexivity |]; dd_run;
       rewrite ?uart_lines_app; cbn [uart_lines]; rewrite ?app_nil_r;
       repeat split; lia).
  - eexists _, _. split; [reflexivity |]. dd_run.
    rewrite app_nil_r. repeat split; lia.
Qed.

(** X24. Whatever command and hardware it is given, the handling of a
    parsed line never raises, and counts the command exactly once: a
    POLL or a SETID adds one to exactly one of the four counters, any
    other command changes nothing.  The loop counter, the progress
    timestamp and the watchdog flag are not touched, and only a SETID
    can change the identifier or what is persisted. *)
Theorem dispatch_counts_each_command_once (cmd det_id : string)
    (d : Detector) (h : Hw) :
  exists d' h',
    dispatch cmd det_id (d, h) = (Ok tt, (d', h'))
    /\ counted d'
       = (counted d
          + (if ((cmd =? "POLL")%string || (cmd =? "SETID")%string)%bool
             then 1 else 0))%Z
    /\ (ok_count d <= ok_count d' /\ nok_count d <= nok_count d'
        /\ setid_ok_count d <= setid_ok_count d'
        /\ setid_err_count d <= setid_err_count d')%Z
    /\ loop_count d' = loop_count d
    /\ last_loop_ts d' = last_loop_ts d
    /\ _wdt_triggered d' = _wdt_triggered d
    /\ ((cmd =? "SETID") = false ->
        DETECTOR_ID d' = DETECTOR_ID d /\ nvs_blob h' = nvs_blob h).
Proof.
  unfold dispatch, counted. destruct (cmd =? "POLL") eqn:Epoll; cbn [orb].
  - dd_run.
    destruct ((det_id =? DETECTOR_ID d) || (upper det_id =? "ALL")); dd_run.
    + destruct (uart_plan h) as [| [] urest]; dd_run;
        destruct (led_ok h) eqn:Eled; dd_run;
        (eexists _, _; split; [reflexivity |]; dd_run; repeat split; lia).
    + eexists _, _. split; [reflexivity |]. dd_run. repeat split; lia.
  - destruct (cmd =? "SETID") eqn:Eset.
    + dd_run.
      destruct (nvs_plan h) as [| [] rest]; dd_run;
        destruct (uart_plan h) as [| [] urest]; dd_run;
        destruct (led_ok h) eqn:Eled; dd_run;
        (eexists _, _; split; [reflexivity |]; dd_run;
         repeat split; try lia; discriminate).
    + exists d, h. split; [reflexivity |]. repeat split; lia.
Qed.

Lemma _blink_led_runs (times : nat) (on_ms off_ms : Z) (d : Detector) (h : Hw) :
  led_ok h = true ->
  exists h',
    _blink_led times on_ms off_ms (d, h) = (Ok tt, (d, h'))
    /\ log h' = (log h ++ blink_events times on_ms off_ms)%list
    /\ clock h' = (clock h + Z.of_nat times * (Z.max 0 on_ms + Z.max 0 off_ms))%Z
    /\ led_ok h' = true
    /\ nvs_blob h' = nvs_blob h.
Proof.
  revert h. induction times as [| n IH]; intros h Hled.
  - exists h. split; [reflexivity |]. cbn [blink_events]. rewrite app_nil_r.
    repeat split; try assumption. lia.
  - cbn [_blink_led]. dd_run. rewrite Hled. dd_run.
    match goal with
    | |- context [_blink_led n on_ms off_ms (d, ?h1)] =>
        destruct (IH h1) as (h' & Hrun & Hlog & Hclock & Hled' & Hnvs);
          [reflexivity |]
    end.
    exists h'. split; [exact Hrun |].
    split; [rewrite Hlog; cbn [log blink_events]; rewrite <- !app_assoc; reflexivity |].
    split; [rewrite Hclock; cbn [clock]; lia |].
    split; [exact Hled' | rewrite Hnvs; reflexivity].
Qed.

Lemma _blink_led_fails (times : nat) (on_ms off_ms : Z) (d : Detector) (h : Hw) :
  led_ok h = false ->
  _blink_led (S times) on_ms off_ms (d, h) = (Raise ValueError, (d, h)).
Proof. intros Hled. cbn [_blink_led]. dd_run. rewrite Hled. reflexivity. Qed.

(** X25. When the checker of the watchdog finds the progress timestamp
    older than 30 s, it sets its flag and restarts the detector: after
    four blinks of the LED (80 ms on, 80 ms off: 640 ms in all) when the
    LED responds, and at once when it does not.  Nothing is written to
    the UART. *)
Theorem wdt_cb_blinks_then_resets (d : Detector) (h : Hw) :
  _wdt_triggered d = false ->
  past_deadline d (clock h) ->
  exists d' h',
    wdt_cb (d, h) = (Ok tt, (d', h'))
    /\ _wdt_triggered d' = true
    /\ log h'
       = (log h ++ (if led_ok h then blink_events 4 80 80 else []) ++ [EvReset])%list
    /\ clock h' = (clock h + (if led_ok h then 640 else 0))%Z.
Proof.
  intros Hflag Hlate. unfold wdt_cb.
  erewrite bind_ok by reflexivity. cbn [fst]. rewrite Hflag.
  erewrite bind_ok by reflexivity.
  erewrite bind_ok by reflexivity. cbn [fst snd].
  replace (ticks_diff (clock h) (last_loop_ts d) >? WATCHDOG_MS)%Z with true.
  2:{ symmetry. apply Z.gtb_lt. unfold past_deadline in Hlate. lia. }
  erewrite bind_ok by reflexivity.
  set (d1 := {| DETECTOR_ID := DETECTOR_ID d; loop_count := loop_count d;
                ok_count := ok_count d; nok_count := nok_count d;
                setid_ok_count := setid_ok_count d;
                setid_err_count := setid_err_count d;
                last_loop_ts := last_loop_ts d; _wdt_triggered := true |}).
  destruct (led_ok h) eqn:Eled.
  - destruct (_blink_led_runs 4 80 80 d1 h Eled) as (h' & Hrun & Hlog & Hclock & _).
    erewrite bind_ok by (apply try_except_ok; exact Hrun).
    eexists d1, _. split; [reflexivity |]. split; [reflexivity |].
    dd_run. rewrite Hlog, Hclock. split; [rewrite <- app_assoc; reflexivity | lia].
  - erewrite bind_ok
      by (erewrite try_except_raise by (apply (_blink_led_fails 3 80 80 d1 h Eled));
          reflexivity).
    eexists d1, _. split; [reflexivity |]. split; [reflexivity |].
    dd_run. split; [reflexivity | lia].
Qed.

Lemma wdt_cb_blinks_then_resets_witness :
  exists d' h',
    wdt_cb (booted "01", hw_overdue) = (Ok tt, (d', h'))
    /\ _wdt_triggered d' = true
    /\ log h'
       = (log hw_overdue
          ++ (if led_ok hw_overdue then blink_events 4 80 80 else []) ++ [EvReset])%list
    /\ clock h' = (clock hw_overdue + (if led_ok hw_overdue then 640 else 0))%Z.
Proof.
  apply (wdt_cb_blinks_then_resets (booted "01") hw_overdue);
    [reflexivity | unfold past_deadline; vm_compute; reflexivity].
Defined.

End DetectorCommands.

(** ** The detector: the main loop *)

Section DetectorLoop.
Import dd_main dd_loop.

Variable parse_line : bytes -> option (string * string).

Ltac dd_go :=
  repeat progress
    (cbv beta iota zeta delta
       [bind gets modify ret lift try_except led_value sleep_ms send_ack
        send_ack_id_change _uart_write_str uart_write bytes_of_str bump
        reset emit ticks_ms set_wdt_triggered _persist_id_to_nvs];
     cbn [fst snd led_ok log clock nvs_blob nvs_plan uart_plan DETECTOR_ID
          ok_count nok_count setid_ok_count setid_err_count last_loop_ts
          _wdt_triggered loop_count inc_ok inc_nok adopt_id inc_setid_err
          orb andb]).

(** Handling a parsed line returns, and leaves alone what the watchdog
    looks at. *)
Lemma dispatch_steady (cmd det_id : string) (d : Detector) (h : Hw) :
  exists d' h',
    dispatch cmd det_id (d, h) = (Ok tt, (d', h'))
    /\ loop_count d' = loop_count d
    /\ last_loop_ts d' = last_loop_ts d
    /\ _wdt_triggered d' = _wdt_triggered d
    /\ (clock h <= clock h')%Z.
Proof.
  unfold dispatch. destruct (cmd =? "POLL")%string.
  - dd_go.
    destruct ((det_id =? DETECTOR_ID d)%string || (upper det_id =? "ALL")%string);
      dd_go.
    + destruct (uart_plan h) as [| [] urest]; dd_go;
        destruct (led_ok h) eqn:Eled; dd_go;
        (eexists _, _; split; [reflexivity |]; dd_go; repeat split; lia).
    + eexists _, _. split; [reflexivity |]. dd_go. repeat split; lia.
  - destruct (cmd =? "SETID")%string.
    + dd_go.
      destruct (nvs_plan h) as [| [] rest]; dd_go;
        destruct (uart_plan h) as [| [] urest]; dd_go;
        destruct (led_ok h) eqn:Eled; dd_go;
        (eexists _, _; split; [reflexivity |]; dd_go; repeat split; lia).
    + exists d, h. split; [reflexivity |]. repeat split; lia.
Qed.

Lemma handle_lines_steady (lines : list bytes) (d : Detector) (h : Hw) :
  exists d' h',
    handle_lines parse_line lines (d, h) = (Ok tt, (d', h'))
    /\ loop_count d' = loop_count d
    /\ last_loop_ts d' = last_loop_ts d
    /\ _wdt_triggered d' = _wdt_triggered d
    /\ (clock h <= clock h')%Z.
Proof.
  revert d h. induction lines as [| l ls IH]; intros d h.
  - exists d, h. split; [reflexivity |]. repeat split; lia.
  - cbn [handle_lines]. destruct (parse_line l) as [[cmd det_id] |]; [| apply IH].
    destruct (dispatch_steady cmd det_id d h) as (d1 & h1 & Hd & Hl1 & Ht1 & Hw1 & Hc1).
    rewrite (bind_ok _ _ _ _ _ Hd).
    destruct (IH d1 h1) as (d2 & h2 & Hrun & Hl2 & Ht2 & Hw2 & Hc2).
    exists d2, h2. split; [exact Hrun |]. repeat split; try congruence. lia.
Qed.

Lemma find_absent (b : Z) (l : bytes) : b ∉ l -> find l b 0 = -1.
Proof.
  intros Hb. unfold find.
  rewrite clamp_index_id by (pose proof (len_nonneg l); lia).
  change (Z.to_nat 0) with 0%nat. rewrite drop_0.
  rewrite index_of_absent by assumption. reflexivity.
Qed.

Lemma slice_first_line (junk rest : bytes) :
  slice (junk ++ 10 :: rest) 0 (len junk + 1) = junk ++ [10].
Proof.
  pose proof (slice_middle [] (junk ++ [10]) rest) as H.
  rewrite len_app in H. change (len [10]) with 1 in H.
  change (len (@nil Z)) with 0 in H.
  rewrite <- app_assoc in H. exact H.
Qed.

Lemma slice_after_line (junk rest : bytes) :
  slice (junk ++ 10 :: rest) (len junk + 1) (len (junk ++ 10 :: rest)) = rest.
Proof.
  pose proof (slice_middle (junk ++ [10]) rest []) as H.
  rewrite app_nil_r, <- app_assoc in H. cbn [app] in H.
  rewrite !len_app in *. change (len [10]) with 1 in H.
  change (len (10 :: rest)) with (len ([10] ++ rest)). rewrite len_app.
  change (len [10]) with 1.
  replace (len junk + (1 + len rest)) with (len junk + 1 + len rest) by lia.
  exact H.
Qed.

Lemma process_lines_run (fuel : nat) (b : bytes) (rxs : list UartIn) (st : DdSt) :
  (length b < fuel)%nat ->
  exists lines rest st',
    process_lines parse_line fuel ({| buf := b; rx := rxs |}, st)
    = (Ok tt, ({| buf := rest; rx := rxs |}, st'))
    /\ handle_lines parse_line lines st = (Ok tt, st')
    /\ (concat lines ++ rest)%list = b
    /\ Forall complete_line lines
    /\ 10 ∉ rest.
Proof.
  revert b st. induction fuel as [| fuel IH]; intros b st Hlt; [lia |].
  cbn [process_lines]. erewrite bind_ok by reflexivity. cbn [fst buf].
  destruct (decide (10 ∈ b)) as [Hin | Hout].
  - apply list_elem_of_split_l in Hin as (junk & rest & -> & Hj).
    rewrite find_first by assumption.
    replace (len junk =? -1)%Z with false
      by (symmetry; apply Z.eqb_neq; pose proof (len_nonneg junk); lia).
    rewrite slice_first_line.
    assert (Hset : set_buf (fun b => slice b (len junk + 1) (len b))
                     ({| buf := junk ++ 10 :: rest; rx := rxs |}, st)
                   = (Ok tt, ({| buf := rest; rx := rxs |}, st))).
    { unfold set_buf, modify. cbn [buf rx]. rewrite slice_after_line. reflexivity. }
    rewrite (bind_ok _ _ _ _ _ Hset).
    assert (Hfuel : (length rest < fuel)%nat).
    { rewrite length_app in Hlt. cbn [length] in Hlt. lia. }
    destruct (parse_line (junk ++ [10])) as [[cmd det_id] |] eqn:Eparse.
    + destruct st as [d h].
      destruct (dispatch_steady cmd det_id d h) as (d1 & h1 & Hd & _).
      assert (Hon : on_detector (dispatch cmd det_id)
                      ({| buf := rest; rx := rxs |}, (d, h))
                    = (Ok tt, ({| buf := rest; rx := rxs |}, (d1, h1)))).
      { unfold on_detector. rewrite Hd. reflexivity. }
      rewrite (bind_ok _ _ _ _ _ Hon).
      destruct (IH rest (d1, h1) Hfuel) as (lines & rest' & st' & Hrun & Hh & Hcat & Hall & Hno).
      exists ((junk ++ [10]) :: lines), rest', st'.
      split; [exact Hrun |].
      split; [cbn [handle_lines]; rewrite Eparse, (bind_ok _ _ _ _ _ Hd); exact Hh |].
      split; [cbn [concat]; rewrite <- !app_assoc, Hcat; reflexivity |].
      split; [constructor; [exists junk; split; [reflexivity | exact Hj] | exact Hall] |].
      exact Hno.
    + destruct (IH rest st Hfuel) as (lines & rest' & st' & Hrun & Hh & Hcat & Hall & Hno).
      exists ((junk ++ [10]) :: lines), rest', st'.
      split; [exact Hrun |].
      split; [cbn [handle_lines]; rewrite Eparse; exact Hh |].
      split; [cbn [concat]; rewrite <- !app_assoc, Hcat; reflexivity |].
      split; [constructor; [exists junk; split; [reflexivity | exact Hj] | exact Hall] |].
      exact Hno.
  - rewrite find_absent by assumption. cbn [Z.eqb].
    exists [], b, st. split; [reflexivity |]. split; [reflexivity |].
    split; [reflexivity |]. split; [constructor | exact Hout].
Qed.

(** X26. When a turn of the main loop receives bytes, they are added to
    what was left in the buffer, and every complete line of the whole
    is handled, in order and exactly once; what follows the last
    newline stays in the buffer for a later turn.  No byte is lost or
    handled twice, and the turn ends with its pause of 10 ms. *)
Theorem loop_once_handles_complete_lines (io : Io) (st : DdSt)
    (data : bytes) (rxs : list UartIn) :
  rx io = InData (Some data) :: rxs ->
  data <> [] ->
  exists lines rest st',
    loop_once parse_line (io, st) = (Ok tt, ({| buf := rest; rx := rxs |}, st'))
    /\ (handle_lines parse_line lines ;; sleep_ms 10) (stamped st) = (Ok tt, st')
    /\ (concat lines ++ rest)%list = (buf io ++ data)%list
    /\ Forall complete_line lines
    /\ 10 ∉ rest.
Proof.
  intros Hrx Hdata. destruct io as [b rx0]. cbn [rx buf] in *. subst rx0.
  destruct st as [d h]. destruct data as [| x data']; [contradiction |].
  unfold loop_once, stamped. cbn [fst snd].
  assert (Hnow : on_detector ticks_ms
                   ({| buf := b; rx := InData (Some (x :: data')) :: rxs |}, (d, h))
                 = (Ok (clock h),
                    ({| buf := b; rx := InData (Some (x :: data')) :: rxs |}, (d, h))))
    by reflexivity.
  rewrite (bind_ok _ _ _ _ _ Hnow).
  assert (Hstamp : on_detector (bump (stamp (clock h)))
                     ({| buf := b; rx := InData (Some (x :: data')) :: rxs |}, (d, h))
                   = (Ok tt,
                      ({| buf := b; rx := InData (Some (x :: data')) :: rxs |},
                       (stamp (clock h) d, h))))
    by reflexivity.
  rewrite (bind_ok _ _ _ _ _ Hstamp).
  destruct (process_lines_run (S (length (b ++ x :: data'))) (b ++ x :: data') rxs
              (stamp (clock h) d, h) ltac:(lia))
    as (lines & rest & st1 & Hrun & Hh & Hcat & Hall & Hno).
  assert (Htry : try_except
            (let+ got := uart_any_read in
             match got with
             | None => ret tt
             | Some data =>
                 match data with
                 | Some (x :: data') =>
                     set_buf (fun b => (b ++ x :: data')%list) ;;
                     let+ b := gets (fun s : LoopSt => buf (fst s)) in
                     process_lines parse_line (S (length b))
                 | _ => ret tt
                 end
             end)
            (ret tt)
            ({| buf := b; rx := InData (Some (x :: data')) :: rxs |},
             (stamp (clock h) d, h))
          = (Ok tt, ({| buf := rest; rx := rxs |}, st1))).
  { apply try_except_ok.
    erewrite bind_ok by reflexivity. cbv beta iota.
    erewrite bind_ok by reflexivity.
    erewrite bind_ok by reflexivity.
    exact Hrun. }
  rewrite (bind_ok _ _ _ _ _ Htry).
  exists lines, rest, (snd (sleep_ms 10 st1)).
  destruct st1 as [d1 h1].
  split; [reflexivity |].
  split; [rewrite (bind_ok _ _ _ _ _ Hh); reflexivity |].
  split; [exact Hcat |]. split; [exact Hall | exact Hno].
Qed.

(** One turn of the loop, whatever the UART gives. *)
Lemma loop_once_steady (io : Io) (d : Detector) (h : Hw) :
  exists io' d' h',
    loop_once parse_line (io, (d, h)) = (Ok tt, (io', (d', h')))
    /\ loop_count d' = loop_count d + 1
    /\ last_loop_ts d' = clock h
    /\ _wdt_triggered d' = _wdt_triggered d
    /\ clock h + 10 <= clock h'
    /\ rx io' = tail (rx io)
    /\ (10 ∉ buf io -> 10 ∉ buf io').
Proof.
  destruct io as [b rx0]. unfold loop_once.
  assert (Hnow : on_detector ticks_ms ({| buf := b; rx := rx0 |}, (d, h))
                 = (Ok (clock h), ({| buf := b; rx := rx0 |}, (d, h))))
    by reflexivity.
  rewrite (bind_ok _ _ _ _ _ Hnow).
  assert (Hstamp : on_detector (bump (stamp (clock h)))
                     ({| buf := b; rx := rx0 |}, (d, h))
                   = (Ok tt, ({| buf := b; rx := rx0 |}, (stamp (clock h) d, h))))
    by reflexivity.
  rewrite (bind_ok _ _ _ _ _ Hstamp).
  assert (Hidle : forall rxs,
            exists io' d' h',
              (on_detector (sleep_ms 10))
                ({| buf := b; rx := rxs |}, (stamp (clock h) d, h))
              = (Ok tt, (io', (d', h')))
              /\ loop_count d' = loop_count d + 1
              /\ last_loop_ts d' = clock h
              /\ _wdt_triggered d' = _wdt_triggered d
              /\ clock h + 10 <= clock h'
              /\ rx io' = rxs
              /\ (10 ∉ b -> 10 ∉ buf io')).
  { intros rxs. eexists _, _, _. split; [reflexivity |].
    cbn [stamp loop_count last_loop_ts _wdt_triggered clock rx buf].
    repeat split; try lia. auto. }
  destruct rx0 as [| [| [[| x data'] |] |] rxs]; cbn [tail rx buf].
  - erewrite bind_ok by (apply try_except_ok; reflexivity). apply Hidle.
  - erewrite bind_ok by (apply try_except_ok; reflexivity). apply Hidle.
  - erewrite bind_ok by (apply try_except_ok; reflexivity). apply Hidle.
  - destruct (process_lines_run (S (length (b ++ x :: data'))) (b ++ x :: data') rxs
                (stamp (clock h) d, h) ltac:(lia))
      as (lines & rest & [d1 h1] & Hrun & Hh & _ & _ & Hno).
    destruct (handle_lines_steady lines (stamp (clock h) d) h)
      as (d1' & h1' & Hh' & Hl & Ht & Hw & Hc).
    rewrite Hh in Hh'. injection Hh' as <- <-.
    erewrite bind_ok.
    2:{ apply try_except_ok.
        erewrite bind_ok by reflexivity. cbv beta iota.
        erewrite bind_ok by reflexivity.
        erewrite bind_ok by reflexivity.
        exact Hrun. }
    eexists _, _, _. split; [reflexivity |].
    cbn [stamp loop_count last_loop_ts _wdt_triggered clock rx buf] in *.
    repeat split; try lia; try congruence.
  - erewrite bind_ok by (apply try_except_ok; reflexivity). apply Hidle.
  - erewrite bind_ok by (erewrite try_except_raise by reflexivity; reflexivity).
    apply Hidle.
Qed.

(** X27. The main loop keeps running: whatever the UART gives or
    raises and whatever the lines hold, no exception leaves a turn.
    After [turns] turns the loop counter has gone up by [turns], at
    least 10 ms have passed per turn, the watchdog flag is as it was,
    and a buffer that held no complete line holds none. *)
Theorem main_loop_keeps_running (turns : nat) (io : Io) (d : Detector) (h : Hw) :
  exists io' d' h',
    main_loop parse_line turns (io, (d, h)) = (Ok tt, (io', (d', h')))
    /\ loop_count d' = loop_count d + Z.of_nat turns
    /\ _wdt_triggered d' = _wdt_triggered d
    /\ clock h + 10 * Z.of_nat turns <= clock h'
    /\ (10 ∉ buf io -> 10 ∉ buf io').
Proof.
  revert io d h. induction turns as [| n IH]; intros io d h.
  - exists io, d, h. split; [reflexivity |]. repeat split; try lia. auto.
  - destruct (loop_once_steady io d h)
      as (io1 & d1 & h1 & Hone & Hl1 & _ & Hw1 & Hc1 & _ & Hb1).
    cbn [main_loop]. rewrite (bind_ok _ _ _ _ _ Hone).
    destruct (IH io1 d1 h1) as (io2 & d2 & h2 & Hrun & Hl2 & Hw2 & Hc2 & Hb2).
    exists io2, d2, h2. split; [exact Hrun |].
    repeat split; try lia; try congruence. auto.
Qed.

(** X28. A turn of the loop holds the watchdog off: after a turn that
    started at time [t0], a firing of the checker at any time up to
    [t0 + 30000] sets no flag, blinks nothing and restarts nothing,
    however old the progress timestamp was before the turn. *)
Theorem loop_turn_holds_off_watchdog (io : Io) (d : Detector) (h : Hw) (t : Z) :
  _wdt_triggered d = false ->
  t <= clock h + WATCHDOG_MS ->
  exists io' d' h' h'',
    loop_once parse_line (io, (d, h)) = (Ok tt, (io', (d', h')))
    /\ fire_at t (d', h') = (Ok tt, (d', h''))
    /\ log h'' = log h'.
Proof.
  intros Hflag Ht.
  destruct (loop_once_steady io d h)
    as (io1 & d1 & h1 & Hone & _ & Hts & Hw1 & _).
  exists io1, d1, h1, (at_clock t h1). split; [exact Hone |].
  split; [| reflexivity].
  apply fire_at_in_time; [congruence |].
  unfold past_deadline, ticks_diff. rewrite Hts. lia.
Qed.

End DetectorLoop.

Lemma loop_once_handles_complete_lines_witness :
  exists lines rest st',
    dd_loop.loop_once parse_as_poll_01 (io_split_line, (booted "01", hw_with_nvs []))
    = (Ok tt, ({| dd_loop.buf := rest; dd_loop.rx := [] |}, st'))
    /\ (handle_lines parse_as_poll_01 lines ;; dd_main.sleep_ms 10)
         (stamped (booted "01", hw_with_nvs [])) = (Ok tt, st')
    /\ (concat lines ++ rest)%list
       = (dd_loop.buf io_split_line ++ drop 3 poll_01_line)%list
    /\ Forall complete_line lines
    /\ 10 ∉ rest.
Proof.
  apply (loop_once_handles_complete_lines parse_as_poll_01 io_split_line
           (booted "01", hw_with_nvs []) (drop 3 poll_01_line) []);
    [reflexivity | discriminate].
Defined.

Lemma loop_turn_holds_off_watchdog_witness :
  exists io' d' h' h'',
    dd_loop.loop_once parse_as_poll_01 (io_split_line, (booted "01", hw_overdue))
    = (Ok tt, (io', (d', h')))
    /\ dd_main.fire_at 60000 (d', h') = (Ok tt, (d', h''))
    /\ dd_main.log h'' = dd_main.log h'.
Proof.
  apply (loop_turn_holds_off_watchdog parse_as_poll_01 io_split_line
           (booted "01") hw_overdue 60000);
    [reflexivity | vm_compute; discriminate].
Defined.

(** ** The screen *)

Section Screen.
Import ta_config ta_radio_433 ta_app ta_ui ta_app_ui.

Lemma update_group_state_run (i : nat) (s : option bool) (ui : UI) :
  ui_sized ui ->
  (i < 5)%nat ->
  update_group (Z.of_nat i) s None None None ui = (Ok tt, put_state i s ui).
Proof.
  intros (Hn & Hg & Hc) Hi. unfold update_group.
  erewrite bind_ok by reflexivity. rewrite Hn.
  replace ((0 <=? Z.of_nat i) && (Z.of_nat i <? 5)) with true
    by (symmetry; apply andb_true_intro; split;
        [apply Z.leb_le | apply Z.ltb_lt]; lia).
  cbn [negb]. erewrite bind_ok by reflexivity.
  destruct (lookup_lt_is_Some_2 (groups ui) i ltac:(lia)) as [g Eg].
  destruct (lookup_lt_is_Some_2 (_group_states_cache ui) i ltac:(lia)) as [c Ec].
  unfold put_state, cached. rewrite Eg.
  destruct s as [b |].
  2:{ do 3 (erewrite bind_ok by reflexivity). reflexivity. }
  assert (Hget : get_cache (Z.of_nat i) ui = (Ok c, ui)).
  { unfold get_cache. rewrite Nat2Z.id, Ec. reflexivity. }
  rewrite Ec.
  destruct (bool_decide (c = Some b)) eqn:Ecb.
  - apply bool_decide_eq_true in Ecb. subst c.
    rewrite bool_decide_eq_true_2 by reflexivity.
    erewrite bind_ok.
    2:{ rewrite (bind_ok _ _ _ _ _ Hget).
        rewrite bool_decide_eq_true_2 by reflexivity. reflexivity. }
    do 2 (erewrite bind_ok by reflexivity). reflexivity.
  - apply bool_decide_eq_false in Ecb.
    rewrite bool_decide_eq_false_2 by congruence.
    erewrite bind_ok.
    2:{ rewrite (bind_ok _ _ _ _ _ Hget).
        rewrite bool_decide_eq_false_2 by exact Ecb. cbn [negb].
        erewrite bind_ok.
        2:{ unfold set_group. rewrite Nat2Z.id, Eg. reflexivity. }
        erewrite bind_ok.
        2:{ unfold set_cache. cbn [_group_states_cache]. rewrite Nat2Z.id, Ec.
            reflexivity. }
        reflexivity. }
    do 2 (erewrite bind_ok by reflexivity). cbv beta iota.
    erewrite bind_ok by reflexivity. cbn [_dirty_tracking].
    destruct (_dirty_tracking ui) eqn:Eflag.
    + reflexivity.
    + unfold _draw_group. erewrite bind_ok.
      2:{ unfold get_group. cbn [groups]. rewrite Nat2Z.id.
          rewrite list_lookup_insert_eq by lia. reflexivity. }
      reflexivity.
Qed.

Lemma put_state_sized (i : nat) (s : option bool) (ui : UI) :
  ui_sized ui ->
  ui_sized (put_state i s ui)
  /\ _dirty_tracking (put_state i s ui) = _dirty_tracking ui.
Proof.
  intros (Hn & Hg & Hc). unfold put_state.
  destruct s as [b |]; [| repeat split; assumption].
  destruct (groups ui !! i) as [g |]; [| repeat split; assumption].
  destruct (bool_decide _); [repeat split; assumption |].
  unfold ui_sized. cbn [group_count groups _group_states_cache _dirty_tracking].
  rewrite !length_insert. repeat split; assumption.
Qed.

Lemma cached_put_state (i j : nat) (s : option bool) (ui : UI) :
  ui_sized ui ->
  (i < 5)%nat ->
  cached (put_state i s ui) j
  = if decide (j = i)
    then match s with Some b => Some (Some b) | None => cached ui j end
    else cached ui j.
Proof.
  intros (Hn & Hg & Hc) Hi. unfold put_state.
  destruct s as [b |]; [| destruct (decide (j = i)); reflexivity].
  destruct (lookup_lt_is_Some_2 (groups ui) i ltac:(lia)) as [g Eg]. rewrite Eg.
  destruct (bool_decide (cached ui i = Some (Some b))) eqn:E.
  - apply bool_decide_eq_true in E.
    destruct (decide (j = i)) as [-> |]; [exact E | reflexivity].
  - unfold cached. cbn [_group_states_cache].
    destruct (decide (j = i)) as [-> | Hne].
    + apply list_lookup_insert_eq. lia.
    + apply list_lookup_insert_ne. congruence.
Qed.

Lemma put_state_synced (i : nat) (s : option bool) (ui : UI) :
  ui_sized ui ->
  (i < 5)%nat ->
  (forall k, shown ui k = cached ui k) ->
  forall k, shown (put_state i s ui) k = cached (put_state i s ui) k.
Proof.
  intros (Hn & Hg & Hc) Hi Hsync k. unfold put_state.
  destruct s as [b |]; [| apply Hsync].
  destruct (groups ui !! i) as [g |] eqn:Eg; [| apply Hsync].
  destruct (bool_decide _); [apply Hsync |].
  specialize (Hsync k). unfold shown, cached in *. cbn [groups _group_states_cache].
  destruct (decide (k = i)) as [-> | Hne].
  - rewrite !list_lookup_insert_eq by lia. reflexivity.
  - rewrite !list_lookup_insert_ne by congruence. exact Hsync.
Qed.

Lemma put_state_marks (i : nat) (s : option bool) (ui : UI) :
  ui_sized ui ->
  (i < 5)%nat ->
  (_dirty_tracking ui = true ->
   drawn (put_state i s ui) = drawn ui
   /\ forall z, z ∈ _dirty_groups (put_state i s ui)
               <-> z ∈ _dirty_groups ui
                   \/ (z = Z.of_nat i
                       /\ exists b, s = Some b /\ cached ui i <> Some (Some b)))
  /\ (_dirty_tracking ui = false ->
      _dirty_groups (put_state i s ui) = _dirty_groups ui
      /\ exists extra,
           drawn (put_state i s ui) = drawn ui ++ extra
           /\ forall z, z ∈ extra.*1
                        <-> z = Z.of_nat i
                            /\ exists b, s = Some b /\ cached ui i <> Some (Some b)).
Proof.
  intros (Hn & Hg & Hc) Hi.
  assert (Hnone : forall z : Z, ~ z ∈ ([] : list (Z * Color)).*1).
  { intros z Hz. cbn in Hz. apply elem_of_nil in Hz. exact Hz. }
  unfold put_state.
  destruct s as [b |].
  2:{ split; intros Hflag.
      - split; [reflexivity |]. intros z. split; [auto |].
        intros [H | (_ & b & Hb & _)]; [exact H | discriminate].
      - split; [reflexivity |]. exists []. rewrite app_nil_r. split; [reflexivity |].
        intros z. split; [intros Hz; destruct (Hnone z Hz) |].
        intros (_ & b & Hb & _). discriminate. }
  destruct (lookup_lt_is_Some_2 (groups ui) i ltac:(lia)) as [g Eg]. rewrite Eg.
  destruct (bool_decide (cached ui i = Some (Some b))) eqn:E.
  - apply bool_decide_eq_true in E. split; intros Hflag.
    + split; [reflexivity |]. intros z. split; [auto |].
      intros [H | (_ & b' & Hb & Hne)]; [exact H |].
      injection Hb as <-. contradiction.
    + split; [reflexivity |]. exists []. rewrite app_nil_r. split; [reflexivity |].
      intros z. split; [intros Hz; destruct (Hnone z Hz) |].
      intros (_ & b' & Hb & Hne). injection Hb as <-. contradiction.
  - apply bool_decide_eq_false in E.
    cbn [drawn _dirty_groups]. split; intros Hflag; rewrite Hflag.
    + split; [reflexivity |]. intros z.
      rewrite elem_of_union, elem_of_singleton. split.
      * intros [-> | H]; [right; split; [reflexivity | eauto] | left; exact H].
      * intros [H | (-> & _)]; [right; exact H | left; reflexivity].
    + split; [reflexivity |]. eexists. split; [reflexivity |].
      intros z. cbn [fmap list_fmap fst]. rewrite list_elem_of_singleton. split.
      * intros ->. split; [reflexivity | eauto].
      * intros (-> & _). reflexivity.
Qed.

Lemma puts_cons (app : TaApp) (p : Z * Z) (l : list (Z * Z)) (ui : UI) :
  puts app (p :: l) ui
  = puts app l (put_state (Z.to_nat (fst p)) (display_of app (snd p)) ui).
Proof. reflexivity. Qed.

Lemma box_in_range (z : Z) : 0 <= z < 5 -> (Z.to_nat z < 5)%nat.
Proof. lia. Qed.

Lemma puts_sized (app : TaApp) (l : list (Z * Z)) (ui : UI) :
  boxes_valid l ->
  ui_sized ui ->
  ui_sized (puts app l ui)
  /\ _dirty_tracking (puts app l ui) = _dirty_tracking ui.
Proof.
  intros Hl. revert ui. induction Hl as [| p l Hp Hl IH]; intros ui Hui.
  - split; [exact Hui | reflexivity].
  - rewrite puts_cons.
    destruct (put_state_sized (Z.to_nat (fst p)) (display_of app (snd p)) ui Hui)
      as [H1 Hf1].
    destruct (IH _ H1) as [H2 Hf2]. split; [exact H2 | congruence].
Qed.

Lemma puts_synced (app : TaApp) (l : list (Z * Z)) (ui : UI) :
  boxes_valid l ->
  ui_sized ui ->
  (forall k, shown ui k = cached ui k) ->
  forall k, shown (puts app l ui) k = cached (puts app l ui) k.
Proof.
  intros Hl. revert ui. induction Hl as [| p l Hp Hl IH]; intros ui Hui Hsync.
  - exact Hsync.
  - rewrite puts_cons. apply IH.
    + apply put_state_sized, Hui.
    + apply put_state_synced; [exact Hui | apply box_in_range, Hp | exact Hsync].
Qed.

Lemma cached_puts_other (app : TaApp) (l : list (Z * Z)) (ui : UI) (z : Z) :
  boxes_valid l ->
  ui_sized ui ->
  0 <= z < 5 ->
  z ∉ l.*1 ->
  cached (puts app l ui) (Z.to_nat z) = cached ui (Z.to_nat z).
Proof.
  intros Hl. revert ui. induction Hl as [| p l Hp Hl IH]; intros ui Hui Hz Hout.
  - reflexivity.
  - rewrite puts_cons. cbn [fmap list_fmap] in Hout.
    apply not_elem_of_cons in Hout as [Hne Hout].
    rewrite IH; [| apply put_state_sized, Hui | exact Hz | exact Hout].
    rewrite cached_put_state; [| exact Hui | apply box_in_range, Hp].
    destruct (decide (Z.to_nat z = Z.to_nat (fst p))) as [E |]; [| reflexivity].
    exfalso. apply Hne. lia.
Qed.

Lemma cached_puts_in (app : TaApp) (l : list (Z * Z)) (ui : UI) (z gid : Z) :
  boxes_valid l ->
  NoDup l.*1 ->
  ui_sized ui ->
  (z, gid) ∈ l ->
  cached (puts app l ui) (Z.to_nat z)
  = match display_of app gid with
    | Some b => Some (Some b)
    | None => cached ui (Z.to_nat z)
    end.
Proof.
  intros Hl. revert ui. induction Hl as [| p l Hp Hl IH]; intros ui Hnd Hui Hin.
  - apply elem_of_nil in Hin. contradiction.
  - rewrite puts_cons. cbn [fmap list_fmap] in Hnd.
    apply NoDup_cons in Hnd as [Hfresh Hnd].
    pose proof (put_state_sized (Z.to_nat (fst p)) (display_of app (snd p)) ui Hui)
      as [Hui1 _].
    apply elem_of_cons in Hin as [<- | Hin].
    + cbn [fst snd] in *.
      rewrite cached_puts_other by assumption.
      rewrite cached_put_state by (try assumption; apply box_in_range, Hp).
      rewrite decide_True by reflexivity. reflexivity.
    + assert (Hz : 0 <= z < 5).
      { exact (proj1 (list.Forall_forall _ _) Hl (z, gid) Hin). }
      assert (Hne : z <> fst p).
      { intros ->. apply Hfresh. apply list_elem_of_fmap. exists (fst p, gid).
        split; [reflexivity | exact Hin]. }
      rewrite (IH _ Hnd Hui1 Hin).
      rewrite cached_put_state by (try assumption; apply box_in_range, Hp).
      destruct (decide (Z.to_nat z = Z.to_nat (fst p))) as [E |]; [| reflexivity].
      exfalso. apply Hne. lia.
Qed.

(** Not yet handled boxes are judged the same after a first box was
    handled. *)
Lemma to_repaint_later (app : TaApp) (p : Z * Z) (l : list (Z * Z)) (ui : UI) (z : Z) :
  0 <= fst p < 5 ->
  boxes_valid l ->
  fst p ∉ l.*1 ->
  ui_sized ui ->
  to_repaint app l (put_state (Z.to_nat (fst p)) (display_of app (snd p)) ui) z
  <-> to_repaint app l ui z.
Proof.
  intros Hp Hl Hfresh Hui.
  assert (Hsame : forall gid, (z, gid) ∈ l ->
            cached (put_state (Z.to_nat (fst p)) (display_of app (snd p)) ui)
              (Z.to_nat z)
            = cached ui (Z.to_nat z)).
  { intros gid Hin.
    assert (Hz : 0 <= z < 5).
    { exact (proj1 (list.Forall_forall _ _) Hl (z, gid) Hin). }
    rewrite cached_put_state by (try assumption; apply box_in_range, Hp).
    destruct (decide (Z.to_nat z = Z.to_nat (fst p))) as [E |]; [| reflexivity].
    exfalso. apply Hfresh. apply list_elem_of_fmap. exists (z, gid).
    split; [cbn; lia | exact Hin]. }
  unfold to_repaint. split; intros (gid & b & Hin & Hd & Hc);
    exists gid, b; (split; [exact Hin |]; split; [exact Hd |]);
    [rewrite <- (Hsame gid Hin) | rewrite (Hsame gid Hin)]; exact Hc.
Qed.

Lemma to_repaint_cons (app : TaApp) (p : Z * Z) (l : list (Z * Z)) (ui : UI) (z : Z) :
  fst p ∉ l.*1 ->
  to_repaint app (p :: l) ui z
  <-> (z = fst p
       /\ exists b, display_of app (snd p) = Some b
                    /\ cached ui (Z.to_nat (fst p)) <> Some (Some b))
      \/ to_repaint app l ui z.
Proof.
  intros Hfresh. unfold to_repaint. split.
  - intros (gid & b & Hin & Hd & Hc). apply elem_of_cons in Hin as [<- | Hin].
    + left. split; [reflexivity | eauto].
    + right. eauto.
  - intros [(-> & b & Hd & Hc) | (gid & b & Hin & Hd & Hc)].
    + exists (snd p), b. split; [destruct p; left | split; assumption].
    + exists gid, b. split; [right; exact Hin | split; assumption].
Qed.

Lemma puts_marks_tracking (app : TaApp) (l : list (Z * Z)) (ui : UI) :
  boxes_valid l ->
  NoDup l.*1 ->
  ui_sized ui ->
  _dirty_tracking ui = true ->
  drawn (puts app l ui) = drawn ui
  /\ forall z, z ∈ _dirty_groups (puts app l ui)
              <-> z ∈ _dirty_groups ui \/ to_repaint app l ui z.
Proof.
  intros Hl. revert ui. induction Hl as [| p l Hp Hl IH]; intros ui Hnd Hui Hflag.
  - split; [reflexivity |]. intros z. split; [auto |].
    intros [H | (gid & b & Hin & _)]; [exact H |].
    apply elem_of_nil in Hin. contradiction.
  - rewrite puts_cons. cbn [fmap list_fmap] in Hnd.
    apply NoDup_cons in Hnd as [Hfresh Hnd].
    pose proof (put_state_sized (Z.to_nat (fst p)) (display_of app (snd p)) ui Hui)
      as [Hui1 Hf1].
    destruct (put_state_marks (Z.to_nat (fst p)) (display_of app (snd p)) ui Hui
                (box_in_range _ Hp)) as [Hmark _].
    destruct (Hmark Hflag) as [Hd1 Hm1].
    destruct (IH _ Hnd Hui1 ltac:(congruence)) as [Hd2 Hm2].
    split; [congruence |]. intros z.
    rewrite Hm2, Hm1, to_repaint_later by assumption.
    rewrite to_repaint_cons by assumption.
    rewrite Z2Nat.id by lia. tauto.
Qed.

Lemma puts_marks_direct (app : TaApp) (l : list (Z * Z)) (ui : UI) :
  boxes_valid l ->
  NoDup l.*1 ->
  ui_sized ui ->
  _dirty_tracking ui = false ->
  _dirty_groups (puts app l ui) = _dirty_groups ui
  /\ exists extra,
       drawn (puts app l ui) = drawn ui ++ extra
       /\ forall z, z ∈ extra.*1 <-> to_repaint app l ui z.
Proof.
  intros Hl. revert ui. induction Hl as [| p l Hp Hl IH]; intros ui Hnd Hui Hflag.
  - split; [reflexivity |]. exists []. rewrite app_nil_r. split; [reflexivity |].
    intros z. split.
    + intros Hz. cbn in Hz. apply elem_of_nil in Hz. contradiction.
    + intros (gid & b & Hin & _). apply elem_of_nil in Hin. contradiction.
  - rewrite puts_cons. cbn [fmap list_fmap] in Hnd.
    apply NoDup_cons in Hnd as [Hfresh Hnd].
    pose proof (put_state_sized (Z.to_nat (fst p)) (display_of app (snd p)) ui Hui)
      as [Hui1 Hf1].
    destruct (put_state_marks (Z.to_nat (fst p)) (display_of app (snd p)) ui Hui
                (box_in_range _ Hp)) as [_ Hmark].
    destruct (Hmark Hflag) as (Hd1 & extra1 & He1 & Hm1).
    destruct (IH _ Hnd Hui1 ltac:(congruence)) as (Hd2 & extra2 & He2 & Hm2).
    split; [congruence |]. exists (extra1 ++ extra2).
    split; [rewrite He2, He1, app_assoc; reflexivity |].
    intros z. rewrite fmap_app, elem_of_app, Hm1, Hm2.
    rewrite to_repaint_later by assumption.
    rewrite to_repaint_cons by assumption.
    rewrite Z2Nat.id by lia. tauto.
Qed.

Lemma refresh_each_run (app : TaApp) (l : list (Z * Z)) (ui : UI) :
  boxes_valid l ->
  ui_sized ui ->
  refresh_each l (app, ui) = (Ok tt, (app, puts app l ui)).
Proof.
  intros Hl. revert ui. induction Hl as [| [z gid] l Hp Hl IH]; intros ui Hui.
  - reflexivity.
  - cbn [refresh_each]. erewrite bind_ok by reflexivity. cbn [fst snd] in *.
    erewrite bind_ok.
    2:{ unfold on_ui. rewrite <- (Z2Nat.id z) at 1 by lia.
        rewrite update_group_state_run by (try assumption; lia). reflexivity. }
    rewrite puts_cons. apply IH. apply put_state_sized, Hui.
Qed.

Lemma draw_each_run (l : list Z) (ui : UI) :
  ui_sized ui ->
  Forall (fun z => 0 <= z < 5) l ->
  draw_each l ui = (Ok tt, add_drawn (map (fun z => (z, box_colour ui z)) l) ui).
Proof.
  intros Hui Hl. revert ui Hui. induction Hl as [| z l Hz Hl IH]; intros ui Hui.
  - cbn [draw_each map]. unfold add_drawn. rewrite app_nil_r. destruct ui; reflexivity.
  - cbn [draw_each map].
    destruct Hui as (Hn & Hg & Hc).
    destruct (lookup_lt_is_Some_2 (groups ui) (Z.to_nat z) ltac:(lia)) as [g Eg].
    assert (Hone : _draw_group z ui = (Ok tt, add_drawn [(z, box_colour ui z)] ui)).
    { unfold _draw_group, get_group, bind, box_colour, shown. rewrite Eg. reflexivity. }
    rewrite (bind_ok _ _ _ _ _ Hone).
    rewrite IH by (repeat split; assumption).
    unfold add_drawn. cbn [drawn groups group_count _dirty_tracking
                           _group_states_cache _dirty_groups].
    rewrite <- app_assoc. reflexivity.
Qed.

Lemma render_dirty_run (ui : UI) :
  ui_sized ui ->
  (forall z, z ∈ _dirty_groups ui -> 0 <= z < 5) ->
  render_dirty ui = (Ok tt, rendered ui).
Proof.
  intros Hui Hd. unfold render_dirty.
  erewrite bind_ok by reflexivity.
  rewrite (bind_ok _ _ _ _ _ (draw_each_run (elements (_dirty_groups ui)) ui Hui
             ltac:(apply Forall_forall; intros z Hz; apply Hd, elem_of_elements, Hz))).
  reflexivity.
Qed.

Lemma enumerate_group_ids :
  enumerate GROUP_IDS = [(0, 1); (1, 2); (2, 3); (3, 4); (4, 5)].
Proof. reflexivity. Qed.

Lemma group_boxes_valid : boxes_valid (enumerate GROUP_IDS).
Proof.
  rewrite enumerate_group_ids. unfold boxes_valid.
  repeat constructor; cbn; lia.
Qed.

Lemma group_boxes_distinct : NoDup (enumerate GROUP_IDS).*1.
Proof.
  rewrite enumerate_group_ids. cbn.
  repeat (apply NoDup_cons; split;
          [rewrite ?not_elem_of_cons; repeat split;
           try discriminate; apply not_elem_of_nil |]).
  apply NoDup_nil. exact I.
Qed.

Lemma group_box_of (idx : nat) (gid : Z) :
  GROUP_IDS !! idx = Some gid ->
  (Z.of_nat idx, gid) ∈ enumerate GROUP_IDS /\ (idx < 5)%nat.
Proof.
  intros H. rewrite enumerate_group_ids.
  do 5 (destruct idx as [| idx];
        [injection H as <-; split; [| lia];
         rewrite !elem_of_cons; tauto |]).
  discriminate.
Qed.

Lemma group_box_unique (z g g' : Z) :
  (z, g) ∈ enumerate GROUP_IDS -> (z, g') ∈ enumerate GROUP_IDS -> g = g'.
Proof.
  rewrite enumerate_group_ids. intros H1 H2.
  repeat (apply elem_of_cons in H1 as [H1 | H1]);
    try (apply elem_of_nil in H1; contradiction);
    repeat (apply elem_of_cons in H2 as [H2 | H2]);
    try (apply elem_of_nil in H2; contradiction);
    congruence.
Qed.

(** What a refresh makes of a UI that is ready. *)
Lemma _refresh_ui_run (app : TaApp) (ui : UI) :
  ui_ready ui ->
  _refresh_ui (app, ui)
  = (Ok tt, (app, rendered (puts app (enumerate GROUP_IDS) ui))).
Proof.
  intros (Hui & Hsync & Hclean). unfold _refresh_ui.
  apply try_except_ok.
  rewrite (bind_ok _ _ _ _ _
             (refresh_each_run app _ ui group_boxes_valid Hui)).
  change DIRTY_TRACKING with true. cbv iota.
  unfold on_ui. rewrite render_dirty_run; [reflexivity | |].
  - apply puts_sized; [apply group_boxes_valid | exact Hui].
  - intros z Hz.
    destruct (_dirty_tracking ui) eqn:Hflag.
    + destruct (puts_marks_tracking app _ ui group_boxes_valid group_boxes_distinct
                  Hui Hflag) as [_ Hm].
      apply Hm in Hz as [Hz | (gid & b & Hin & _)].
      * rewrite Hclean in Hz. apply elem_of_empty in Hz. contradiction.
      * exact (proj1 (list.Forall_forall _ _) group_boxes_valid (z, gid) Hin).
    + destruct (puts_marks_direct app _ ui group_boxes_valid group_boxes_distinct
                  Hui Hflag) as [Hd _].
      rewrite Hd, Hclean in Hz. apply elem_of_empty in Hz. contradiction.
Qed.

Lemma rendered_ready (ui : UI) :
  ui_sized ui ->
  (forall k, shown ui k = cached ui k) ->
  ui_ready (rendered ui).
Proof.
  intros Hui Hsync. split; [exact Hui |]. split; [exact Hsync | reflexivity].
Qed.

Lemma painted_since_rendered (app : TaApp) (ui : UI) (z : Z) :
  ui_ready ui ->
  z ∈ painted_since ui (rendered (puts app (enumerate GROUP_IDS) ui))
  <-> to_repaint app (enumerate GROUP_IDS) ui z.
Proof.
  intros (Hui & Hsync & Hclean). unfold painted_since, rendered. cbn [drawn].
  destruct (_dirty_tracking ui) eqn:Hflag.
  - destruct (puts_marks_tracking app _ ui group_boxes_valid group_boxes_distinct
                Hui Hflag) as [Hd Hm].
    rewrite Hd, drop_app_length.
    rewrite <- list_fmap_compose.
    rewrite list_elem_of_fmap. split.
    + intros (y & -> & Hy). apply elem_of_elements, Hm in Hy as [Hy | Hy]; [| exact Hy].
      rewrite Hclean in Hy. apply elem_of_empty in Hy. contradiction.
    + intros Hz. exists z. split; [reflexivity |].
      apply elem_of_elements, Hm. right. exact Hz.
  - destruct (puts_marks_direct app _ ui group_boxes_valid group_boxes_distinct
                Hui Hflag) as (Hd & extra & He & Hm).
    rewrite Hd, Hclean, elements_empty. cbn [map]. rewrite app_nil_r.
    rewrite He, drop_app_length. apply Hm.
Qed.

(** X29. A refresh of the screen brings the box of every device whose
    state is PRESENT or ABSENT in the table to that state, and paints
    exactly the boxes whose state to show is not the one last handed
    over; it leaves every other box as it was.  In particular the box
    of a device whose state is UNKNOWN (or missing) is neither changed
    nor painted: a device shown as present that stops answering stays
    shown as present.  The refresh counts no error and leaves the UI
    ready for the next one. *)
Theorem refresh_ui_shows_known_states (app : TaApp) (ui : UI) (idx : nat) (gid : Z) :
  ui_ready ui ->
  GROUP_IDS !! idx = Some gid ->
  exists ui',
    _refresh_ui (app, ui) = (Ok tt, (app, ui'))
    /\ ui_ready ui'
    /\ shown ui' idx
       = match display_of app gid with
         | Some b => Some (Some b)
         | None => shown ui idx
         end
    /\ (Z.of_nat idx ∈ painted_since ui ui'
        <-> exists b, display_of app gid = Some b
                      /\ cached ui idx <> Some (Some b)).
Proof.
  intros Hready Hidx.
  pose proof Hready as (Hui & Hsync & Hclean).
  destruct (group_box_of idx gid Hidx) as [Hin Hlt].
  pose proof (puts_sized app _ ui group_boxes_valid Hui) as [Hui' _].
  pose proof (puts_synced app _ ui group_boxes_valid Hui Hsync) as Hsync'.
  exists (rendered (puts app (enumerate GROUP_IDS) ui)).
  split; [apply _refresh_ui_run; exact Hready |].
  split; [apply rendered_ready; assumption |].
  split.
  - change (shown (rendered (puts app (enumerate GROUP_IDS) ui)) idx)
      with (shown (puts app (enumerate GROUP_IDS) ui) idx).
    rewrite Hsync', Hsync.
    pose proof (cached_puts_in app _ ui (Z.of_nat idx) gid group_boxes_valid
                  group_boxes_distinct Hui Hin) as H.
    rewrite Nat2Z.id in H. exact H.
  - rewrite painted_since_rendered by exact Hready.
    unfold to_repaint. rewrite Nat2Z.id. split.
    + intros (gid' & b & Hin' & Hd & Hc).
      rewrite (group_box_unique _ _ _ Hin' Hin) in Hd. eauto.
    + intros (b & Hd & Hc). eauto.
Qed.

Lemma puts_settled (app : TaApp) (l : list (Z * Z)) (ui : UI) :
  (forall z gid b, (z, gid) ∈ l -> display_of app gid = Some b ->
                   cached ui (Z.to_nat z) = Some (Some b)) ->
  puts app l ui = ui.
Proof.
  induction l as [| [z gid] l IH]; intros Hall; [reflexivity |].
  rewrite puts_cons. cbn [fst snd].
  assert (Hput : put_state (Z.to_nat z) (display_of app gid) ui = ui).
  { unfold put_state. destruct (display_of app gid) as [b |] eqn:Hd; [| reflexivity].
    destruct (groups ui !! Z.to_nat z); [| reflexivity].
    rewrite bool_decide_eq_true_2; [reflexivity |].
    apply (Hall z gid b); [left | exact Hd]. }
  rewrite Hput. apply IH. intros z' gid' b' Hin. apply Hall. right. exact Hin.
Qed.

(** X30. A second refresh over the same table changes nothing and
    paints nothing: the screen is only painted when the table has
    changed. *)
Theorem refresh_ui_twice_paints_once (app : TaApp) (ui : UI) :
  ui_ready ui ->
  exists ui',
    _refresh_ui (app, ui) = (Ok tt, (app, ui'))
    /\ _refresh_ui (app, ui') = (Ok tt, (app, ui')).
Proof.
  intros Hready.
  pose proof Hready as (Hui & Hsync & Hclean).
  pose proof (puts_sized app _ ui group_boxes_valid Hui) as [Hui' _].
  pose proof (puts_synced app _ ui group_boxes_valid Hui Hsync) as Hsync'.
  set (ui' := rendered (puts app (enumerate GROUP_IDS) ui)).
  exists ui'. split; [apply _refresh_ui_run; exact Hready |].
  rewrite _refresh_ui_run by (apply rendered_ready; assumption).
  rewrite puts_settled.
  - unfold ui', rendered. cbn [_dirty_groups drawn group_count groups
                               _dirty_tracking _group_states_cache].
    rewrite elements_empty. cbn [map]. rewrite app_nil_r. reflexivity.
  - intros z gid b Hin Hd.
    change (cached ui' (Z.to_nat z))
      with (cached (puts app (enumerate GROUP_IDS) ui) (Z.to_nat z)).
    rewrite (cached_puts_in app _ ui z gid group_boxes_valid group_boxes_distinct
               Hui Hin), Hd.
    reflexivity.
Qed.

Lemma ui_fresh_ready : ui_ready ui_fresh.
Proof.
  split; [repeat split |]. split; [| reflexivity].
  intros i. do 5 (destruct i as [| i]; [reflexivity |]). reflexivity.
Qed.

Lemma ui_showing_1_ready : ui_ready ui_showing_1.
Proof.
  split; [repeat split |]. split; [| reflexivity].
  intros i. do 5 (destruct i as [| i]; [reflexivity |]). reflexivity.
Qed.

Lemma refresh_ui_shows_known_states_witness :
  display_of app_lost_1 1 = None
  /\ shown ui_showing_1 0 = Some (Some true)
  /\ exists ui',
       _refresh_ui (app_lost_1, ui_showing_1) = (Ok tt, (app_lost_1, ui'))
       /\ shown ui' 0 = Some (Some true)
       /\ ~ Z.of_nat 0 ∈ painted_since ui_showing_1 ui'.
Proof.
  assert (Hd : display_of app_lost_1 1 = None) by (vm_compute; reflexivity).
  assert (Hs : shown ui_showing_1 0 = Some (Some true)) by reflexivity.
  split; [exact Hd |]. split; [exact Hs |].
  destruct (refresh_ui_shows_known_states app_lost_1 ui_showing_1 0%nat 1
              ui_showing_1_ready eq_refl)
    as (ui' & Hrun & _ & Hshown & Hpaint).
  exists ui'. split; [exact Hrun |].
  split.
  - rewrite Hshown, Hd. exact Hs.
  - intros Hin. apply Hpaint in Hin as (b & Hb & _).
    rewrite Hd in Hb. discriminate.
Defined.

Lemma refresh_ui_twice_paints_once_witness :
  exists ui',
    _refresh_ui (app_lost_1, ui_fresh) = (Ok tt, (app_lost_1, ui'))
    /\ _refresh_ui (app_lost_1, ui') = (Ok tt, (app_lost_1, ui')).
Proof.
  apply (refresh_ui_twice_paints_once app_lost_1 ui_fresh). exact ui_fresh_ready.
Defined.

End Screen.
